(** * TrainJatri backend: position scan, timeline tags, delay model, crowd store

    A shallow embedding of the core of the TrainJatri backend
    (position_calculator.py, train_timeline_generator.py, delay_simulator.py,
    crowd_validation.py) together with the properties its specification
    states about it.

    Conventions of the embedding:
    - a Python [dict] is a [gmap string _]; a JSON value is a [pyval]; a
      stop of a route is the JSON object the schedule file holds; a [str] is
      a string of code points below 256;
    - a naive [datetime] is a count of microseconds ([Z]); the clock
      ([datetime.now()]) and the draws from [random] are explicit
      arguments;
    - the state of an object ([historical_patterns], [validations]) is
      passed in and returned;
    - the modules named after the classes give a call one reading of the
      clock, naive datetimes inside the range of [datetime], stops that are
      objects, and exact rationals ([Q]) for Python [float]s; what is
      stated over them are bounds, orders and structure, which hold of
      the doubles as well;
    - the module [Runtime] gives the functions for which this is not
      enough as the interpreter runs them: the clock is read at every call
      of [datetime.now()], the arithmetic of the delay and of the report is
      that of doubles, a sum past [datetime.max] raises, a schedule file may
      hold the empty object, and a scan may meet an offset-aware time or an
      entry that is no object;
    - a [try/except] whose body cannot raise on values of the annotated
      types is modelled by its body; where it can, [None] stands for the
      exception and the [except] branch is written out. *)

From Stdlib Require Import ZArith QArith Lia Lqa Ascii String.
From stdpp Require Import gmap strings list.

Local Open Scope Z_scope.
Set Warnings "-register-all".

(** ** Python values *)

(** JSON values as [json.load] produces them. *)
Inductive pyval : Type :=
| PyNone
| PyBool (b : bool)
| PyInt (n : Z)
| PyFloat (x : Q)
| PyStr (s : string)
| PyIso (t : Z)   (* the string [t.isoformat()], kept as the datetime [t] *)
| PyList (items : list pyval)
| PyDict (items : list (string * pyval)).

(** Truth value of an object, as [if v:] and [not v] test it. *)
Definition truthy (v : pyval) : bool :=
  match v with
  | PyNone => false
  | PyBool b => b
  | PyInt n => negb (n =? 0)
  | PyFloat x => negb (Qeq_bool x 0)
  | PyStr s => negb (String.eqb s "")
  | PyIso _ => true
  | PyList items => match items with [] => false | _ => true end
  | PyDict items => match items with [] => false | _ => true end
  end.

(** [v == s] for a string literal [s]. *)
Definition py_eq_str (v : pyval) (s : string) : bool :=
  match v with
  | PyStr s' => String.eqb s' s
  | _ => false
  end.

(** A stop of a route is a JSON object. *)
Abbreviation stop := (gmap string pyval).

(** ** Naive datetimes *)

Module DT.

(** Microseconds since the midnight that starts proleptic ordinal day 0. *)
Definition datetime : Set := Z.

Definition us_per_minute : Z := 60000000.
Definition us_per_hour : Z := 3600000000.
Definition us_per_day : Z := 86400000000.

Definition toordinal (t : datetime) : Z := t / us_per_day.
Definition hour (t : datetime) : Z := (t mod us_per_day) / us_per_hour.
Definition minute (t : datetime) : Z := (t mod us_per_hour) / us_per_minute.

(** [date.weekday()]: Monday is 0; ordinal day 1 is a Monday. *)
Definition weekday (t : datetime) : Z := (toordinal t + 6) mod 7.

(** [t.replace(hour=h, minute=m, second=0, microsecond=0)]. *)
Definition replace_hm (t : datetime) (h m : Z) : datetime :=
  toordinal t * us_per_day + h * us_per_hour + m * us_per_minute.

(** [t + timedelta(minutes=d)]. *)
Definition add_minutes (t : datetime) (d : Z) : datetime :=
  t + d * us_per_minute.

(** [t - timedelta(hours=h)]. *)
Definition sub_hours (t : datetime) (h : Z) : datetime :=
  t - h * us_per_hour.

(** The datetime of ordinal day [d] at [h]:[m]:00. *)
Definition at_hm (d h m : Z) : datetime :=
  d * us_per_day + h * us_per_hour + m * us_per_minute.

End DT.

Abbreviation datetime := DT.datetime.

(** ** Clock strings: [time_str.replace(' BST', '').strip()] and
       [datetime.strptime(_, '%I:%M %p')] *)

Module Strptime.

Definition code (c : ascii) : Z := Z.of_nat (nat_of_ascii c).

(** [str.isspace] on a code point below 256; also what [\s] matches. *)
Definition is_space (c : ascii) : bool :=
  let n := code c in
  ((9 <=? n) && (n <=? 13)) || ((28 <=? n) && (n <=? 32))
  || (n =? 133) || (n =? 160).

Definition in_range (lo hi c : ascii) : bool :=
  (code lo <=? code c) && (code c <=? code hi).

Definition digit (c : ascii) : Z := code c - code "0".

(** Case-insensitive comparison with a lower-case letter. *)
Definition ieq (c lower : ascii) : bool :=
  (code c =? code lower) || (code c =? code lower - 32).

(** [s.replace(' BST', '')]: every occurrence, left to right. *)
Fixpoint replace_BST (s : string) : string :=
  match s with
  | String " " (String "B" (String "S" (String "T" rest))) => replace_BST rest
  | String c rest => String c (replace_BST rest)
  | EmptyString => EmptyString
  end.

Fixpoint lstrip (s : string) : string :=
  match s with
  | String c rest => if is_space c then lstrip rest else s
  | EmptyString => EmptyString
  end.

Fixpoint rstrip (s : string) : string :=
  match s with
  | String c rest =>
      match rstrip rest with
      | EmptyString => if is_space c then EmptyString else String c EmptyString
      | r => String c r
      end
  | EmptyString => EmptyString
  end.

Definition strip (s : string) : string := rstrip (lstrip s).

(** The ways the group [(?P<I>1[0-2]|0[1-9]|[1-9])] matches a prefix, in
    the order the regex engine tries them. *)
Definition match_I (s : string) : list (Z * string) :=
  match s with
  | String c1 rest1 =>
      match rest1 with
      | String c2 rest2 =>
          (if (code c1 =? code "1") && in_range "0" "2" c2
           then [(10 + digit c2, rest2)] else [])
          ++ (if (code c1 =? code "0") && in_range "1" "9" c2
              then [(digit c2, rest2)] else [])
      | EmptyString => []
      end
      ++ (if in_range "1" "9" c1 then [(digit c1, rest1)] else [])
  | EmptyString => []
  end.

(** The group [(?P<M>[0-5]\d|\d)]. *)
Definition match_M (s : string) : list (Z * string) :=
  match s with
  | String c1 rest1 =>
      match rest1 with
      | String c2 rest2 =>
          if in_range "0" "5" c1 && in_range "0" "9" c2
          then [(10 * digit c1 + digit c2, rest2)] else []
      | EmptyString => []
      end
      ++ (if in_range "0" "9" c1 then [(digit c1, rest1)] else [])
  | EmptyString => []
  end.

Definition match_colon (s : string) : list string :=
  match s with
  | String ":" rest => [rest]
  | _ => []
  end.

(** [\s+] followed by a letter: the engine gives back no white space,
    since neither [a] nor [p] is one. *)
Definition match_spaces (s : string) : list string :=
  match s with
  | String c rest => if is_space c then [lstrip rest] else []
  | EmptyString => []
  end.

(** The group [(?P<p>am|pm)] under [re.IGNORECASE]; [true] is pm. *)
Definition match_p (s : string) : list (bool * string) :=
  match s with
  | String c1 (String c2 rest) =>
      if ieq c1 "a" && ieq c2 "m" then [(false, rest)]
      else if ieq c1 "p" && ieq c2 "m" then [(true, rest)]
      else []
  | _ => []
  end.

(** All matches of the compiled format at the start of [s], first one
    first: hour, minute, pm flag, and the text left over. *)
Definition regex_matches (s : string) : list (Z * Z * bool * string) :=
  '(h, s1) ← match_I s;
  s2 ← match_colon s1;
  '(m, s3) ← match_M s2;
  s4 ← match_spaces s3;
  '(pm, s5) ← match_p s4;
  [(h, m, pm, s5)].

(** [datetime.strptime(s, '%I:%M %p')], as (hour, minute) on the 24-hour
    clock; [None] is the [ValueError]. *)
Definition strptime (s : string) : option (Z * Z) :=
  match regex_matches s with
  | (h, m, pm, EmptyString) :: _ =>
      let h24 :=
        if pm then (if h =? 12 then h else h + 12)
        else (if h =? 12 then 0 else h) in
      Some (h24, m)
  | _ => None
  end.

End Strptime.

(** ** Strings and numbers of the delay model *)

Module PyOps.

(** [str.lower] on code points below 256. *)
Definition lower_char (c : ascii) : ascii :=
  let n := Strptime.code c in
  if ((65 <=? n) && (n <=? 90))
     || ((192 <=? n) && (n <=? 222) && negb (n =? 215))
  then ascii_of_nat (Z.to_nat (n + 32)) else c.

Fixpoint lower (s : string) : string :=
  match s with
  | String c rest => String (lower_char c) (lower rest)
  | EmptyString => EmptyString
  end.

(** [pat in s] for strings. *)
Fixpoint contains (pat s : string) : bool :=
  String.prefix pat s
  || match s with
     | String _ rest => contains pat rest
     | EmptyString => false
     end.

(** [int(x)]: truncation towards zero. *)
Definition trunc (x : Q) : Z := Z.quot (Qnum x) (Z.pos (Qden x)).

Definition Qlt_bool (x y : Q) : bool := negb (Qle_bool y x).

(** [max(a, b)] and [min(a, b)] on floats: the first argument wins a tie. *)
Definition max (a b : Q) : Q := if Qlt_bool a b then b else a.
Definition min (a b : Q) : Q := if Qlt_bool b a then b else a.

(** Nearest integer, ties to the even one. *)
Definition round_half_even (x : Q) : Z :=
  let n := Qnum x in
  let d := Z.pos (Qden x) in
  let q := n / d in
  let r := n mod d in
  if 2 * r <? d then q
  else if d <? 2 * r then q + 1
  else if Z.even q then q else q + 1.

(** [round(x, ndigits)]. *)
Definition round (x : Q) (ndigits : nat) : Q :=
  let scale := 10 ^ Z.of_nat ndigits in
  Qmake (round_half_even (x * inject_Z scale)%Q) (Z.to_pos scale).

End PyOps.

(** ** DelaySimulator (delay_simulator.py) *)

Module DelaySimulator.

Definition base_delay_probability : Q := 0.3.
Definition base_delay_range : Z * Z := (5, 25).

Definition weather_factors : gmap string Q :=
  list_to_map
    [ ("clear", 1.0%Q); ("cloudy", 1.2%Q); ("rainy", 1.5%Q);
      ("stormy", 2.0%Q); ("foggy", 1.8%Q) ].

(** The keys of [self.time_factors]. *)
Inductive time_bucket : Set :=
| early_morning | morning_rush | mid_morning | afternoon
| evening_rush | late_evening | night.

Definition time_factors (b : time_bucket) : Q :=
  match b with
  | early_morning => 0.8
  | morning_rush => 1.4
  | mid_morning => 1.0
  | afternoon => 1.1
  | evening_rush => 1.6
  | late_evening => 1.2
  | night => 0.9
  end%Q.

Definition day_factors : gmap string Q :=
  list_to_map
    [ ("Monday", 1.3%Q); ("Tuesday", 1.1%Q); ("Wednesday", 1.0%Q);
      ("Thursday", 1.1%Q); ("Friday", 1.4%Q); ("Saturday", 0.9%Q);
      ("Sunday", 0.8%Q) ].

(** [self.station_delay_factors], in insertion order. *)
Definition station_delay_factors : list (string * Q) :=
  [ ("Dhaka", 1.5%Q); ("Chattogram", 1.4%Q); ("Rajshahi", 1.2%Q);
    ("Khulna", 1.2%Q); ("Sylhet", 1.1%Q); ("Barisal", 1.1%Q);
    ("Rangpur", 1.1%Q); ("Mymensingh", 1.0%Q) ].

(** One entry of a history bucket. *)
Record observation : Set := { delay : Z; timestamp : datetime }.

(** [self.historical_patterns]: train number, then station, to bucket. *)
Abbreviation history := (gmap string (gmap string (list observation))).

(** What one call of [simulate_delay] draws from [random]. *)
Record draws : Set := {
  base_roll : Q;      (* random.random() *)
  base_minutes : Z;   (* random.randint(5, 25) *)
  jitter : Q          (* random.uniform(0.8, 1.2) *)
}.

Definition _calculate_base_delay (rnd : draws) : Z :=
  if PyOps.Qlt_bool (base_roll rnd) base_delay_probability
  then base_minutes rnd else 0.

Definition _get_time_factor (current_time : datetime) : Q :=
  let hour := DT.hour current_time in
  if (5 <=? hour) && (hour <? 8) then time_factors early_morning
  else if (8 <=? hour) && (hour <? 10) then time_factors morning_rush
  else if (10 <=? hour) && (hour <? 12) then time_factors mid_morning
  else if (12 <=? hour) && (hour <? 17) then time_factors afternoon
  else if (17 <=? hour) && (hour <? 20) then time_factors evening_rush
  else if (20 <=? hour) && (hour <? 22) then time_factors late_evening
  else time_factors night.

(** [t.strftime('%A')]. *)
Definition day_name (t : datetime) : string :=
  nth (Z.to_nat (DT.weekday t))
    ["Monday"; "Tuesday"; "Wednesday"; "Thursday"; "Friday"; "Saturday";
     "Sunday"] "".

Definition _get_day_factor (current_time : datetime) : Q :=
  default 1.0%Q (day_factors !! day_name current_time).

Fixpoint first_station_factor (table : list (string * Q))
  (station_name : string) : Q :=
  match table with
  | (station_pattern, factor) :: rest =>
      if PyOps.contains (PyOps.lower station_pattern)
           (PyOps.lower station_name)
      then factor else first_station_factor rest station_name
  | [] => 1.0%Q
  end.

Definition _get_station_factor (station_name : string) : Q :=
  first_station_factor station_delay_factors station_name.

(** [clock] is the reading of [datetime.now()] stored with the delay. *)
Definition _update_historical_patterns (h : history) (clock : datetime)
  (train_number station : string) (delay : Z) : history :=
  let per_train := default ∅ (h !! train_number) in
  let delays :=
    default [] (per_train !! station)
    ++ [ {| delay := delay; timestamp := clock |} ] in
  let delays :=
    if (100 <? length delays)%nat then drop 1 delays else delays in
  <[ train_number := <[ station := delays ]> per_train ]> h.

Record factors : Set := {
  weather : Q; time_of_day : Q; day_of_week : Q; station : Q
}.

Record delay_info : Set := {
  delay_minutes : Z;
  scheduled_time : datetime;
  actual_time : datetime;
  weather_condition : string;
  factors_applied : option factors   (* [None] is the empty dict *)
}.

(** [simulate_delay].  A station that is not a string has no [lower]
    method: [_get_station_factor] raises, and the [except] branch returns
    the fallback without touching the history.  The product is the exact
    one and the sum of [scheduled_time] and the delay is not bounded here;
    [Runtime.simulate_delay] below multiplies doubles and has the
    [OverflowError] of a sum past [datetime.max]. *)
Definition simulate_delay (h : history) (clock : datetime) (rnd : draws)
  (train_number : string) (current_station : pyval)
  (scheduled_time current_time : datetime) (weather_condition : string)
  : delay_info * history :=
  match current_station with
  | PyStr station_name =>
      let base_delay := _calculate_base_delay rnd in
      let weather_factor := default 1.0%Q (weather_factors !! weather_condition) in
      let time_factor := _get_time_factor current_time in
      let day_factor := _get_day_factor current_time in
      let station_factor := _get_station_factor station_name in
      let final_delay :=
        (inject_Z base_delay * weather_factor * time_factor * day_factor
         * station_factor)%Q in
      let random_factor := jitter rnd in
      let final_delay := PyOps.trunc (final_delay * random_factor)%Q in
      let final_delay := Z.max 0 (Z.min final_delay 120) in
      let actual_time := DT.add_minutes scheduled_time final_delay in
      ({| delay_minutes := final_delay;
          scheduled_time := scheduled_time;
          actual_time := actual_time;
          weather_condition := weather_condition;
          factors_applied :=
            Some {| weather := weather_factor;
                    time_of_day := time_factor;
                    day_of_week := day_factor;
                    station := station_factor |} |},
       _update_historical_patterns h clock train_number station_name
         final_delay)
  | _ =>
      ({| delay_minutes := 0;
          scheduled_time := scheduled_time;
          actual_time := scheduled_time;
          weather_condition := weather_condition;
          factors_applied := None |},
       h)
  end.

(** The bucket of a (train, station) pair; empty when there is none. *)
Definition bucket_of (h : history) (train_number station : string)
  : option (list observation) :=
  h !! train_number ≫= (.!! station).

Definition bucket (h : history) (train_number station : string)
  : list observation :=
  default [] (bucket_of h train_number station).

(** One call of [simulate_delay] with a station name. *)
Record call : Set := {
  call_clock : datetime;
  call_draws : draws;
  call_train : string;
  call_station : string;
  call_scheduled : datetime;
  call_now : datetime;
  call_weather : string
}.

Definition step (h : history) (c : call) : history :=
  (simulate_delay h (call_clock c) (call_draws c) (call_train c)
     (PyStr (call_station c)) (call_scheduled c) (call_now c)
     (call_weather c)).2.

(** The states of a simulator: the fresh one of [__init__], and those a
    call of [simulate_delay] leads to. *)
Inductive reachable : history → Prop :=
| reachable_init : reachable ∅
| reachable_call h clock rnd train station scheduled now weather :
    reachable h →
    reachable (simulate_delay h clock rnd train station scheduled now
                 weather).2.


(** *** Statistics and prediction *)

Record delay_stats : Set := {
  total_delays : Z;
  average_delay : Q;
  max_delay : Z;
  min_delay : Z;
  delay_distribution : Z * Z * Z * Z   (* 0-15, 16-30, 31-60, 60+ min *)
}.

Definition _get_delay_distribution (delays : list Z) : Z * Z * Z * Z :=
  foldl (fun '(d0, d1, d2, d3) delay =>
           if delay <=? 15 then (d0 + 1, d1, d2, d3)
           else if delay <=? 30 then (d0, d1 + 1, d2, d3)
           else if delay <=? 60 then (d0, d1, d2 + 1, d3)
           else (d0, d1, d2, d3 + 1))
        (0, 0, 0, 0) delays.

Definition sum_list (l : list Z) : Z := foldl Z.add 0 l.

(** [max(l)] and [min(l)] of a non-empty list. *)
Definition max_list (l : list Z) : Z :=
  match l with x :: rest => foldl Z.max x rest | [] => 0 end.
Definition min_list (l : list Z) : Z :=
  match l with x :: rest => foldl Z.min x rest | [] => 0 end.

(** [get_historical_delay_stats]; [inl msg] is [{'error': msg}].  With
    no station the buckets of the train are joined; none of the statistics
    depends on the order in which they are. *)
Definition get_historical_delay_stats (h : history) (train_number : string)
  (station : option string) : string + delay_stats :=
  match h !! train_number with
  | None => inl "No historical data available"
  | Some per_train =>
      let delays_or_error : string + list Z :=
        match station with
        | Some s =>
            if negb (String.eqb s "") then
              match per_train !! s with
              | None => inl "No data for this station"
              | Some b => inr (delay <$> b)
              end
            else inr (delay <$> concat (map_to_list per_train).*2)
        | None => inr (delay <$> concat (map_to_list per_train).*2)
        end in
      match delays_or_error with
      | inl msg => inl msg
      | inr [] => inl "No delay data available"
      | inr delays =>
          let n := Z.of_nat (length delays) in
          inr {| total_delays := n;
                 average_delay :=
                   PyOps.round (inject_Z (sum_list delays) / inject_Z n)%Q 1;
                 max_delay := max_list delays;
                 min_delay := min_list delays;
                 delay_distribution := _get_delay_distribution delays |}
      end
  end.

(** The dicts [predict_delay_probability] returns. *)
Inductive prediction : Set :=
| PredError (error : string)
| PredShort (delay_probability : Q) (confidence : string)
| PredFull (delay_probability : Q) (confidence : string)
    (historical_data_points : Z) (time_of_day day_of_week : Q).

(** [str(KeyError(s))] for a plain string. *)
Definition key_error_str (s : string) : string := "'" +:+ s +:+ "'".

Definition predict_delay_probability (h : history)
  (train_number station : string) (scheduled_time : datetime) : prediction :=
  match get_historical_delay_stats h train_number (Some station) with
  | inl msg => PredError msg
  | inr stats =>
      let total_delays := total_delays stats in
      if total_delays =? 0 then PredShort 0.3 "low"
      else
        match bucket_of h train_number station with
        | None => PredError (key_error_str station)
        | Some b =>
            let delayed_count :=
              Z.of_nat (length (List.filter (fun d => 0 <? delay d) b)) in
            let historical_probability :=
              (inject_Z delayed_count / inject_Z total_delays)%Q in
            let time_factor := _get_time_factor scheduled_time in
            let day_factor := _get_day_factor scheduled_time in
            let adjusted_probability :=
              (historical_probability * time_factor * day_factor)%Q in
            let adjusted_probability :=
              PyOps.max 0.1 (PyOps.min adjusted_probability 0.9) in
            let confidence :=
              if 50 <=? total_delays then "high"
              else if 20 <=? total_delays then "medium"
              else "low" in
            PredFull (PyOps.round adjusted_probability 3) confidence
              total_delays time_factor day_factor
        end
  end.

(** *** Weather *)

Fixpoint accumulate (acc : Q) (weights : list Q) : list Q :=
  match weights with
  | w :: rest => (acc + w)%Q :: accumulate (acc + w)%Q rest
  | [] => []
  end.

(** [random.choices(population, weights=weights)[0]], [u] being the
    reading of [random.random()]: the first population item whose
    cumulative weight exceeds [u * total], the last one at the latest. *)
Definition choices (population : list string) (weights : list Q) (u : Q)
  : string :=
  let cum_weights := accumulate 0 weights in
  let total := List.last cum_weights 0%Q in
  let x := (u * total)%Q in
  let hi := (length population - 1)%nat in
  let idx :=
    length (List.filter (fun c => Qle_bool c x) (take hi cum_weights)) in
  nth idx population "".

(** [get_weather_condition]; the location is not used. *)
Definition get_weather_condition (clock : datetime) (u : Q) : string :=
  let current_hour := DT.hour clock in
  if (6 <=? current_hour) && (current_hour <=? 18)
  then choices ["clear"; "cloudy"; "rainy"] [0.6; 0.3; 0.1]%Q u
  else choices ["clear"; "cloudy"; "foggy"] [0.7; 0.2; 0.1]%Q u.


(** *** Delays along a route *)

(** [_parse_time_string] of the simulator. *)
Definition _parse_time_string (today : datetime) (time_str : pyval)
  : option datetime :=
  match time_str with
  | PyStr s =>
      let time_part := Strptime.strip (Strptime.replace_BST s) in
      match Strptime.strptime time_part with
      | Some (h, m) => Some (DT.replace_hm today h m)
      | None => None
      end
  | _ => None
  end.

(** The dict [simulate_delay] returns, as a JSON value. *)
Definition delay_info_dict (info : delay_info) : pyval :=
  PyDict
    [ ("delay_minutes", PyInt (delay_minutes info));
      ("scheduled_time", PyIso (scheduled_time info));
      ("actual_time", PyIso (actual_time info));
      ("weather_condition", PyStr (weather_condition info));
      ("factors_applied",
       PyDict match factors_applied info with
              | Some f =>
                  [ ("weather", PyFloat (weather f));
                    ("time_of_day", PyFloat (time_of_day f));
                    ("day_of_week", PyFloat (day_of_week f));
                    ("station", PyFloat (station f)) ]
              | None => []
              end) ].

(** What [simulate_route_delays] draws for one station. *)
Record route_draws : Set := {
  route_weather_roll : Q;
  route_delay_draws : draws
}.

(** The loop of [simulate_route_delays] from station [i] on; [acc] holds
    the stations done (latest first), [current_time] the actual time of
    the last delayed departure.  [None] is the exception of a station with
    a departure time and no ['city']. *)
Fixpoint simulate_route_from (clock : datetime) (rnd : nat → route_draws)
  (i : nat) (rest : list stop) (current_time : datetime) (acc : list stop)
  (h : history) : option (list stop) * history :=
  match rest with
  | [] => (Some (reverse acc), h)
  | station :: rest =>
      let weather :=
        get_weather_condition clock (route_weather_roll (rnd i)) in
      let unchanged :=
        simulate_route_from clock rnd (S i) rest current_time
          (station :: acc) h in
      match station !! "departure_time" with
      | Some v =>
          if truthy v then
            match _parse_time_string clock v with
            | Some scheduled_departure =>
                match station !! "city" with
                | None => (None, h)
                | Some city =>
                    let '(delay_info, h) :=
                      simulate_delay h clock (route_delay_draws (rnd i))
                        "ROUTE_SIMULATION" city scheduled_departure
                        current_time weather in
                    let simulated_station :=
                      <[ "weather_condition" := PyStr weather ]>
                        (<[ "simulated_delay" := delay_info_dict delay_info ]>
                           station) in
                    simulate_route_from clock rnd (S i) rest
                      (actual_time delay_info) (simulated_station :: acc) h
                end
            | None => unchanged
            end
          else unchanged
      | None => unchanged
      end
  end.

(** [simulate_route_delays]: on an exception the route is returned as it
    was given. *)
Definition simulate_route_delays (h : history) (clock : datetime)
  (rnd : nat → route_draws) (route_stations : list stop)
  (start_time : datetime) : list stop * history :=
  let '(simulated_route, h) :=
    simulate_route_from clock rnd 0 route_stations start_time [] h in
  (default route_stations simulated_route, h).

End DelaySimulator.

(** ** The data loader, as the core sees it *)

(** A loaded schedule: [schedule['data']['train_name']] and
    [schedule['data']['routes']]. *)
Record schedule : Type := {
  train_name : option string;
  routes : list stop
}.

(** [get_schedule_by_train] looks a train up in [schedules]; a train without
    an entry has no schedule.  [station_distance a b] is the number
    [calculate_distance_between_stations(a, b)] makes of the loader's station
    coordinates: the haversine distance in kilometres rounded to two places,
    0.0 when a station is unknown. *)
Record data_loader : Type := {
  schedules : gmap string schedule;
  station_distance : pyval → pyval → Q
}.

(** ** DataLoader (data_loader.py): the searches *)

Module DataLoader.

(** [[route['city'] for route in routes]]; [None] is the [KeyError]. *)
Definition route_stations (routes : list stop) : option (list pyval) :=
  mapM (fun route : stop => route !! "city") routes.

(** [name in route_stations]. *)
Definition station_in (name : string) (cities : list pyval) : bool :=
  existsb (fun c => py_eq_str c name) cities.

(** [route_stations.index(name)]. *)
Fixpoint station_index (name : string) (cities : list pyval) : option nat :=
  match cities with
  | [] => None
  | c :: rest =>
      if py_eq_str c name then Some 0%nat
      else S <$> station_index name rest
  end.

(** The test [search_trains_by_stations] makes on one schedule; a schedule
    that raises is skipped. *)
Definition stations_match (from_station to_station : string)
  (sch : schedule) : bool :=
  match route_stations (routes sch) with
  | None => false
  | Some cities =>
      if station_in from_station cities && station_in to_station cities then
        match station_index from_station cities,
              station_index to_station cities with
        | Some from_idx, Some to_idx => (from_idx <? to_idx)%nat
        | _, _ => false
        end
      else false
  end.

(** [search_trains_by_stations]: the (train_key, schedule) pairs found.
    The dict order of the results is not kept by the model. *)
Definition search_trains_by_stations (loader : data_loader)
  (from_station to_station : string) : list (string * schedule) :=
  List.filter (fun kv => stations_match from_station to_station kv.2)
    (map_to_list (schedules loader)).

(** The test [search_trains_by_number] makes on one schedule. *)
Definition number_match (train_number train_key : string) (sch : schedule)
  : bool :=
  let train_number_lower := PyOps.lower train_number in
  let train_name := default "" (train_name sch) in
  let train_key_lower := PyOps.lower train_key in
  PyOps.contains train_number_lower train_key_lower
  || PyOps.contains train_number_lower (PyOps.lower train_name).

Definition search_trains_by_number (loader : data_loader)
  (train_number : string) : list (string * schedule) :=
  List.filter (fun kv => number_match train_number kv.1 kv.2)
    (map_to_list (schedules loader)).

End DataLoader.

(** ** PositionCalculator (position_calculator.py) *)

Module PositionCalculator.

(** [_parse_time_string]: [today] is the reading of [datetime.now()].
    A value that is not a string has no [replace] method; the
    [AttributeError], like the [ValueError] of [strptime], is caught and
    gives [None]. *)
Definition _parse_time_string (today : datetime) (time_str : pyval)
  : option datetime :=
  match time_str with
  | PyStr s =>
      let time_part := Strptime.strip (Strptime.replace_BST s) in
      match Strptime.strptime time_part with
      | Some (h, m) => Some (DT.replace_hm today h m)
      | None => None
      end
  | _ => None
  end.

(** The loop of [_find_current_station_index] from index [i] on; [None]
    when the loop runs to its end.  Here every parse is given the same
    reading [today] of the clock, the entries of the route are objects and
    [current_time] is a naive datetime, as [datetime.now()] returns it, so
    the comparison with the parsed time does not raise and neither
    [except] is entered.  [Runtime.position_scan] below has a reading per
    parse and both handlers. *)
Fixpoint scan_from (today current_time : datetime) (i : Z)
  (routes : list stop) : option Z :=
  match routes with
  | [] => None
  | route :: rest =>
      let continue := scan_from today current_time (i + 1) rest in
      match route !! "departure_time" with
      | Some v =>
          if truthy v then
            match _parse_time_string today v with
            | Some departure_time =>
                if current_time <? departure_time
                then Some (Z.max 0 (i - 1))
                else continue
            | None => continue
            end
          else continue
      | None => continue
      end
  end.

Definition _find_current_station_index (today current_time : datetime)
  (routes : list stop) : Z :=
  match scan_from today current_time 0 routes with
  | Some idx => idx
  | None => Z.of_nat (length routes) - 1
  end.


(** *** The position snapshot *)

(** The string [_calculate_eta_to_next] formats, kept as its parts. *)
Inductive eta : Set :=
| Arrived                      (* "Arrived" *)
| HoursMinutes (h m : Z)       (* "{h}h {m}m" *)
| Minutes (m : Z).             (* "{m}m" *)

Record position : Type := {
  current_station_idx : Z;
  current_station : pyval;
  next_station : pyval;
  progress_percentage : Q;
  distance_covered : Q;
  distance_to_next : Q;
  eta_to_next : option eta;
  total_stations : Z;
  current_time : datetime
}.

Section WithLoader.

Variable loader : data_loader.

(** [routes[i]['city']]; [None] is the [IndexError] or [KeyError]. *)
Definition city_at (routes : list stop) (i : nat) : option pyval :=
  routes !! i ≫= (.!! "city").

(** The legs [i -> i+1] for [i] in [range(n)] that lie inside the
    route, added up; an exception on the way gives 0.0. *)
Definition prefix_distance (routes : list stop) (n : nat) : Q :=
  let legs :=
    List.filter (fun i => (i + 1 <? length routes)%nat) (seq 0 n) in
  match
    mapM (fun i =>
            a ← city_at routes i;
            b ← city_at routes (i + 1);
            Some (station_distance loader a b)) legs
  with
  | Some distances => foldl Qplus 0.0%Q distances
  | None => 0.0%Q
  end.

Definition _calculate_distance_covered (routes : list stop)
  (current_idx : Z) : Q :=
  prefix_distance routes (Z.to_nat current_idx).

Definition _calculate_distance_to_next (routes : list stop)
  (current_idx : Z) : Q :=
  if Z.of_nat (length routes) <=? current_idx + 1 then 0.0%Q
  else
    match
      a ← city_at routes (Z.to_nat current_idx);
      b ← city_at routes (Z.to_nat (current_idx + 1));
      Some (station_distance loader a b)
    with
    | Some d => d
    | None => 0.0%Q
    end.

Definition _calculate_eta_to_next (today : datetime) (routes : list stop)
  (current_idx : Z) (current_time : datetime) : option eta :=
  if Z.of_nat (length routes) <=? current_idx + 1 then None
  else
    next_route ← routes !! Z.to_nat (current_idx + 1);
    v ← next_route !! "arrival_time";
    if negb (truthy v) then None
    else
      arrival_time ← _parse_time_string today v;
      let time_diff := arrival_time - current_time in
      if time_diff <=? 0 then Some Arrived
      else
        let hours := time_diff / DT.us_per_hour in
        let minutes := (time_diff mod DT.us_per_hour) / DT.us_per_minute in
        if 0 <? hours then Some (HoursMinutes hours minutes)
        else Some (Minutes minutes).

(** [calculate_train_position]; [inl msg] is [{"error": msg}]. *)
Definition calculate_train_position (today : datetime)
  (train_number : string) (current_time : datetime) : string + position :=
  match schedules loader !! train_number with
  | None => inl "Train schedule not found"
  | Some schedule =>
      let routes := routes schedule in
      match routes with
      | [] => inl "No routes found in schedule"
      | _ =>
          let current_station_idx :=
            _find_current_station_index today current_time routes in
          let total_stations := Z.of_nat (length routes) in
          if total_stations - 1 =? 0 then inl "division by zero"
          else
            let progress_percentage :=
              (inject_Z current_station_idx
               / inject_Z (total_stations - 1) * 100)%Q in
            let distance_covered :=
              _calculate_distance_covered routes current_station_idx in
            let distance_to_next :=
              _calculate_distance_to_next routes current_station_idx in
            let eta_to_next :=
              _calculate_eta_to_next today routes current_station_idx
                current_time in
            match city_at routes (Z.to_nat current_station_idx) with
            | None => inl "'city'"
            | Some current_station =>
                let next_station :=
                  if current_station_idx + 1 <? total_stations
                  then city_at routes (Z.to_nat (current_station_idx + 1))
                  else Some PyNone in
                match next_station with
                | None => inl "'city'"
                | Some next_station =>
                    inr {| current_station_idx := current_station_idx;
                           current_station := current_station;
                           next_station := next_station;
                           progress_percentage :=
                             PyOps.round progress_percentage 2;
                           distance_covered :=
                             PyOps.round distance_covered 2;
                           distance_to_next :=
                             PyOps.round distance_to_next 2;
                           eta_to_next := eta_to_next;
                           total_stations := total_stations;
                           current_time := current_time |}
                end
            end
      end
  end.

(** [estimate_train_speed]; [jitter] is the reading of
    [random.uniform(0.9, 1.1)]. *)
Definition estimate_train_speed (today : datetime) (jitter : Q)
  (train_number : string) (current_time : datetime) : Q :=
  match calculate_train_position today train_number current_time with
  | inl _ => 0.0%Q
  | inr _ =>
      let base_speed := 60.0%Q in
      let hour := DT.hour current_time in
      let speed_multiplier :=
        if ((6 <=? hour) && (hour <=? 9))
           || ((17 <=? hour) && (hour <=? 20)) then 0.8%Q
        else if (22 <=? hour) || (hour <=? 5) then 1.2%Q
        else 1.0%Q in
      PyOps.round (base_speed * speed_multiplier * jitter)%Q 1
  end.


(** [calculate_total_route_distance] of a list of station names; the
    indices are inside the list, so the [except] branch is not entered. *)
Definition calculate_total_route_distance (route_stations : list pyval) : Q :=
  match
    mapM (fun i =>
            a ← route_stations !! i;
            b ← route_stations !! (i + 1)%nat;
            Some (station_distance loader a b))
         (seq 0 (length route_stations - 1))
  with
  | Some distances => PyOps.round (foldl Qplus 0.0%Q distances) 2
  | None => 0.0%Q
  end.

End WithLoader.

End PositionCalculator.

(** ** TrainTimelineGenerator (train_timeline_generator.py): position and tags *)

Module TimelineGenerator.

(** [_parse_time_string] of the timeline: a falsy value and ['---'] give
    [None] at once. *)
Definition _parse_time_string (today : datetime) (time_str : pyval)
  : option datetime :=
  if negb (truthy time_str) || py_eq_str time_str "---" then None
  else
    match time_str with
    | PyStr s =>
        let time_part := Strptime.strip (Strptime.replace_BST s) in
        match Strptime.strptime time_part with
        | Some (h, m) => Some (DT.replace_hm today h m)
        | None => None
        end
    | _ => None
    end.

(** The loop of [_find_current_position]; it has no inner [try].  Here
    every parse is given the same reading [today] of the clock, the entries
    of the route are objects and [current_time] is a naive datetime, so
    nothing in it raises.  [Runtime.timeline_scan] below has a reading per
    parse and the handler that returns 0. *)
Fixpoint scan_from (today current_time : datetime) (i : Z)
  (routes : list stop) : option Z :=
  match routes with
  | [] => None
  | route :: rest =>
      let continue := scan_from today current_time (i + 1) rest in
      match route !! "departure_time" with
      | Some v =>
          if truthy v then
            match _parse_time_string today v with
            | Some departure_time =>
                if current_time <? departure_time
                then Some (Z.max 0 (i - 1))
                else continue
            | None => continue
            end
          else continue
      | None => continue
      end
  end.

Definition _find_current_position (today current_time : datetime)
  (routes : list stop) : Z :=
  match scan_from today current_time 0 routes with
  | Some idx => idx
  | None => Z.of_nat (length routes) - 1
  end.

Inductive station_status : Set := completed | current | next | upcoming.

Definition _determine_station_status (today : datetime) (station_idx : Z)
  (routes : list stop) (current_time : datetime) : station_status :=
  let current_position := _find_current_position today current_time routes in
  if station_idx <? current_position then completed
  else if station_idx =? current_position then current
  else if station_idx =? current_position + 1 then next
  else upcoming.

(** The ['status'] fields of [_generate_station_statuses], in route
    order: one call of [_determine_station_status] per stop, all with the
    same reading of the clock ([Runtime.station_tags] below has one per
    parse). *)
Definition station_tags (today current_time : datetime)
  (routes : list stop) : list station_status :=
  (fun i : nat =>
     _determine_station_status today (Z.of_nat i) routes current_time)
    <$> seq 0 (length routes).


(** *** The status report *)

(** What the timeline draws from [random] for one stop. *)
Record stop_draws : Set := {
  delay_weather_roll : Q;                 (* weather of the two delays *)
  arrival_draws : DelaySimulator.draws;
  departure_draws : DelaySimulator.draws;
  status_weather_roll : Q                 (* the ['weather_condition'] field *)
}.

(** The dict [_simulate_station_delays] returns. *)
Record station_delays : Set := {
  sd_delay_minutes : Z;
  sd_actual_arrival : option datetime;
  sd_actual_departure : option datetime;
  sd_weather_condition : string
}.

Definition _simulate_station_delays (h : DelaySimulator.history)
  (clock : datetime) (rnd : stop_draws) (station_name : pyval)
  (scheduled_arrival scheduled_departure : option datetime)
  (current_time : datetime) : station_delays * DelaySimulator.history :=
  let weather :=
    DelaySimulator.get_weather_condition clock (delay_weather_roll rnd) in
  let '(arrival_delay, actual_arrival, h) :=
    match scheduled_arrival with
    | Some sa =>
        let '(info, h) :=
          DelaySimulator.simulate_delay h clock (arrival_draws rnd)
            "STATION_SIMULATION" station_name sa current_time weather in
        let arrival_delay := DelaySimulator.delay_minutes info in
        (arrival_delay,
         if 0 <? arrival_delay
         then Some (DT.add_minutes sa arrival_delay) else Some sa,
         h)
    | None => (0, None, h)
    end in
  let '(departure_delay, actual_departure, h) :=
    match scheduled_departure with
    | Some sd =>
        let '(info, h) :=
          DelaySimulator.simulate_delay h clock (departure_draws rnd)
            "STATION_SIMULATION" station_name sd current_time weather in
        let departure_delay := DelaySimulator.delay_minutes info in
        (departure_delay,
         if 0 <? departure_delay
         then Some (DT.add_minutes sd departure_delay) else Some sd,
         h)
    | None => (0, None, h)
    end in
  let total_delay := Z.max arrival_delay departure_delay in
  ({| sd_delay_minutes := total_delay;
      sd_actual_arrival := actual_arrival;
      sd_actual_departure := actual_departure;
      sd_weather_condition := weather |},
   h).

Definition major_stations : list string :=
  ["Dhaka"; "Chattogram"; "Rajshahi"; "Khulna"; "Sylhet"].

(** [_estimate_crowd_level]; a station name that is not a string makes
    [major in station_name] raise, which gives 'normal'. *)
Definition _estimate_crowd_level (station_name : pyval)
  (scheduled_time : option datetime) : string :=
  match scheduled_time with
  | None => "normal"
  | Some t =>
      let hour := DT.hour t in
      match station_name with
      | PyStr name =>
          let is_major_station :=
            existsb (fun major => PyOps.contains major name)
              major_stations in
          if ((7 <=? hour) && (hour <=? 9))
             || ((17 <=? hour) && (hour <=? 19))
          then (if is_major_station then "high" else "medium")
          else if (22 <=? hour) || (hour <=? 5) then "low"
          else (if is_major_station then "medium" else "normal")
      | _ => "normal"
      end
  end.

(** One entry of ['station_statuses']. *)
Record station_entry : Type := {
  station_name : pyval;
  status : station_status;
  scheduled_arrival : option datetime;
  scheduled_departure : option datetime;
  actual_arrival : option datetime;
  actual_departure : option datetime;
  delay_minutes : Z;
  halt_duration : pyval;
  duration : pyval;
  distance_from_start : Q;
  weather_condition : string;
  crowd_level : string
}.

Section WithLoader.

Variable loader : data_loader.

Definition _calculate_distance_from_start (routes : list stop)
  (station_idx : nat) : Q :=
  match station_idx with
  | O => 0.0%Q
  | _ => PositionCalculator.prefix_distance loader routes station_idx
  end.

(** The loop of [_generate_station_statuses] from stop [i] on, [rest]
    being the stops still to visit and [acc] the entries made so far
    (latest first).  A stop without ['city'] raises: the [except] branch
    returns the empty list, the history keeping what the earlier stops
    left in it. *)
Fixpoint station_statuses_from (clock : datetime) (rnd : nat → stop_draws)
  (routes : list stop) (current_time : datetime) (i : nat)
  (rest : list stop) (acc : list station_entry)
  (h : DelaySimulator.history)
  : list station_entry * DelaySimulator.history :=
  match rest with
  | [] => (reverse acc, h)
  | route :: rest =>
      match route !! "city" with
      | None => ([], h)
      | Some station_name =>
          let status :=
            _determine_station_status clock (Z.of_nat i) routes
              current_time in
          let scheduled_arrival :=
            _parse_time_string clock
              (default PyNone (route !! "arrival_time")) in
          let scheduled_departure :=
            _parse_time_string clock
              (default PyNone (route !! "departure_time")) in
          let '(delay_info, h) :=
            _simulate_station_delays h clock (rnd i) station_name
              scheduled_arrival scheduled_departure current_time in
          let distance_from_start :=
            _calculate_distance_from_start routes i in
          let station_status :=
            {| station_name := station_name;
               status := status;
               scheduled_arrival := scheduled_arrival;
               scheduled_departure := scheduled_departure;
               actual_arrival := sd_actual_arrival delay_info;
               actual_departure := sd_actual_departure delay_info;
               delay_minutes := sd_delay_minutes delay_info;
               halt_duration := default (PyStr "---") (route !! "halt");
               duration := default (PyStr "---") (route !! "duration");
               distance_from_start := PyOps.round distance_from_start 2;
               weather_condition :=
                 DelaySimulator.get_weather_condition clock
                   (status_weather_roll (rnd i));
               crowd_level :=
                 _estimate_crowd_level station_name scheduled_arrival |}
          in
          station_statuses_from clock rnd routes current_time (S i) rest
            (station_status :: acc) h
      end
  end.

Definition _generate_station_statuses (h : DelaySimulator.history)
  (clock : datetime) (rnd : nat → stop_draws) (routes : list stop)
  (current_time : datetime)
  : list station_entry * DelaySimulator.history :=
  station_statuses_from clock rnd routes current_time 0 routes [] h.

(** [max([...])] over the ['delay_minutes'] of the entries; the
    [ValueError] of an empty list gives 0. *)
Definition _calculate_total_delay (station_statuses : list station_entry)
  : Z :=
  match delay_minutes <$> station_statuses with
  | [] => 0
  | d :: ds => foldl Z.max d ds
  end.

(** A field read with [position_info.get(key, default)]. *)
Definition position_get {A : Type} (position_info : string + PositionCalculator.position)
  (field : PositionCalculator.position → A) (dflt : A) : A :=
  match position_info with
  | inr p => field p
  | inl _ => dflt
  end.

(** What the top-level call draws besides the stops' draws. *)
Record report_draws : Type := {
  per_stop : nat → stop_draws;
  speed_jitter : Q;      (* random.uniform(0.9, 1.1) *)
  weather_roll : Q       (* the overall weather *)
}.

Record train_status : Type := {
  ts_train_number : string;
  ts_train_name : string;
  ts_station_statuses : list station_entry;
  ts_current_speed : Q;
  ts_distance_covered : Q;
  ts_distance_to_next : Q;
  ts_delay_minutes : Z;
  ts_estimated_arrival : option (option PositionCalculator.eta);
    (* [None] is 'Unknown' *)
  ts_progress_percentage : Q;
  ts_current_station : option pyval;   (* [None] is 'Unknown' *)
  ts_next_station : option pyval;
  ts_weather_condition : string;
  ts_last_updated : datetime
}.

(** [generate_train_status] with one reading [clock] of
    [datetime.now()] for the whole report, which is also its current time,
    and a loader whose schedules are not empty objects.
    [Runtime.generate_train_status] below has a reading for every call of
    [datetime.now()] and the test [if not schedule]. *)
Definition generate_train_status (h : DelaySimulator.history)
  (clock : datetime) (rnd : report_draws) (train_number : string)
  : (string + train_status) * DelaySimulator.history :=
  match schedules loader !! train_number with
  | None => (inl "Train schedule not found", h)
  | Some schedule =>
      let current_time := clock in
      let routes := routes schedule in
      let '(station_statuses, h) :=
        _generate_station_statuses h clock (per_stop rnd) routes
          current_time in
      let position_info :=
        PositionCalculator.calculate_train_position loader clock
          train_number current_time in
      let current_speed :=
        PositionCalculator.estimate_train_speed loader clock
          (speed_jitter rnd) train_number current_time in
      (inr {| ts_train_number := train_number;
              ts_train_name := default "Unknown" (train_name schedule);
              ts_station_statuses := station_statuses;
              ts_current_speed := current_speed;
              ts_distance_covered :=
                position_get position_info
                  PositionCalculator.distance_covered 0%Q;
              ts_distance_to_next :=
                position_get position_info
                  PositionCalculator.distance_to_next 0%Q;
              ts_delay_minutes := _calculate_total_delay station_statuses;
              ts_estimated_arrival :=
                position_get position_info
                  (fun p => Some (PositionCalculator.eta_to_next p)) None;
              ts_progress_percentage :=
                position_get position_info
                  PositionCalculator.progress_percentage 0%Q;
              ts_current_station :=
                position_get position_info
                  (fun p => Some (PositionCalculator.current_station p))
                  None;
              ts_next_station :=
                position_get position_info
                  (fun p => Some (PositionCalculator.next_station p))
                  None;
              ts_weather_condition :=
                DelaySimulator.get_weather_condition clock
                  (weather_roll rnd);
              ts_last_updated := current_time |},
       h)
  end.

End WithLoader.

End TimelineGenerator.

(** ** What the scans look for *)

(** The departure time of a stop as [_parse_time_string] reads it. *)
Definition parsed_departure (today : datetime) (route : stop)
  : option datetime :=
  route !! "departure_time" ≫= PositionCalculator._parse_time_string today.

(** The stop has a departure time that parses and lies strictly after
    [now]. *)
Definition departs_after (today now : datetime) (route : stop) : Prop :=
  match parsed_departure today route with
  | Some d => now < d
  | None => False
  end.

#[global] Instance departs_after_dec today now route :
  Decision (departs_after today now route).
Proof.
  unfold departs_after. destruct (parsed_departure today route); apply _.
Defined.

(** The index the scan rule selects: one before the first stop that departs
    after [now] (never below 0), the last index when there is none. *)
Definition scan_rule (today now : datetime) (routes : list stop) : Z :=
  match list_find (departs_after today now) routes with
  | Some (i, _) => Z.max 0 (Z.of_nat i - 1)
  | None => Z.of_nat (length routes) - 1
  end.

(** The clock used in the examples: ordinal day 739000. *)
Definition at_10_30 : datetime := DT.at_hm 739000 10 30.
Definition at_10_02 : datetime := DT.at_hm 739000 10 2.

(** ** Test routes *)

Definition mk_stop (city : string) (arrival departure : option string) : stop :=
  let s0 : stop := {[ "city" := PyStr city ]} in
  let s1 := match arrival with
            | Some a => <[ "arrival_time" := PyStr a ]> s0
            | None => s0
            end in
  match departure with
  | Some d => <[ "departure_time" := PyStr d ]> s1
  | None => s1
  end.

(** StationA (dep 09:00 AM), StationB (arr 10:00 AM, dep 10:05 AM),
    StationC (arr 11:00 AM). *)
Definition route_abc : list stop :=
  [ mk_stop "StationA" None (Some "09:00 AM");
    mk_stop "StationB" (Some "10:00 AM") (Some "10:05 AM");
    mk_stop "StationC" (Some "11:00 AM") None ].


(** The same route as the schedule files write it, with ['---'] for a
    time a stop does not have. *)
Definition route_abc_dashes : list stop :=
  [ mk_stop "StationA" (Some "---") (Some "09:00 AM BST");
    mk_stop "StationB" (Some "10:00 AM BST") (Some "10:05 AM BST");
    mk_stop "StationC" (Some "11:00 AM BST") (Some "---") ].

(** ** Test calls of the delay model *)

Definition draws_delayed : DelaySimulator.draws :=
  {| DelaySimulator.base_roll := 0.1;
     DelaySimulator.base_minutes := 10;
     DelaySimulator.jitter := 1.0 |}.

Definition draws_on_time : DelaySimulator.draws :=
  {| DelaySimulator.base_roll := 0.7;
     DelaySimulator.base_minutes := 10;
     DelaySimulator.jitter := 1.0 |}.

Definition call_dhaka : DelaySimulator.call :=
  {| DelaySimulator.call_clock := at_10_30;
     DelaySimulator.call_draws := draws_delayed;
     DelaySimulator.call_train := "701";
     DelaySimulator.call_station := "Dhaka";
     DelaySimulator.call_scheduled := at_10_30;
     DelaySimulator.call_now := at_10_30;
     DelaySimulator.call_weather := "rainy" |}.

(** The history after 100 calls for train 701 at Dhaka. *)
Definition history_100 : DelaySimulator.history :=
  foldl DelaySimulator.step ∅ (replicate 100 call_dhaka).


(** ** CrowdValidation (crowd_validation.py) *)

Module CrowdValidation.

(** One entry of a train's ['confirmations'] list. *)
Record confirmation : Type := {
  user_id : string;
  timestamp : datetime;
  station_name : pyval;
  coordinates : pyval
}.

(** The value [self.validations] holds for a train. *)
Record train_data : Type := {
  confirmations : list confirmation;
  last_updated : datetime;
  total_confirmations : Z
}.

(** [self.validations]. *)
Abbreviation validations := (gmap string train_data).

(** A confirmation as the dict it is. *)
Definition confirmation_dict (c : confirmation) : pyval :=
  PyDict [ ("user_id", PyStr (user_id c));
           ("timestamp", PyIso (timestamp c));
           ("station_name", station_name c);
           ("coordinates", coordinates c) ].

Definition _get_active_confirmations (clock : datetime)
  (confirmations : list confirmation) : list confirmation :=
  let cutoff_time := DT.sub_hours clock 2 in
  List.filter (fun conf => cutoff_time <? timestamp conf) confirmations.

Definition _determine_crowd_level (active_count : Z) : string :=
  if active_count =? 0 then "low"
  else if active_count <=? 5 then "medium"
  else if active_count <=? 15 then "high"
  else "very_high".

(** [get_train_crowd_data]: the dict it returns, key by key. *)
Definition get_train_crowd_data (st : validations) (clock : datetime)
  (train_number : string) : gmap string pyval :=
  match st !! train_number with
  | None =>
      <[ "train_number" := PyStr train_number ]>
      (<[ "total_confirmations" := PyInt 0 ]>
      (<[ "active_confirmations" := PyInt 0 ]>
      (<[ "crowd_level" := PyStr "low" ]>
      (<[ "last_updated" := PyNone ]>
      (<[ "confirmations" := PyList [] ]> ∅)))))
  | Some train_data =>
      let active_confirmations :=
        _get_active_confirmations clock (confirmations train_data) in
      let n := Z.of_nat (length active_confirmations) in
      let crowd_level := _determine_crowd_level n in
      <[ "train_number" := PyStr train_number ]>
      (<[ "total_confirmations" := PyInt (total_confirmations train_data) ]>
      (<[ "active_confirmations" := PyInt n ]>
      (<[ "crowd_level" := PyStr crowd_level ]>
      (<[ "last_updated" := PyIso (last_updated train_data) ]>
      (<[ "confirmations" :=
            PyList (confirmation_dict <$> active_confirmations) ]> ∅)))))
  end.

(** Reading a dict entry at the type the code uses it at; [None] is the
    exception when the key or the operation is missing. *)
Definition get_int (d : gmap string pyval) (k : string) : option Z :=
  match d !! k with Some (PyInt n) => Some n | _ => None end.
Definition get_str (d : gmap string pyval) (k : string) : option string :=
  match d !! k with Some (PyStr s) => Some s | _ => None end.
Definition get_list (d : gmap string pyval) (k : string)
  : option (list pyval) :=
  match d !! k with Some (PyList l) => Some l | _ => None end.

(** [datetime.fromisoformat(conf['timestamp'])]. *)
Definition conf_timestamp (conf : pyval) : option datetime :=
  match conf with
  | PyDict items =>
      match List.find (fun kv => String.eqb kv.1 "timestamp") items with
      | Some (_, PyIso t) => Some t
      | _ => None
      end
  | _ => None
  end.

Record crowd_metrics : Type := {
  cm_crowd_level : string;
  cm_confidence : string;
  cm_active_users : Z;
  cm_minutes_ago : option Z;   (* "<n> minutes ago"; [None] is 'unknown' *)
  cm_data_freshness : string
}.

Definition _calculate_crowd_metrics (st : validations) (clock : datetime)
  (train_number : string) : crowd_metrics :=
  let crowd_data := get_train_crowd_data st clock train_number in
  let body : option crowd_metrics :=
    active_count ← get_int crowd_data "active_confirmations";
    let confidence :=
      if active_count =? 0 then "none"
      else if active_count <=? 3 then "low"
      else if active_count <=? 10 then "medium"
      else "high" in
    confs ← get_list crowd_data "confirmations";
    avg_minutes_ago ←
      match confs with
      | [] => Some 0
      | _ =>
          timestamps ← mapM conf_timestamp confs;
          let seconds :=
            (fun ts => inject_Z (clock - ts) / 1000000)%Q <$> timestamps in
          let avg_time_diff :=
            (foldl Qplus 0 seconds
             / inject_Z (Z.of_nat (length timestamps)))%Q in
          Some (PyOps.trunc (avg_time_diff / 60)%Q)
      end;
    crowd_level ← get_str crowd_data "crowd_level";
    Some {| cm_crowd_level := crowd_level;
            cm_confidence := confidence;
            cm_active_users := active_count;
            cm_minutes_ago := Some avg_minutes_ago;
            cm_data_freshness :=
              if avg_minutes_ago <? 30 then "high"
              else if avg_minutes_ago <? 60 then "medium"
              else "low" |} in
  default {| cm_crowd_level := "unknown";
             cm_confidence := "none";
             cm_active_users := 0;
             cm_minutes_ago := None;
             cm_data_freshness := "unknown" |} body.

(** *** confirm_user_on_train *)

Record confirm_result : Type := {
  success : bool;
  message : string;
  res_train_number : string;
  res_user_id : string;
  res_timestamp : datetime;
  res_crowd_metrics : crowd_metrics
}.

(** [existing_confirmation.update({...})]: the dict found in the list is
    changed in place, its ['user_id'] stays. *)
Definition update_confirmation (timestamp : datetime)
  (station_name coordinates : pyval) (conf : confirmation) : confirmation :=
  {| user_id := user_id conf;
     timestamp := timestamp;
     station_name := station_name;
     coordinates := coordinates |}.

(** The entry made for a train that has none. *)
Definition fresh_train_data (timestamp : datetime) : train_data :=
  {| confirmations := []; last_updated := timestamp;
     total_confirmations := 0 |}.

(** [clock] is the reading of [datetime.now()] at the start of the call. *)
Definition confirm_user_on_train (st : validations) (clock : datetime)
  (train_number user : string) (station_name coordinates : pyval)
  : confirm_result * validations :=
  let timestamp := clock in
  let td := default (fresh_train_data timestamp) (st !! train_number) in
  let existing_confirmation :=
    list_find (fun conf => user_id conf = user) (confirmations td) in
  let '(td, message) :=
    match existing_confirmation with
    | Some (i, conf) =>
        ({| confirmations :=
              <[ i := update_confirmation timestamp station_name
                        coordinates conf ]> (confirmations td);
            last_updated := last_updated td;
            total_confirmations := total_confirmations td |},
         "Confirmation updated")
    | None =>
        let confirmation :=
          {| user_id := user; timestamp := timestamp;
             station_name := station_name; coordinates := coordinates |} in
        ({| confirmations := confirmations td ++ [confirmation];
            last_updated := last_updated td;
            total_confirmations := total_confirmations td + 1 |},
         "Confirmation added")
    end in
  let td := {| confirmations := confirmations td;
               last_updated := timestamp;
               total_confirmations := total_confirmations td |} in
  let st := <[ train_number := td ]> st in
  ({| success := true;
      message := message;
      res_train_number := train_number;
      res_user_id := user;
      res_timestamp := timestamp;
      res_crowd_metrics := _calculate_crowd_metrics st clock train_number |},
   st).

(** *** adjust_train_status_with_crowd_data *)

(** What [_calculate_crowd_delay_adjustment] may draw from [random]. *)
Record adjustment_draws : Set := {
  draw_2 : Z;   (* random.randint(-2, 2) *)
  draw_5 : Z;   (* random.randint(-5, 5) *)
  draw_8 : Z    (* random.randint(-8, 8) *)
}.

Definition _calculate_crowd_delay_adjustment (crowd_data : gmap string pyval)
  (rnd : adjustment_draws) : Z :=
  let body : option Z :=
    active_users ← get_int crowd_data "active_confirmations";
    crowd_level ← get_str crowd_data "crowd_level";
    let adjustment :=
      if String.eqb crowd_level "low" then 0
      else if String.eqb crowd_level "medium" then draw_2 rnd
      else if String.eqb crowd_level "high" then draw_5 rnd
      else draw_8 rnd in
    let adjustment :=
      if 10 <? active_users then PyOps.trunc (inject_Z adjustment * 1.5)%Q
      else if 20 <? active_users
           then PyOps.trunc (inject_Z adjustment * 2.0)%Q
      else adjustment in
    Some adjustment in
  default 0 body.

(** [max(0, v + adjustment)] for the value [v] of ['delay_minutes'];
    [None] is the [TypeError] of a value that is not a number. *)
Definition adjusted_delay (v : pyval) (adjustment : Z) : option pyval :=
  match v with
  | PyInt n => Some (PyInt (Z.max 0 (n + adjustment)))
  | PyBool b => Some (PyInt (Z.max 0 ((if b then 1 else 0) + adjustment)))
  | PyFloat x =>
      let y := (x + inject_Z adjustment)%Q in
      Some (if PyOps.Qlt_bool 0 y then PyFloat y else PyInt 0)
  | _ => None
  end.

(** The body of the [try]; [None] is an exception. *)
Definition adjust_body (st : validations) (clock : datetime)
  (rnd : adjustment_draws) (train_number : string)
  (base_status : gmap string pyval) : option (gmap string pyval) :=
  let crowd_data := get_train_crowd_data st clock train_number in
  match crowd_data !! "error" with
  | Some _ => Some base_status
  | None =>
      let adjusted_status := base_status in   (* base_status.copy() *)
      confidence ← crowd_data !! "confidence";
      if py_eq_str confidence "medium" || py_eq_str confidence "high" then
        let crowd_delay_adjustment :=
          _calculate_crowd_delay_adjustment crowd_data rnd in
        adjusted_status ←
          match adjusted_status !! "delay_minutes" with
          | Some v =>
              v' ← adjusted_delay v crowd_delay_adjustment;
              Some (<[ "delay_minutes" := v' ]> adjusted_status)
          | None => Some adjusted_status
          end;
        active ← crowd_data !! "active_confirmations";
        crowd_level ← crowd_data !! "crowd_level";
        last_updated ← crowd_data !! "last_updated";
        let adjusted_status :=
          <[ "crowd_validation" :=
               PyDict [ ("confidence", confidence);
                        ("active_users", active);
                        ("crowd_level", crowd_level);
                        ("last_updated", last_updated) ] ]>
            adjusted_status in
        active_count ← get_int crowd_data "active_confirmations";
        Some (if py_eq_str confidence "high" && (5 <? active_count)
              then <[ "crowd_eta_confidence" := PyStr "high" ]>
                     (<[ "eta_adjusted_by_crowd" := PyBool true ]>
                        adjusted_status)
              else adjusted_status)
      else Some adjusted_status
  end.

(** [adjust_train_status_with_crowd_data]: the [except] branch returns
    [base_status]. *)
Definition adjust_train_status_with_crowd_data (st : validations)
  (clock : datetime) (rnd : adjustment_draws) (train_number : string)
  (base_status : gmap string pyval) : gmap string pyval :=
  default base_status (adjust_body st clock rnd train_number base_status).

(** At most one confirmation per user in every train's list. *)
Definition one_confirmation_per_user (st : validations) : Prop :=
  ∀ train_number td,
    st !! train_number = Some td → NoDup (user_id <$> confirmations td).


(** *** remove_user_confirmation and cleanup_old_validations *)

(** The dicts [remove_user_confirmation] returns. *)
Inductive remove_result : Set :=
| Removed (message train_number user_id : string)
| RemoveFailed (error : string).

Definition remove_user_confirmation (st : validations) (clock : datetime)
  (train_number user : string) : remove_result * validations :=
  match st !! train_number with
  | None => (RemoveFailed "No validations found for this train", st)
  | Some td =>
      match list_find (fun conf => user_id conf = user) (confirmations td)
      with
      | Some (i, _) =>
          (Removed "Confirmation removed" train_number user,
           <[ train_number :=
                {| confirmations := delete i (confirmations td);
                   last_updated := clock;
                   total_confirmations := total_confirmations td - 1 |} ]>
             st)
      | None => (RemoveFailed "User confirmation not found", st)
      end
  end.

(** What [cleanup_old_validations] makes of one train: [None] when no
    confirmation is left and the train is deleted. *)
Definition cleanup_train (cutoff_time : datetime) (td : train_data)
  : option train_data :=
  let old_confirmations :=
    List.filter (fun conf => cutoff_time <? timestamp conf)
      (confirmations td) in
  match old_confirmations with
  | [] => None
  | _ =>
      Some {| confirmations := old_confirmations;
              last_updated := last_updated td;
              total_confirmations := Z.of_nat (length old_confirmations) |}
  end.

(** [cleanup_old_validations]: the number of trains deleted, and the
    store. *)
Definition cleanup_old_validations (st : validations) (clock : datetime)
  (max_age_hours : Z) : Z * validations :=
  let cutoff_time := DT.sub_hours clock max_age_hours in
  let cleaned_count :=
    length (filter (fun kv => cleanup_train cutoff_time kv.2 = None)
              (map_to_list st)) in
  (Z.of_nat cleaned_count, omap (cleanup_train cutoff_time) st).

(** *** get_all_train_validations *)

(** One entry of the summary. *)
Record validation_summary : Type := {
  vs_total_confirmations : Z;
  vs_active_confirmations : Z;
  vs_crowd_level : string;
  vs_last_updated : datetime
}.

(** The entry the loop makes for one train; [None] is a [KeyError]. *)
Definition summary_entry (st : validations) (clock : datetime)
  (train_number : string) (data : train_data) : option validation_summary :=
  let crowd_data := get_train_crowd_data st clock train_number in
  active ← get_int crowd_data "active_confirmations";
  crowd_level ← get_str crowd_data "crowd_level";
  Some {| vs_total_confirmations := total_confirmations data;
          vs_active_confirmations := active;
          vs_crowd_level := crowd_level;
          vs_last_updated := last_updated data |}.

(** [get_all_train_validations]: the summary dict; an exception in the
    loop gives the empty dict. *)
Definition get_all_train_validations (st : validations) (clock : datetime)
  : gmap string validation_summary :=
  match
    mapM (fun kv : string * train_data =>
            entry ← summary_entry st clock kv.1 kv.2;
            Some (kv.1, entry))
         (map_to_list st)
  with
  | Some summary => list_to_map summary
  | None => ∅
  end.

(** The stores the operations lead to from an empty one. *)
Inductive store_reachable : validations → Prop :=
| store_empty : store_reachable ∅
| store_confirm st clock train user sn co :
    store_reachable st →
    store_reachable (confirm_user_on_train st clock train user sn co).2
| store_remove st clock train user :
    store_reachable st →
    store_reachable (remove_user_confirmation st clock train user).2
| store_cleanup st clock max_age_hours :
    store_reachable st →
    store_reachable (cleanup_old_validations st clock max_age_hours).2.

End CrowdValidation.

(** ** Test store of confirmations *)

Definition confirm_at (t : datetime) (user : string)
  : CrowdValidation.confirmation :=
  {| CrowdValidation.user_id := user;
     CrowdValidation.timestamp := t;
     CrowdValidation.station_name := PyStr "Dhaka";
     CrowdValidation.coordinates := PyNone |}.

(** Four users confirmed train 701 at 10:02; read at 10:30 they are all
    active. *)
Definition store_701 : gmap string CrowdValidation.train_data :=
  {[ "701" :=
       {| CrowdValidation.confirmations :=
            confirm_at at_10_02 <$> ["u1"; "u2"; "u3"; "u4"];
          CrowdValidation.last_updated := at_10_02;
          CrowdValidation.total_confirmations := 4 |} ]}.

Definition status_delay_10 : gmap string pyval :=
  {[ "train_number" := PyStr "701"; "delay_minutes" := PyInt 10 ]}.

Definition draws_plus_2 : CrowdValidation.adjustment_draws :=
  {| CrowdValidation.draw_2 := 2;
     CrowdValidation.draw_5 := 2;
     CrowdValidation.draw_8 := 2 |}.


(** ** Test schedules *)

(** Train 701 runs the three-stop route, train 702 has a single stop;
    every pair of stations is 12.5 km apart. *)
Definition loader_test : data_loader :=
  {| schedules :=
       {[ "701" := {| train_name := Some "Test Express";
                      routes := route_abc |};
          "702" := {| train_name := None;
                      routes := [mk_stop "Dhaka" None (Some "09:00 AM")] |} ]};
     station_distance := fun _ _ => 12.5%Q |}.

Definition draws_delayed_20 : DelaySimulator.draws :=
  {| DelaySimulator.base_roll := 0.1;
     DelaySimulator.base_minutes := 20;
     DelaySimulator.jitter := 1.0 |}.

(** StationA leaves 10 minutes late, StationB is reached 20 minutes late
    and left on time, StationC is reached on time; clear weather. *)
Definition report_draws_test : TimelineGenerator.report_draws :=
  {| TimelineGenerator.per_stop := fun i =>
       {| TimelineGenerator.delay_weather_roll := 0.1;
          TimelineGenerator.arrival_draws :=
            match i with 1%nat => draws_delayed_20 | _ => draws_on_time end;
          TimelineGenerator.departure_draws :=
            match i with 0%nat => draws_delayed | _ => draws_on_time end;
          TimelineGenerator.status_weather_roll := 0.1 |};
     TimelineGenerator.speed_jitter := 1.0;
     TimelineGenerator.weather_roll := 0.1 |}.


(** * The functions as the interpreter runs them *)

(** The modules above give every call one reading of the clock, multiply
    exact numbers, keep datetimes unbounded and hand the scans naive times
    and stops that are objects.  [Runtime] gives the functions where this
    matters as the interpreter runs them: [datetime.now()] is read anew
    wherever the source calls it, the delay, the progress and the sums of
    distances are computed in doubles, [datetime + timedelta] raises past
    [datetime.max], [if not schedule] sees an empty schedule object, and a
    scan may meet an offset-aware time or a route entry that is no
    object. *)

Module Runtime.

(** ** Doubles *)

(** [floor(log2(x))] for a positive [x]. *)
Definition floor_log2 (x : Q) : Z :=
  let n := Qnum x in
  let d := Z.pos (Qden x) in
  let e := Z.log2 n - Z.log2 d in
  if n * 2 ^ Z.max 0 (- e) <? d * 2 ^ Z.max 0 e then e - 1 else e.

Definition pow2 (k : Z) : Q :=
  if 0 <=? k then inject_Z (2 ^ k) else Qmake 1 (Z.to_pos (2 ^ (- k))).

(** The double nearest to [x] (IEEE 754 binary64, ties to the even
    significand, subnormals included); the numbers of this program stay far
    below the largest double. *)
Definition float (x : Q) : Q :=
  if Qnum x =? 0 then 0%Q
  else
    let a := Qmake (Z.abs (Qnum x)) (Qden x) in
    let k := Z.max (floor_log2 a) (-1022) - 52 in
    let m := PyOps.round_half_even (a / pow2 k)%Q in
    let r := Qred (inject_Z m * pow2 k)%Q in
    if 0 <? Qnum x then r else (- r)%Q.

(** [x * y], [x + y] and [x / y] on doubles. *)
Definition fmul (x y : Q) : Q := float (x * y)%Q.
Definition fadd (x y : Q) : Q := float (x + y)%Q.
Definition fdiv (x y : Q) : Q := float (x / y)%Q.

(** ** The range of datetime *)

(** [datetime.max], 9999-12-31 23:59:59.999999. *)
Definition datetime_max : datetime := 3652060 * DT.us_per_day - 1.

(** [t + timedelta(minutes=d)] for [d >= 0]; [None] is the
    [OverflowError] of a sum past [datetime.max]. *)
Definition add_minutes (t : datetime) (d : Z) : option datetime :=
  let sum := DT.add_minutes t d in
  if datetime_max <? sum then None else Some sum.

(** ** simulate_delay *)

Import DelaySimulator.

(** A draw of [random.random()] is a double, compared with the double of
    the literal 0.3. *)
Definition _calculate_base_delay (rnd : draws) : Z :=
  if PyOps.Qlt_bool (base_roll rnd) (float base_delay_probability)
  then base_minutes rnd else 0.

(** [simulate_delay]: each factor is the double of its literal in the
    tables, the product is taken from the left in doubles, and [int] cuts
    it.  The [except] branch is entered when the station is not a string
    ([_get_station_factor] raises) and when [scheduled_time + timedelta]
    raises; it returns the fallback and leaves the history alone.  [clock]
    is the reading of [datetime.now()] in [_update_historical_patterns]. *)
Definition simulate_delay (h : history) (clock : datetime) (rnd : draws)
  (train_number : string) (current_station : pyval)
  (scheduled_time current_time : datetime) (weather_condition : string)
  : delay_info * history :=
  let fallback :=
    ({| delay_minutes := 0;
        scheduled_time := scheduled_time;
        actual_time := scheduled_time;
        weather_condition := weather_condition;
        factors_applied := None |},
     h) in
  match current_station with
  | PyStr station_name =>
      let base_delay := _calculate_base_delay rnd in
      let weather_factor :=
        default 1.0%Q (weather_factors !! weather_condition) in
      let time_factor := _get_time_factor current_time in
      let day_factor := _get_day_factor current_time in
      let station_factor := _get_station_factor station_name in
      let final_delay :=
        fmul (fmul (fmul (fmul (float (inject_Z base_delay))
                            (float weather_factor))
                      (float time_factor))
                (float day_factor))
          (float station_factor) in
      let random_factor := jitter rnd in
      let final_delay := PyOps.trunc (fmul final_delay random_factor) in
      let final_delay := Z.max 0 (Z.min final_delay 120) in
      match add_minutes scheduled_time final_delay with
      | Some actual_time =>
          ({| delay_minutes := final_delay;
              scheduled_time := scheduled_time;
              actual_time := actual_time;
              weather_condition := weather_condition;
              factors_applied :=
                Some {| weather := weather_factor;
                        time_of_day := time_factor;
                        day_of_week := day_factor;
                        station := station_factor |} |},
           _update_historical_patterns h clock train_number station_name
             final_delay)
      | None => fallback
      end
  | _ => fallback
  end.

(** The states of a simulator: the fresh one of [__init__], and those a
    call of [simulate_delay], the one method that writes
    [historical_patterns], leads to. *)
Inductive reachable : history → Prop :=
| reachable_init : reachable ∅
| reachable_call h clock rnd train station scheduled now weather :
    reachable h →
    reachable (simulate_delay h clock rnd train station scheduled now
                 weather).2.

(** ** The scans *)

Import TimelineGenerator.

(** The current time handed to a scan: a naive datetime, as
    [datetime.now()] returns it, or an offset-aware one, whose comparison
    with the naive datetimes [_parse_time_string] returns raises
    [TypeError]. *)
Inductive pytime : Set :=
| Naive (t : datetime)
| Aware (t : datetime).

(** [departure_time > current_time]; [None] is the [TypeError]. *)
Definition later (departure_time : datetime) (current_time : pytime)
  : option bool :=
  match current_time with
  | Naive t => Some (t <? departure_time)
  | Aware _ => None
  end.

(** An entry of ['routes']: an object, or a value on which the test
    ['departure_time' in route and route['departure_time']] raises (null,
    a number, a list that holds the key).  A string or list without the key
    behaves as the empty object. *)
Inductive route_entry : Type :=
| Stop (route : stop)
| NotAStop.

Inductive scan_result : Set :=
| Found (idx : Z)
| Exhausted
| Raised.

(** The loop of [PositionCalculator._find_current_station_index] from
    entry [i] on; [today i] is the reading of the clock in the parse of
    entry [i].  An exception of the comparison is caught inside the loop,
    which goes on; one of the test on the entry ends the loop. *)
Fixpoint position_scan (today : nat → datetime) (current_time : pytime)
  (i : nat) (routes : list route_entry) : scan_result :=
  match routes with
  | [] => Exhausted
  | NotAStop :: _ => Raised
  | Stop route :: rest =>
      let continue := position_scan today current_time (S i) rest in
      match route !! "departure_time" with
      | Some v =>
          if truthy v then
            match PositionCalculator._parse_time_string (today i) v with
            | Some departure_time =>
                match later departure_time current_time with
                | Some true => Found (Z.max 0 (Z.of_nat i - 1))
                | Some false => continue
                | None => continue
                end
            | None => continue
            end
          else continue
      | None => continue
      end
  end.

(** [_find_current_station_index]; [None] is the [None] of the outer
    [except]. *)
Definition _find_current_station_index (today : nat → datetime)
  (current_time : pytime) (routes : list route_entry) : option Z :=
  match position_scan today current_time 0 routes with
  | Found idx => Some idx
  | Exhausted => Some (Z.of_nat (length routes) - 1)
  | Raised => None
  end.

(** The loop of [TrainTimelineGenerator._find_current_position]: it has
    no inner [try], so an exception of the comparison ends it too. *)
Fixpoint timeline_scan (today : nat → datetime) (current_time : pytime)
  (i : nat) (routes : list route_entry) : scan_result :=
  match routes with
  | [] => Exhausted
  | NotAStop :: _ => Raised
  | Stop route :: rest =>
      let continue := timeline_scan today current_time (S i) rest in
      match route !! "departure_time" with
      | Some v =>
          if truthy v then
            match TimelineGenerator._parse_time_string (today i) v with
            | Some departure_time =>
                match later departure_time current_time with
                | Some true => Found (Z.max 0 (Z.of_nat i - 1))
                | Some false => continue
                | None => Raised
                end
            | None => continue
            end
          else continue
      | None => continue
      end
  end.

(** [_find_current_position]: the [except] branch returns 0. *)
Definition _find_current_position (today : nat → datetime)
  (current_time : pytime) (routes : list route_entry) : Z :=
  match timeline_scan today current_time 0 routes with
  | Found idx => idx
  | Exhausted => Z.of_nat (length routes) - 1
  | Raised => 0
  end.

(** [_determine_station_status]: [_find_current_position] raises nothing,
    so the [except] branch is not entered. *)
Definition _determine_station_status (today : nat → datetime)
  (station_idx : Z) (routes : list route_entry) (current_time : pytime)
  : station_status :=
  let current_position := _find_current_position today current_time routes in
  if station_idx <? current_position then completed
  else if station_idx =? current_position then current
  else if station_idx =? current_position + 1 then next
  else upcoming.

(** The ['status'] fields of [_generate_station_statuses], in route
    order: one call of [_determine_station_status] per stop, [today i j]
    being the reading of the clock in the parse of stop [j] during the
    call for stop [i]. *)
Definition station_tags (today : nat → nat → datetime)
  (current_time : pytime) (routes : list route_entry)
  : list station_status :=
  (fun i : nat =>
     _determine_station_status (today i) (Z.of_nat i) routes current_time)
    <$> seq 0 (length routes).

(** ** The status report *)

(** What a schedule file holds: the empty object, which [if not schedule]
    takes for a missing schedule as it does any other value that is false
    in a test, or an object with its ['data']. *)
Inductive schedule_value : Type :=
| EmptyObject
| Object (sch : schedule).

(** The loader: the value of every schedule file, and the distances of
    [calculate_distance_between_stations]. *)
Record loader : Type := {
  schedule_files : gmap string schedule_value;
  distance : pyval → pyval → Q
}.

(** The places of [generate_train_status] that read the clock, besides
    the reading it makes itself for the current time of the report. *)
Inductive site : Set :=
| status_parse (stop parsed : nat)
    (* [_determine_station_status] of a stop: the parse of stop [parsed] *)
| arrival_parse (stop : nat)
| departure_parse (stop : nat)
| delay_weather (stop : nat)
    (* [get_weather_condition] in [_simulate_station_delays] *)
| arrival_record (stop : nat)
    (* [_update_historical_patterns] of the arrival delay *)
| departure_record (stop : nat)
| station_weather (stop : nat)       (* the weather of the entry *)
| position_parse (parsed : nat)      (* the scan of the position *)
| position_eta                       (* the parse of the next arrival *)
| speed_parse (parsed : nat)
    (* the scan of the position [estimate_train_speed] computes *)
| speed_eta
| report_weather.

Section WithLoader.

Variable l : loader.

(** The loop of [_calculate_distance_covered] and of
    [_calculate_distance_from_start]: the legs [i -> i+1] for [i] in
    [range(n)] that lie inside the route, added up in doubles; an
    exception on the way gives 0.0. *)
Definition prefix_distance (routes : list stop) (n : nat) : Q :=
  let legs :=
    List.filter (fun i => (i + 1 <? length routes)%nat) (seq 0 n) in
  match
    mapM (fun i =>
            a ← PositionCalculator.city_at routes i;
            b ← PositionCalculator.city_at routes (i + 1);
            Some (distance l a b)) legs
  with
  | Some distances => foldl fadd 0.0%Q distances
  | None => 0.0%Q
  end.

Definition _calculate_distance_covered (routes : list stop)
  (current_idx : Z) : Q :=
  prefix_distance routes (Z.to_nat current_idx).

Definition _calculate_distance_to_next (routes : list stop)
  (current_idx : Z) : Q :=
  if Z.of_nat (length routes) <=? current_idx + 1 then 0.0%Q
  else
    match
      a ← PositionCalculator.city_at routes (Z.to_nat current_idx);
      b ← PositionCalculator.city_at routes (Z.to_nat (current_idx + 1));
      Some (distance l a b)
    with
    | Some d => d
    | None => 0.0%Q
    end.

Definition _calculate_distance_from_start (routes : list stop)
  (station_idx : nat) : Q :=
  match station_idx with
  | O => 0.0%Q
  | _ => prefix_distance routes station_idx
  end.

(** [calculate_train_position] for a naive current time; [scan_clock]
    gives the readings of the scan and [eta_clock] the one of
    [_calculate_eta_to_next]. *)
Definition calculate_train_position (scan_clock : nat → datetime)
  (eta_clock : datetime) (train_number : string) (current_time : datetime)
  : string + PositionCalculator.position :=
  match schedule_files l !! train_number with
  | None | Some EmptyObject => inl "Train schedule not found"
  | Some (Object schedule) =>
      let routes := routes schedule in
      match routes with
      | [] => inl "No routes found in schedule"
      | _ =>
          match _find_current_station_index scan_clock (Naive current_time)
                  (Stop <$> routes) with
          | None => inl "Unable to determine current position"
          | Some current_station_idx =>
              let total_stations := Z.of_nat (length routes) in
              if total_stations - 1 =? 0 then inl "division by zero"
              else
                let progress_percentage :=
                  fmul
                    (fdiv (inject_Z current_station_idx)
                       (inject_Z (total_stations - 1)))
                    100 in
                let distance_covered :=
                  _calculate_distance_covered routes current_station_idx in
                let distance_to_next :=
                  _calculate_distance_to_next routes current_station_idx in
                let eta_to_next :=
                  PositionCalculator._calculate_eta_to_next eta_clock routes
                    current_station_idx current_time in
                match PositionCalculator.city_at routes
                        (Z.to_nat current_station_idx) with
                | None => inl "'city'"
                | Some current_station =>
                    let next_station :=
                      if current_station_idx + 1 <? total_stations
                      then PositionCalculator.city_at routes
                             (Z.to_nat (current_station_idx + 1))
                      else Some PyNone in
                    match next_station with
                    | None => inl "'city'"
                    | Some next_station =>
                        inr {| PositionCalculator.current_station_idx :=
                                 current_station_idx;
                               PositionCalculator.current_station :=
                                 current_station;
                               PositionCalculator.next_station :=
                                 next_station;
                               PositionCalculator.progress_percentage :=
                                 PyOps.round progress_percentage 2;
                               PositionCalculator.distance_covered :=
                                 PyOps.round distance_covered 2;
                               PositionCalculator.distance_to_next :=
                                 PyOps.round distance_to_next 2;
                               PositionCalculator.eta_to_next := eta_to_next;
                               PositionCalculator.total_stations :=
                                 total_stations;
                               PositionCalculator.current_time :=
                                 current_time |}
                    end
                end
          end
      end
  end.

(** [estimate_train_speed], which computes a position of its own. *)
Definition estimate_train_speed (scan_clock : nat → datetime)
  (eta_clock : datetime) (jitter : Q) (train_number : string)
  (current_time : datetime) : Q :=
  match calculate_train_position scan_clock eta_clock train_number
          current_time with
  | inl _ => 0.0%Q
  | inr _ =>
      let base_speed := 60.0%Q in
      let hour := DT.hour current_time in
      let speed_multiplier :=
        if ((6 <=? hour) && (hour <=? 9))
           || ((17 <=? hour) && (hour <=? 20)) then 0.8%Q
        else if (22 <=? hour) || (hour <=? 5) then 1.2%Q
        else 1.0%Q in
      PyOps.round
        (fmul (fmul (float base_speed) (float speed_multiplier)) jitter) 1
  end.

(** [_simulate_station_delays]: the weather and each of the two delays
    read the clock. *)
Definition _simulate_station_delays (h : history)
  (weather_clock arrival_clock departure_clock : datetime)
  (rnd : stop_draws) (station_name : pyval)
  (scheduled_arrival scheduled_departure : option datetime)
  (current_time : datetime) : station_delays * history :=
  let weather :=
    get_weather_condition weather_clock (delay_weather_roll rnd) in
  let '(arrival_delay, actual_arrival, h) :=
    match scheduled_arrival with
    | Some sa =>
        let '(info, h) :=
          simulate_delay h arrival_clock (arrival_draws rnd)
            "STATION_SIMULATION" station_name sa current_time weather in
        let arrival_delay := DelaySimulator.delay_minutes info in
        (arrival_delay,
         if 0 <? arrival_delay
         then Some (DT.add_minutes sa arrival_delay) else Some sa,
         h)
    | None => (0, None, h)
    end in
  let '(departure_delay, actual_departure, h) :=
    match scheduled_departure with
    | Some sd =>
        let '(info, h) :=
          simulate_delay h departure_clock (departure_draws rnd)
            "STATION_SIMULATION" station_name sd current_time weather in
        let departure_delay := DelaySimulator.delay_minutes info in
        (departure_delay,
         if 0 <? departure_delay
         then Some (DT.add_minutes sd departure_delay) else Some sd,
         h)
    | None => (0, None, h)
    end in
  let total_delay := Z.max arrival_delay departure_delay in
  ({| sd_delay_minutes := total_delay;
      sd_actual_arrival := actual_arrival;
      sd_actual_departure := actual_departure;
      sd_weather_condition := weather |},
   h).

(** The loop of [_generate_station_statuses] from stop [i] on. *)
Fixpoint station_statuses_from (clock : site → datetime)
  (rnd : nat → stop_draws) (routes : list stop) (current_time : datetime)
  (i : nat) (rest : list stop) (acc : list station_entry) (h : history)
  : list station_entry * history :=
  match rest with
  | [] => (reverse acc, h)
  | route :: rest =>
      match route !! "city" with
      | None => ([], h)
      | Some station_name =>
          let status :=
            _determine_station_status (fun j => clock (status_parse i j))
              (Z.of_nat i) (Stop <$> routes) (Naive current_time) in
          let scheduled_arrival :=
            TimelineGenerator._parse_time_string (clock (arrival_parse i))
              (default PyNone (route !! "arrival_time")) in
          let scheduled_departure :=
            TimelineGenerator._parse_time_string (clock (departure_parse i))
              (default PyNone (route !! "departure_time")) in
          let '(delay_info, h) :=
            _simulate_station_delays h (clock (delay_weather i))
              (clock (arrival_record i)) (clock (departure_record i))
              (rnd i) station_name scheduled_arrival scheduled_departure
              current_time in
          let distance_from_start :=
            _calculate_distance_from_start routes i in
          let station_status :=
            {| station_name := station_name;
               status := status;
               scheduled_arrival := scheduled_arrival;
               scheduled_departure := scheduled_departure;
               actual_arrival := sd_actual_arrival delay_info;
               actual_departure := sd_actual_departure delay_info;
               delay_minutes := sd_delay_minutes delay_info;
               halt_duration := default (PyStr "---") (route !! "halt");
               duration := default (PyStr "---") (route !! "duration");
               distance_from_start := PyOps.round distance_from_start 2;
               weather_condition :=
                 get_weather_condition (clock (station_weather i))
                   (status_weather_roll (rnd i));
               crowd_level :=
                 _estimate_crowd_level station_name scheduled_arrival |}
          in
          station_statuses_from clock rnd routes current_time (S i) rest
            (station_status :: acc) h
      end
  end.

Definition _generate_station_statuses (h : history)
  (clock : site → datetime) (rnd : nat → stop_draws) (routes : list stop)
  (current_time : datetime) : list station_entry * history :=
  station_statuses_from clock rnd routes current_time 0 routes [] h.

(** [generate_train_status]; [now] is the reading of the clock it makes
    for the current time of the report. *)
Definition generate_train_status (h : history) (now : datetime)
  (clock : site → datetime) (rnd : report_draws) (train_number : string)
  : (string + train_status) * history :=
  match schedule_files l !! train_number with
  | None | Some EmptyObject => (inl "Train schedule not found", h)
  | Some (Object schedule) =>
      let current_time := now in
      let routes := routes schedule in
      let '(station_statuses, h) :=
        _generate_station_statuses h clock (per_stop rnd) routes
          current_time in
      let position_info :=
        calculate_train_position (fun j => clock (position_parse j))
          (clock position_eta) train_number current_time in
      let current_speed :=
        estimate_train_speed (fun j => clock (speed_parse j))
          (clock speed_eta) (speed_jitter rnd) train_number current_time in
      (inr {| ts_train_number := train_number;
              ts_train_name := default "Unknown" (train_name schedule);
              ts_station_statuses := station_statuses;
              ts_current_speed := current_speed;
              ts_distance_covered :=
                position_get position_info
                  PositionCalculator.distance_covered 0%Q;
              ts_distance_to_next :=
                position_get position_info
                  PositionCalculator.distance_to_next 0%Q;
              ts_delay_minutes := _calculate_total_delay station_statuses;
              ts_estimated_arrival :=
                position_get position_info
                  (fun p => Some (PositionCalculator.eta_to_next p)) None;
              ts_progress_percentage :=
                position_get position_info
                  PositionCalculator.progress_percentage 0%Q;
              ts_current_station :=
                position_get position_info
                  (fun p => Some (PositionCalculator.current_station p))
                  None;
              ts_next_station :=
                position_get position_info
                  (fun p => Some (PositionCalculator.next_station p))
                  None;
              ts_weather_condition :=
                get_weather_condition (clock report_weather)
                  (weather_roll rnd);
              ts_last_updated := current_time |},
       h)
  end.

End WithLoader.

End Runtime.

(** ** Test data of the runtime functions *)

(** Readings of the clock that pass from 10:29 to 10:31 on day 739000. *)
Definition ticking (i : nat) : datetime :=
  match i with
  | O => DT.at_hm 739000 10 29
  | 1%nat => DT.at_hm 739000 10 30
  | _ => DT.at_hm 739000 10 31
  end.

(** Readings in the first minutes of the next day. *)
Definition next_day (i : nat) : datetime :=
  match i with
  | O => DT.at_hm 739001 0 0
  | _ => DT.at_hm 739001 0 1
  end.

Definition at_23_59 : datetime := DT.at_hm 739000 23 59.

(** The readings of a report made at 23:59 during which the day changes
    after the tag of the first stop. *)
Definition midnight_clock (s : Runtime.site) : datetime :=
  match s with
  | Runtime.status_parse O _ => at_23_59
  | _ => DT.at_hm 739001 0 1
  end.

(** The readings of a report made between 10:29 and 10:31. *)
Definition ticking_clock (s : Runtime.site) : datetime :=
  match s with
  | Runtime.status_parse i j => ticking (i + j)
  | Runtime.position_parse j => ticking (S j)
  | _ => ticking 2
  end.

(** The loader of the tests with a third schedule file that holds [{}]. *)
Definition runtime_loader_test : Runtime.loader :=
  {| Runtime.schedule_files :=
       <[ "703" := Runtime.EmptyObject ]>
         (Runtime.Object <$> schedules loader_test);
     Runtime.distance := station_distance loader_test |}.

(** A scheduled time 10 minutes before [datetime.max]. *)
Definition near_datetime_max : datetime :=
  Runtime.datetime_max - 10 * DT.us_per_minute.

(** Base delay 25 at Chattogram in fog: 25 * 1.8 * 1.0 * 1.0 * 1.4. *)
Definition draws_delayed_25 : DelaySimulator.draws :=
  {| DelaySimulator.base_roll := 0.1;
     DelaySimulator.base_minutes := 25;
     DelaySimulator.jitter := 1.0 |}.


(** * Properties *)

(** ** The two parsers *)

Lemma strptime_dashes :
  Strptime.strptime (Strptime.strip (Strptime.replace_BST "---")) = None.
Proof. reflexivity. Qed.

Lemma pc_parse_falsy today v :
  truthy v = false → PositionCalculator._parse_time_string today v = None.
Proof.
  destruct v as [| | | |s| | |]; try reflexivity.
  destruct s as [|c s]; [reflexivity | discriminate].
Qed.

Lemma py_eq_str_inv v s : py_eq_str v s = true → v = PyStr s.
Proof.
  destruct v; try discriminate. simpl.
  intros H%String.eqb_eq. by subst.
Qed.

(** On every value the guard of the timeline parser only short-cuts a
    failure of the parse. *)
Lemma parse_time_string_agree today v :
  TimelineGenerator._parse_time_string today v
  = PositionCalculator._parse_time_string today v.
Proof.
  unfold TimelineGenerator._parse_time_string.
  destruct (truthy v) eqn:Ht; simpl.
  - destruct (py_eq_str v "---") eqn:He; [|reflexivity].
    apply py_eq_str_inv in He. subst v. reflexivity.
  - symmetry. by apply pc_parse_falsy.
Qed.

(** ** The scan of PositionCalculator *)

Lemma departs_after_parse today now route :
  departs_after today now route ↔
  ∃ v d, route !! "departure_time" = Some v
         ∧ PositionCalculator._parse_time_string today v = Some d
         ∧ now < d.
Proof.
  unfold departs_after, parsed_departure.
  destruct (route !! "departure_time") as [v|]; simpl.
  - destruct (PositionCalculator._parse_time_string today v) as [d|] eqn:Hp.
    + split; [intros; by exists v, d |].
      intros (v' & d' & Hv & Hp' & Hlt). congruence.
    + split; [done |].
      intros (v' & d' & Hv & Hp' & Hlt). congruence.
  - split; [done | intros (? & ? & ? & _); congruence].
Qed.

Lemma pc_scan_from_find today now routes : ∀ i,
  PositionCalculator.scan_from today now i routes
  = match list_find (departs_after today now) routes with
    | Some (k, _) => Some (Z.max 0 (i + Z.of_nat k - 1))
    | None => None
    end.
Proof.
  induction routes as [|route rest IH]; intros i; [reflexivity|].
  cbn [PositionCalculator.scan_from list_find].
  rewrite IH. clear IH.
  assert (Hskip :
    match list_find (departs_after today now) rest with
    | Some (k, _) => Some (Z.max 0 (i + 1 + Z.of_nat k - 1))
    | None => None
    end
    = match prod_map S id <$> list_find (departs_after today now) rest with
      | Some (k, _) => Some (Z.max 0 (i + Z.of_nat k - 1))
      | None => None
      end).
  { destruct (list_find _ rest) as [[k r]|]; simpl; [|done].
    do 2 f_equal. lia. }
  destruct (decide (departs_after today now route)) as [Hd|Hd].
  - apply departs_after_parse in Hd as (v & d & -> & Hp & Hlt).
    destruct (truthy v) eqn:Ht.
    + rewrite Hp. apply Z.ltb_lt in Hlt. rewrite Hlt.
      do 2 f_equal. lia.
    + rewrite pc_parse_falsy in Hp by done. discriminate.
  - rewrite <- Hskip.
    destruct (route !! "departure_time") as [v|] eqn:Hv; [|done].
    destruct (truthy v); [|done].
    destruct (PositionCalculator._parse_time_string today v) as [d|] eqn:Hp;
      [|done].
    destruct (now <? d) eqn:Hlt; [|done].
    exfalso. apply Hd, departs_after_parse.
    exists v, d. by apply Z.ltb_lt in Hlt.
Qed.

Lemma pc_find_scan_rule today now routes :
  PositionCalculator._find_current_station_index today now routes
  = scan_rule today now routes.
Proof.
  unfold PositionCalculator._find_current_station_index, scan_rule.
  rewrite pc_scan_from_find.
  by destruct (list_find _ routes) as [[k r]|].
Qed.

Lemma tg_scan_from_pc today now routes : ∀ i,
  TimelineGenerator.scan_from today now i routes
  = PositionCalculator.scan_from today now i routes.
Proof.
  induction routes as [|route rest IH]; intros i; [reflexivity|].
  cbn [TimelineGenerator.scan_from PositionCalculator.scan_from].
  rewrite IH.
  destruct (route !! "departure_time") as [v|]; [|done].
  by rewrite parse_time_string_agree.
Qed.


Lemma scan_rule_none today now routes :
  (∀ r, r ∈ routes → ¬ departs_after today now r) →
  scan_rule today now routes = Z.of_nat (length routes) - 1.
Proof.
  intros Hall. unfold scan_rule.
  assert (list_find (departs_after today now) routes = None) as ->; [|done].
  apply list_find_None, Forall_forall. done.
Qed.


Lemma mk_stop_departure_some city arrival d :
  mk_stop city arrival (Some d) !! "departure_time" = Some (PyStr d).
Proof. unfold mk_stop. by rewrite lookup_insert_eq. Qed.

Lemma mk_stop_departure_none city arrival :
  mk_stop city arrival None !! "departure_time" = None.
Proof.
  unfold mk_stop. destruct arrival.
  - rewrite lookup_insert_ne by done. by rewrite lookup_singleton_ne.
  - by rewrite lookup_singleton_ne.
Qed.


(** The parsers use the clock for its date only. *)
Lemma pc_parse_same_day today today' v :
  DT.toordinal today' = DT.toordinal today →
  PositionCalculator._parse_time_string today' v
  = PositionCalculator._parse_time_string today v.
Proof.
  intros Hday. destruct v; try reflexivity. simpl.
  destruct (Strptime.strptime _) as [[h m]|]; [|done].
  unfold DT.replace_hm. by rewrite Hday.
Qed.


(** ** Status tags *)

Import TimelineGenerator.

Lemma tg_find_scan_rule today now routes :
  _find_current_position today now routes = scan_rule today now routes.
Proof.
  unfold _find_current_position, scan_rule.
  rewrite tg_scan_from_pc, pc_scan_from_find.
  by destruct (list_find _ routes) as [[k r]|].
Qed.

(** Evaluate the digits read off a clock string. *)
Ltac eval_digits :=
  repeat match goal with
         | |- context [Strptime.digit ?c] =>
             let v := eval vm_compute in (Strptime.digit c) in
             change (Strptime.digit c) with v
         end.

(** At 10:30 AM no stop of the three-stop route departs later: StationA
    and StationB have left, StationC has no departure time. *)
Lemma route_abc_position today :
  scan_rule today (DT.replace_hm today 10 30) route_abc = 2.
Proof.
  rewrite scan_rule_none; [reflexivity|].
  intros r Hr. unfold departs_after, parsed_departure.
  repeat (apply elem_of_cons in Hr as [->|Hr]).
  - rewrite mk_stop_departure_some. simpl. eval_digits.
    unfold DT.replace_hm, DT.us_per_hour, DT.us_per_minute. lia.
  - rewrite mk_stop_departure_some. simpl. eval_digits.
    unfold DT.replace_hm, DT.us_per_hour, DT.us_per_minute. lia.
  - rewrite mk_stop_departure_none. simpl. tauto.
  - by apply elem_of_nil in Hr.
Qed.

Example route_abc_dashes_tags :
  station_tags at_10_30 at_10_30 route_abc_dashes
  = [completed; completed; current].
Proof. vm_compute. reflexivity. Qed.

(** The ['status'] fields of the entries [_generate_station_statuses]
    makes are the tags of [station_tags]. *)
Lemma station_statuses_from_tags loader clock rnd routes now :
  ∀ rest i acc h,
    Forall (fun r : stop => is_Some (r !! "city")) rest →
    status <$> (station_statuses_from loader clock rnd routes now i rest acc
                  h).1
    = (status <$> reverse acc)
      ++ ((fun k : nat => _determine_station_status clock (Z.of_nat k) routes
                            now) <$> seq i (length rest)).
Proof.
  induction rest as [|route rest IH]; intros i acc h Hc.
  - simpl. by rewrite app_nil_r.
  - apply Forall_cons in Hc as [[c Hcity] Hc].
    cbn [station_statuses_from]. rewrite Hcity.
    destruct (_simulate_station_delays _ _ _ _ _ _ _) as [delay_info h'].
    rewrite IH by done.
    by rewrite reverse_cons, fmap_app, <- app_assoc.
Qed.

Lemma generate_station_statuses_tags loader h clock rnd routes now :
  Forall (fun r : stop => is_Some (r !! "city")) routes →
  status <$> (_generate_station_statuses loader h clock rnd routes now).1
  = station_tags clock now routes.
Proof.
  intros Hc. unfold _generate_station_statuses, station_tags.
  by rewrite station_statuses_from_tags.
Qed.

(** C2, the worked example of the specification: at 10:30 AM on the
    three-stop route the tags are not [completed, current, next]. *)
Lemma route_abc_tags_not_completed_current_next :
  station_tags at_10_30 at_10_30 route_abc ≠ [completed; current; next].
Proof. vm_compute. discriminate. Qed.

(** C2.  The tag of the stop at index [i] is [completed] below
    the current position, [current] at it, [next] one after it and
    [upcoming] beyond, the current position being the index of the scan
    rule; the timeline carries one such tag per stop, in route order (they
    are the ['status'] fields of [_generate_station_statuses]); and on
    the three-stop route StationA (dep 09:00 AM), StationB (arr 10:00 AM,
    dep 10:05 AM), StationC (arr 11:00 AM) at 10:30 AM the current position
    is 2 and the tags are [completed, completed, current]. *)
Theorem station_status_tags (today now : datetime) (routes : list stop) :
  (∀ i : Z,
     _determine_station_status today i routes now
     = let current_position := scan_rule today now routes in
       if i <? current_position then completed
       else if i =? current_position then current
       else if i =? current_position + 1 then next
       else upcoming)
  ∧ length (station_tags today now routes) = length routes
  ∧ (∀ i : nat, (i < length routes)%nat →
       station_tags today now routes !! i
       = Some (_determine_station_status today (Z.of_nat i) routes now))
  ∧ (∀ loader h rnd,
       Forall (fun r : stop => is_Some (r !! "city")) routes →
       status <$> (_generate_station_statuses loader h today rnd routes now).1
       = station_tags today now routes)
  ∧ _find_current_position today (DT.replace_hm today 10 30) route_abc = 2
  ∧ station_tags today (DT.replace_hm today 10 30) route_abc
    = [completed; completed; current].
Proof.
  split; [|split; [|split; [|split; [|split]]]].
  - intros i. unfold _determine_station_status.
    by rewrite tg_find_scan_rule.
  - unfold station_tags. by rewrite length_fmap, length_seq.
  - intros i Hi. unfold station_tags.
    by rewrite list_lookup_fmap, lookup_seq_lt.
  - intros loader h rnd Hc. by apply generate_station_statuses_tags.
  - rewrite tg_find_scan_rule. apply route_abc_position.
  - unfold station_tags, _determine_station_status.
    rewrite tg_find_scan_rule, route_abc_position. reflexivity.
Qed.

Lemma station_status_tags_witness :
  station_tags at_10_30 at_10_02 route_abc !! 1%nat
  = Some (_determine_station_status at_10_30 (Z.of_nat 1) route_abc at_10_02).
Proof.
  apply (proj1 (proj2 (proj2
           (station_status_tags at_10_30 at_10_02 route_abc)))).
  simpl. lia.
Defined.

(** ** The delay model *)

Section DelayModel.

Import DelaySimulator.

Lemma bucket_of_update h clock train station d train' station' :
  bucket_of (_update_historical_patterns h clock train station d)
    train' station'
  = if decide (train' = train ∧ station' = station)
    then
      let delays :=
        bucket h train station ++ [ {| delay := d; timestamp := clock |} ] in
      Some (if (100 <? length delays)%nat then drop 1 delays else delays)
    else bucket_of h train' station'.
Proof.
  unfold _update_historical_patterns, bucket, bucket_of.
  destruct (decide (train' = train)) as [->|Hne].
  - rewrite lookup_insert_eq. simpl.
    destruct (decide (station' = station)) as [->|Hne].
    + rewrite lookup_insert_eq, decide_True by done.
      by destruct (h !! train).
    + rewrite lookup_insert_ne by done.
      rewrite decide_False by (intros [_ ?]; done).
      destruct (h !! train); simpl; [done|].
      by rewrite lookup_empty.
  - rewrite lookup_insert_ne by done.
    rewrite decide_False by (intros [? _]; done). done.
Qed.

Lemma bucket_update h clock train station d train' station' :
  bucket (_update_historical_patterns h clock train station d)
    train' station'
  = if decide (train' = train ∧ station' = station)
    then
      let delays :=
        bucket h train station ++ [ {| delay := d; timestamp := clock |} ] in
      if (100 <? length delays)%nat then drop 1 delays else delays
    else bucket h train' station'.
Proof.
  unfold bucket at 1. rewrite bucket_of_update. by case_decide.
Qed.

(** What [simulate_delay] leaves in the history when given a station
    name. *)
Lemma simulate_delay_history h clock rnd train station scheduled now w :
  (simulate_delay h clock rnd train (PyStr station) scheduled now w).2
  = _update_historical_patterns h clock train station
      (delay_minutes
         (simulate_delay h clock rnd train (PyStr station) scheduled now
            w).1).
Proof. reflexivity. Qed.

(** Every bucket of a reachable history is non-empty and holds at most
    100 observations. *)
Definition buckets_ok (h : history) : Prop :=
  ∀ train station b,
    bucket_of h train station = Some b → b ≠ [] ∧ (length b <= 100)%nat.

Lemma buckets_ok_update h clock train station d :
  buckets_ok h →
  buckets_ok (_update_historical_patterns h clock train station d).
Proof.
  intros Hok train' station' b. rewrite bucket_of_update.
  case_decide as Hd; [|apply Hok].
  intros [= <-]. cbn zeta.
  assert (length (bucket h train station) <= 100)%nat as Hlen.
  { unfold bucket.
    destruct (bucket_of h train station) as [b0|] eqn:Hb; simpl; [|lia].
    by apply Hok in Hb as [_ ?]. }
  rewrite length_app. simpl.
  destruct (Nat.ltb_spec 100 (length (bucket h train station) + 1)).
  - split.
    + intros Hnil%(f_equal length). revert Hnil.
      rewrite length_drop, length_app. simpl. lia.
    + rewrite length_drop, length_app. simpl. lia.
  - split.
    + by destruct (bucket h train station).
    + rewrite length_app. simpl. lia.
Qed.

Lemma reachable_buckets_ok h : reachable h → buckets_ok h.
Proof.
  induction 1 as [|h clock rnd train station scheduled now w _ IH].
  - intros train station b. unfold bucket_of.
    by rewrite lookup_empty.
  - destruct station; try exact IH.
    rewrite simulate_delay_history. by apply buckets_ok_update.
Qed.

Lemma reachable_foldl calls : reachable (foldl step ∅ calls).
Proof.
  induction calls as [|c calls IH] using rev_ind; [constructor|].
  rewrite foldl_app. simpl. unfold step at 1. by constructor.
Qed.


(** C4.  In every state reached from a fresh simulator by calls of
    [simulate_delay], every (train, station) bucket holds at most 100
    observations.  A call appends its observation at the end of the bucket
    of its (train, station) pair and leaves the other buckets alone; when
    the bucket already holds 100, its oldest observation is dropped and
    the other 99 keep their order in front of the new one. *)
Theorem history_buckets_bounded :
  (∀ h train station,
     reachable h → (length (bucket h train station) <= 100)%nat)
  ∧ (∀ h clock rnd train station scheduled now w,
       let r := simulate_delay h clock rnd train (PyStr station) scheduled
                  now w in
       let obs := {| delay := delay_minutes r.1; timestamp := clock |} in
       ((length (bucket h train station) < 100)%nat →
        bucket r.2 train station = bucket h train station ++ [obs])
       ∧ (length (bucket h train station) = 100%nat →
          bucket r.2 train station = drop 1 (bucket h train station) ++ [obs]
          ∧ length (bucket r.2 train station) = 100%nat)
       ∧ (∀ train' station',
            ¬ (train' = train ∧ station' = station) →
            bucket r.2 train' station' = bucket h train' station')).
Proof.
  split.
  - intros h train station Hr. unfold bucket.
    destruct (bucket_of h train station) as [b|] eqn:Hb; simpl; [|lia].
    by apply (reachable_buckets_ok h Hr) in Hb as [_ ?].
  - intros h clock rnd train station scheduled now w r obs.
    subst r. rewrite simulate_delay_history. fold obs.
    split; [|split].
    + intros Hlt. rewrite bucket_update, decide_True by done.
      cbn zeta. rewrite length_app. simpl length.
      destruct (Nat.ltb_spec 100 (length (bucket h train station) + 1));
        [lia|done].
    + intros Hlen.
      assert (bucket (_update_historical_patterns h clock train station
                        (delay obs)) train station
              = drop 1 (bucket h train station) ++ [obs]) as Heq.
      { rewrite bucket_update, decide_True by done.
        cbn zeta. rewrite length_app, Hlen. simpl Nat.ltb. cbn iota.
        destruct (bucket h train station); [discriminate|reflexivity]. }
      split; [exact Heq|].
      transitivity (length (drop 1 (bucket h train station) ++ [obs]));
        [exact (f_equal length Heq)|].
      rewrite length_app, length_drop, Hlen. reflexivity.
    + intros train' station' Hne.
      by rewrite bucket_update, decide_False.
Qed.

Lemma history_buckets_bounded_witness :
  (length (bucket history_100 "701" "Dhaka") <= 100)%nat
  ∧ bucket (step history_100 call_dhaka) "701" "Dhaka"
    = drop 1 (bucket history_100 "701" "Dhaka")
      ++ [ {| delay := 22; timestamp := at_10_30 |} ]
  ∧ bucket (step ∅ call_dhaka) "701" "Dhaka"
    = bucket ∅ "701" "Dhaka" ++ [ {| delay := 22; timestamp := at_10_30 |} ].
Proof.
  split; [|split].
  - apply (proj1 history_buckets_bounded). apply reachable_foldl.
  - apply (proj1 (proj2 (proj2 history_buckets_bounded history_100 at_10_30
             draws_delayed "701" "Dhaka" at_10_30 at_10_30 "rainy"))).
    vm_compute. reflexivity.
  - apply (proj1 (proj2 history_buckets_bounded ∅ at_10_30
             draws_delayed "701" "Dhaka" at_10_30 at_10_30 "rainy")).
    vm_compute. lia.
Defined.

(** ** Prediction without history *)

Lemma stats_total_positive h train station stats :
  get_historical_delay_stats h train station = inr stats →
  0 < total_delays stats.
Proof.
  unfold get_historical_delay_stats.
  destruct (h !! train) as [per_train|]; [|discriminate].
  match goal with
  | |- match ?e with _ => _ end = _ → _ => destruct e as [msg|[|d ds]]
  end; try discriminate.
  intros [= <-]. simpl. lia.
Qed.

(** C5.  [predict_delay_probability] never returns the fallback
    [{delay_probability: 0.3, confidence: 'low'}]: the statistics it starts
    from are an error whenever the (train, station) bucket holds no
    observation, and that error is returned as it is.  On a fresh
    simulator the result is [{'error': 'No historical data available'}]. *)
Theorem predict_delay_probability_no_history :
  (∀ h train station t,
     predict_delay_probability h train station t ≠ PredShort 0.3 "low")
  ∧ (∀ h train station t,
       reachable h → bucket h train station = [] →
       ∃ msg, predict_delay_probability h train station t = PredError msg)
  ∧ (∀ train station t,
       predict_delay_probability ∅ train station t
       = PredError "No historical data available").
Proof.
  split; [|split].
  - intros h train station t. unfold predict_delay_probability.
    destruct (get_historical_delay_stats h train (Some station))
      as [msg|stats] eqn:Hs; [discriminate|].
    apply stats_total_positive in Hs.
    destruct (Z.eqb_spec (total_delays stats) 0) as [H0|_]; [lia|].
    destruct (bucket_of h train station); discriminate.
  - intros h train station t Hr Hb. unfold predict_delay_probability.
    destruct (get_historical_delay_stats h train (Some station))
      as [msg|stats] eqn:Hs; [by exists msg|].
    pose proof (stats_total_positive _ _ _ _ Hs) as Hpos.
    destruct (Z.eqb_spec (total_delays stats) 0) as [H0|_]; [lia|].
    destruct (bucket_of h train station) as [b|] eqn:Hbo; [|by eexists].
    exfalso. apply (reachable_buckets_ok h Hr) in Hbo as Hok.
    unfold bucket in Hb. rewrite Hbo in Hb. simpl in Hb.
    by destruct Hok.
  - intros train station t. unfold predict_delay_probability,
      get_historical_delay_stats. by rewrite lookup_empty.
Qed.

Lemma predict_delay_probability_no_history_witness :
  ∃ msg,
    predict_delay_probability history_100 "701" "Sylhet" at_10_30
    = PredError msg.
Proof.
  apply (proj1 (proj2 predict_delay_probability_no_history)).
  - apply reachable_foldl.
  - vm_compute. reflexivity.
Defined.

End DelayModel.

(** ** The crowd store *)

Section CrowdStore.

Import CrowdValidation.

Lemma crowd_data_has_no_confidence st clock train :
  get_train_crowd_data st clock train !! "confidence" = None.
Proof.
  unfold get_train_crowd_data.
  destruct (st !! train); by rewrite !lookup_insert_ne, lookup_empty.
Qed.

Lemma crowd_data_has_no_error st clock train :
  get_train_crowd_data st clock train !! "error" = None.
Proof.
  unfold get_train_crowd_data.
  destruct (st !! train); by rewrite !lookup_insert_ne, lookup_empty.
Qed.

(** C6.  [adjust_train_status_with_crowd_data] returns the status it was
    given, whatever the store holds: the dict of [get_train_crowd_data]
    has no ['confidence'] key, so reading it raises and the [except]
    branch returns [base_status].  With four active confirmations for
    train 701 the crowd confidence is 'medium', and still the delay of 10
    minutes is unchanged and no ['crowd_validation'] entry is attached. *)
Theorem adjust_train_status_returns_base_status :
  (∀ st clock rnd train base_status,
     adjust_train_status_with_crowd_data st clock rnd train base_status
     = base_status)
  ∧ cm_confidence (_calculate_crowd_metrics store_701 at_10_30 "701")
    = "medium"
  ∧ adjust_train_status_with_crowd_data store_701 at_10_30 draws_plus_2
      "701" status_delay_10 !! "delay_minutes" = Some (PyInt 10)
  ∧ adjust_train_status_with_crowd_data store_701 at_10_30 draws_plus_2
      "701" status_delay_10 !! "crowd_validation" = None.
Proof.
  assert (∀ st clock rnd train base_status,
            adjust_train_status_with_crowd_data st clock rnd train
              base_status = base_status) as Hid.
  { intros. unfold adjust_train_status_with_crowd_data, adjust_body.
    by rewrite crowd_data_has_no_error, crowd_data_has_no_confidence. }
  split; [exact Hid|]. rewrite Hid.
  split; [vm_compute; reflexivity|].
  split; reflexivity.
Qed.

(** *** Confirmations *)

Lemma confirm_lookup st clock train user sn co :
  (confirm_user_on_train st clock train user sn co).2 !! train
  = let td := default (fresh_train_data clock) (st !! train) in
    Some
      match list_find (fun conf => user_id conf = user) (confirmations td)
      with
      | Some (i, conf) =>
          {| confirmations :=
               <[ i := update_confirmation clock sn co conf ]>
                 (confirmations td);
             last_updated := clock;
             total_confirmations := total_confirmations td |}
      | None =>
          {| confirmations :=
               confirmations td
               ++ [ {| user_id := user; timestamp := clock;
                       station_name := sn; coordinates := co |} ];
             last_updated := clock;
             total_confirmations := total_confirmations td + 1 |}
      end.
Proof.
  unfold confirm_user_on_train. cbn zeta.
  destruct (list_find _ _) as [[i conf]|]; simpl;
    by rewrite lookup_insert_eq.
Qed.

Lemma confirm_lookup_ne st clock train user sn co train' :
  train' ≠ train →
  (confirm_user_on_train st clock train user sn co).2 !! train'
  = st !! train'.
Proof.
  intros Hne. unfold confirm_user_on_train. cbn zeta.
  destruct (list_find _ _) as [[i conf]|]; simpl;
    by rewrite lookup_insert_ne.
Qed.

(** With one confirmation per user, the loop finds the entry of [user]
    wherever it is. *)
Lemma find_user_unique (confs : list confirmation) user i conf :
  NoDup (user_id <$> confs) →
  confs !! i = Some conf → user_id conf = user →
  list_find (fun c => user_id c = user) confs = Some (i, conf).
Proof.
  intros Hnd Hi Hu.
  destruct (list_find (fun c => user_id c = user) confs) as [[k c]|] eqn:Hf.
  - apply list_find_Some in Hf as (Hk & Hc & _).
    assert (k = i) as ->.
    { eapply (NoDup_lookup _ _ _ user Hnd);
        rewrite list_lookup_fmap; [rewrite Hk|rewrite Hi]; simpl; congruence. }
    congruence.
  - apply list_find_None in Hf.
    rewrite Forall_forall in Hf.
    exfalso. eapply Hf; [|exact Hu]. by eapply list_elem_of_lookup_2.
Qed.

Lemma update_keeps_users (confs : list confirmation) i conf clock sn co :
  confs !! i = Some conf →
  user_id <$> <[ i := update_confirmation clock sn co conf ]> confs
  = user_id <$> confs.
Proof.
  intros Hi. rewrite list_fmap_insert. simpl.
  apply list_insert_id. by rewrite list_lookup_fmap, Hi.
Qed.

(** C9.  From a store with at most one confirmation per user in every
    train's list, [confirm_user_on_train] leads to such a store again.  A
    confirmation by a user already in the train's list replaces that
    entry's timestamp, station and coordinates where it stands, the length
    of the list and [total_confirmations] staying as they were; a
    confirmation by a new user appends one entry and adds one to
    [total_confirmations]. *)
Theorem confirm_user_on_train_one_per_user (st : validations)
  (clock : datetime) (train user : string) (sn co : pyval) :
  let st' := (confirm_user_on_train st clock train user sn co).2 in
  let old := default (fresh_train_data clock) (st !! train) in
  one_confirmation_per_user st →
  one_confirmation_per_user st'
  ∧ (∀ train', train' ≠ train → st' !! train' = st !! train')
  ∧ ∃ new,
      st' !! train = Some new
      ∧ (∀ i conf,
           confirmations old !! i = Some conf → user_id conf = user →
           confirmations new
           = <[ i := {| user_id := user; timestamp := clock;
                        station_name := sn; coordinates := co |} ]>
               (confirmations old)
           ∧ length (confirmations new) = length (confirmations old)
           ∧ total_confirmations new = total_confirmations old)
      ∧ ((∀ conf, conf ∈ confirmations old → user_id conf ≠ user) →
         confirmations new
         = confirmations old
           ++ [ {| user_id := user; timestamp := clock;
                   station_name := sn; coordinates := co |} ]
         ∧ total_confirmations new = total_confirmations old + 1).
Proof.
  intros st' old Hinv.
  assert (NoDup (user_id <$> confirmations old)) as Hold.
  { subst old. destruct (st !! train) as [td|] eqn:Htd; simpl.
    - by eapply Hinv.
    - constructor. }
  pose proof (confirm_lookup st clock train user sn co) as Hnew.
  cbn zeta in Hnew. fold st' old in Hnew.
  split; [|split].
  - intros train' td Htd.
    destruct (decide (train' = train)) as [->|Hne].
    + rewrite Hnew in Htd. injection Htd as <-.
      destruct (list_find _ _) as [[i conf]|] eqn:Hf; simpl.
      * apply list_find_Some in Hf as (Hi & _ & _).
        by rewrite update_keeps_users.
      * apply list_find_None in Hf. rewrite Forall_forall in Hf.
        rewrite fmap_app. simpl. apply NoDup_app.
        split; [done|]. split; [|apply NoDup_singleton].
        intros u Hu Hu'. apply list_elem_of_singleton in Hu'. subst u.
        apply list_elem_of_fmap in Hu as (c & Hc & Hin).
        by eapply Hf.
    + subst st'. rewrite confirm_lookup_ne in Htd by done.
      by eapply Hinv.
  - intros train' Hne. subst st'. by apply confirm_lookup_ne.
  - eexists. split; [exact Hnew|]. split.
    + intros i conf Hi Hu.
      rewrite (find_user_unique _ user i conf Hold Hi Hu). simpl.
      split; [|split; [|done]].
      * unfold update_confirmation. by rewrite Hu.
      * by rewrite length_insert.
    + intros Hfresh.
      assert (list_find (fun c => user_id c = user) (confirmations old)
              = None) as ->.
      { apply list_find_None, Forall_forall. exact Hfresh. }
      done.
Qed.

Lemma store_701_one_per_user : one_confirmation_per_user store_701.
Proof.
  intros train td. unfold store_701.
  destruct (decide (train = "701")) as [->|Hne].
  - rewrite lookup_singleton_eq. intros [= <-]. simpl.
    compute_done.
  - by rewrite lookup_singleton_ne.
Qed.

Lemma confirm_user_on_train_one_per_user_witness :
  one_confirmation_per_user
    (confirm_user_on_train store_701 at_10_30 "701" "u2" PyNone PyNone).2.
Proof.
  apply (confirm_user_on_train_one_per_user store_701 at_10_30 "701" "u2"
           PyNone PyNone).
  exact store_701_one_per_user.
Defined.

End CrowdStore.

(** ** The status report *)

Section Report.

Lemma foldl_max_ge (ds : list Z) : ∀ d,
  d <= foldl Z.max d ds ∧ ∀ x, x ∈ ds → x <= foldl Z.max d ds.
Proof.
  induction ds as [|y ds IH]; intros d; simpl.
  - split; [lia|]. intros x Hx. by apply elem_of_nil in Hx.
  - destruct (IH (Z.max d y)) as [H1 H2]. split; [lia|].
    intros x [->|Hx]%elem_of_cons; [lia|by apply H2].
Qed.

Lemma foldl_max_in (ds : list Z) : ∀ d, foldl Z.max d ds ∈ d :: ds.
Proof.
  induction ds as [|y ds IH]; intros d; simpl.
  - apply list_elem_of_here.
  - specialize (IH (Z.max d y)).
    apply elem_of_cons in IH as [->|Hin].
    + destruct (Z.max_spec d y) as [[_ ->]|[_ ->]];
        [apply list_elem_of_further|]; apply list_elem_of_here.
    + by do 2 apply list_elem_of_further.
Qed.

Lemma total_delay_is_max (sts : list TimelineGenerator.station_entry) :
  let delays := TimelineGenerator.delay_minutes <$> sts in
  (∀ d, d ∈ delays → d <= TimelineGenerator._calculate_total_delay sts)
  ∧ (delays ≠ [] → TimelineGenerator._calculate_total_delay sts ∈ delays)
  ∧ (delays = [] → TimelineGenerator._calculate_total_delay sts = 0).
Proof.
  cbn zeta. unfold TimelineGenerator._calculate_total_delay.
  destruct (TimelineGenerator.delay_minutes <$> sts) as [|d ds].
  - split; [|split]; [|done..].
    intros d Hd. by apply elem_of_nil in Hd.
  - destruct (foldl_max_ge ds d) as [H1 H2].
    split; [|split]; [| |done].
    + intros x [->|Hx]%elem_of_cons; [done|by apply H2].
    + intros _. apply foldl_max_in.
Qed.

(** With a ['city'] in every stop the loop makes one entry per stop, in
    route order. *)
Lemma station_statuses_from_cities loader clock rnd routes now :
  ∀ rest i acc h,
    Forall (fun r : stop => is_Some (r !! "city")) rest →
    (fun e => Some (TimelineGenerator.station_name e))
      <$> (TimelineGenerator.station_statuses_from loader clock rnd routes
             now i rest acc h).1
    = ((fun e => Some (TimelineGenerator.station_name e)) <$> reverse acc)
      ++ ((fun r : stop => r !! "city") <$> rest).
Proof.
  induction rest as [|route rest IH]; intros i acc h Hc.
  - simpl. by rewrite app_nil_r.
  - apply Forall_cons in Hc as [[c Hcity] Hc].
    cbn [TimelineGenerator.station_statuses_from]. rewrite Hcity.
    destruct (TimelineGenerator._simulate_station_delays _ _ _ _ _ _ _)
      as [delay_info h'].
    rewrite IH by done.
    rewrite reverse_cons, fmap_app, <- app_assoc. simpl.
    by rewrite Hcity.
Qed.

Lemma generate_station_statuses_cities loader h clock rnd routes now :
  Forall (fun r : stop => is_Some (r !! "city")) routes →
  (fun e => Some (TimelineGenerator.station_name e))
    <$> (TimelineGenerator._generate_station_statuses loader h clock rnd
           routes now).1
  = (fun r : stop => r !! "city") <$> routes.
Proof.
  intros Hc. unfold TimelineGenerator._generate_station_statuses.
  by rewrite station_statuses_from_cities.
Qed.

Import TimelineGenerator.

(** C8.  The [delay_minutes] of the report of [generate_train_status] is
    the maximum of the [delay_minutes] of its station entries: no entry has
    a larger one, and some entry has exactly it (0 when there is no entry).
    There is one entry per stop of the route, in route order, when every
    stop names its city.  It is not the sum: with delays of 10, 20 and 0
    minutes at the three stops the report says 20. *)
Theorem overall_delay_is_maximum :
  (∀ loader h clock rnd train (report : train_status) h',
     generate_train_status loader h clock rnd train = (inr report, h') →
     let delays : list Z := delay_minutes <$> ts_station_statuses report in
     (∀ d, d ∈ delays → d <= ts_delay_minutes report)
     ∧ (delays ≠ [] → ts_delay_minutes report ∈ delays)
     ∧ (delays = [] → ts_delay_minutes report = 0)
     ∧ ∀ sch : schedule,
         schedules loader !! train = Some sch →
         Forall (fun r : stop => is_Some (r !! "city")) (routes sch) →
         (fun e => Some (station_name e)) <$> ts_station_statuses report
         = (fun r : stop => r !! "city") <$> routes sch)
  ∧ match
      (generate_train_status loader_test ∅ at_10_30 report_draws_test
         "701").1
    with
    | inr report =>
        delay_minutes <$> ts_station_statuses report = [10; 20; 0]
        ∧ ts_delay_minutes report = 20
    | inl _ => False
    end.
Proof.
  split.
  - intros loader h clock rnd train report h'.
    unfold generate_train_status.
    destruct (schedules loader !! train) as [sch|] eqn:Hsch;
      [|discriminate].
    destruct (_generate_station_statuses loader h clock (per_stop rnd)
                (routes sch) clock) as [sts h1] eqn:Hgen.
    intros [= <- <-]. cbn [ts_station_statuses ts_delay_minutes].
    destruct (total_delay_is_max sts) as (Hge & Hin & Hnil).
    repeat split; [exact Hge|exact Hin|exact Hnil|].
    intros sch' [= <-] Hc.
    pose proof (generate_station_statuses_cities loader h clock
                  (per_stop rnd) (routes sch) clock Hc) as Hcities.
    by rewrite Hgen in Hcities.
  - vm_compute. split; reflexivity.
Qed.

Lemma overall_delay_is_maximum_witness :
  match
    generate_train_status loader_test ∅ at_10_30 report_draws_test "701"
  with
  | (inr report, _) =>
      ∀ d, d ∈ delay_minutes <$> ts_station_statuses report →
           d <= ts_delay_minutes report
  | _ => True
  end.
Proof.
  destruct (generate_train_status loader_test ∅ at_10_30 report_draws_test
              "701") as [[msg|report] h'] eqn:Heq; [exact I|].
  exact (proj1 (proj1 overall_delay_is_maximum loader_test ∅ at_10_30
                  report_draws_test "701" report h' Heq)).
Defined.

End Report.

(** ** The position snapshot *)

Section Snapshot.

Import PositionCalculator.

(** On a non-empty route the scan rule selects an index of the route. *)
Lemma scan_rule_in_range today now (routes : list stop) :
  routes ≠ [] →
  0 <= scan_rule today now routes < Z.of_nat (length routes).
Proof.
  intros Hne. unfold scan_rule.
  destruct (list_find _ routes) as [[i r]|] eqn:Hf.
  - apply list_find_Some in Hf as (Hi%lookup_lt_Some & _). lia.
  - destruct routes; [done|]. simpl. lia.
Qed.

(** C10.  For a train whose route has exactly one stop
    [calculate_train_position] returns the error of the division by
    [total_stations - 1 = 0], never a snapshot; whenever it returns a
    snapshot the route has at least two stops; and it does return one for
    a route of at least two stops that all name their city. *)
Theorem single_stop_route_has_no_position (loader : data_loader)
  (today : datetime) (train : string) (now : datetime) :
  (∀ sch r,
     schedules loader !! train = Some sch → routes sch = [r] →
     calculate_train_position loader today train now
     = inl "division by zero")
  ∧ (∀ p,
       calculate_train_position loader today train now = inr p →
       ∃ sch, schedules loader !! train = Some sch
              ∧ (2 <= length (routes sch))%nat
              ∧ total_stations p = Z.of_nat (length (routes sch)))
  ∧ (∀ sch,
       schedules loader !! train = Some sch →
       (2 <= length (routes sch))%nat →
       Forall (fun r : stop => is_Some (r !! "city")) (routes sch) →
       ∃ p, calculate_train_position loader today train now = inr p).
Proof.
  unfold calculate_train_position.
  split; [|split].
  - intros sch r -> ->. reflexivity.
  - intros p.
    destruct (schedules loader !! train) as [sch|]; [|discriminate].
    destruct (routes sch) as [|r0 [|r1 rest]] eqn:Hr; [discriminate..|].
    intros Hp. exists sch. rewrite Hr. split; [done|]. split; [simpl; lia|].
    revert Hp. repeat case_match; try discriminate.
    all: by intros [= <-].
  - intros sch -> Hlen Hc.
    destruct (routes sch) as [|r0 rest] eqn:Hr; [simpl in Hlen; lia|].
    rewrite <- Hr in *.
    assert (routes sch ≠ []) as Hne by (rewrite Hr; done).
    pose proof (scan_rule_in_range today now (routes sch) Hne) as Hrange.
    rewrite <- pc_find_scan_rule in Hrange.
    set (idx := _find_current_station_index today now (routes sch)) in *.
    destruct (Z.eqb_spec (Z.of_nat (length (routes sch)) - 1) 0); [lia|].
    assert (∀ k : nat, (k < length (routes sch))%nat →
              is_Some (city_at (routes sch) k)) as Hcity.
    { intros k Hk. unfold city_at.
      destruct (lookup_lt_is_Some_2 _ _ Hk) as [r Hk'].
      rewrite Hk'. simpl.
      rewrite Forall_forall in Hc. apply Hc.
      by eapply list_elem_of_lookup_2. }
    destruct (Hcity (Z.to_nat idx)) as [c ->]; [lia|].
    destruct (Z.ltb_spec (idx + 1) (Z.of_nat (length (routes sch)))).
    + destruct (Hcity (Z.to_nat (idx + 1))) as [c' ->]; [lia|].
      rewrite Hr. by eexists.
    + rewrite Hr. by eexists.
Qed.

Lemma single_stop_route_has_no_position_witness :
  calculate_train_position loader_test at_10_30 "702" at_10_30
  = inl "division by zero"
  ∧ ∃ p, calculate_train_position loader_test at_10_30 "701" at_10_30
         = inr p.
Proof.
  split.
  - apply (proj1 (single_stop_route_has_no_position loader_test at_10_30
                    "702" at_10_30)
             {| train_name := None;
                routes := [mk_stop "Dhaka" None (Some "09:00 AM")] |}
             (mk_stop "Dhaka" None (Some "09:00 AM")));
      reflexivity.
  - apply (proj2 (proj2 (single_stop_route_has_no_position loader_test
                           at_10_30 "701" at_10_30))
             {| train_name := Some "Test Express"; routes := route_abc |}).
    + reflexivity.
    + simpl. lia.
    + repeat constructor; by eexists.
Defined.

End Snapshot.

(** * Further properties *)

(** ** Rounding *)

Lemma round_half_even_cases (x : Q) :
  let q := Qnum x / Z.pos (Qden x) in
  (PyOps.round_half_even x = q ∨ PyOps.round_half_even x = q + 1)
  ∧ (2 * (Qnum x mod Z.pos (Qden x)) < Z.pos (Qden x) →
     PyOps.round_half_even x = q).
Proof.
  unfold PyOps.round_half_even. cbn zeta.
  destruct (Z.ltb_spec (2 * (Qnum x mod Z.pos (Qden x))) (Z.pos (Qden x)));
    [tauto|].
  split; [|lia].
  repeat match goal with |- context [if ?b then _ else _] => destruct b end;
    tauto.
Qed.

Lemma round_half_even_lower (x : Q) (a : Z) :
  (inject_Z a <= x)%Q → a <= PyOps.round_half_even x.
Proof.
  intros H. destruct (round_half_even_cases x) as [Hc _].
  assert (a <= Qnum x / Z.pos (Qden x)).
  { apply Z.div_le_lower_bound; [lia|].
    unfold Qle in H. cbn [Qnum Qden inject_Z] in H. lia. }
  lia.
Qed.

Lemma round_half_even_upper (x : Q) (b : Z) :
  (x <= inject_Z b)%Q → PyOps.round_half_even x <= b.
Proof.
  intros H. destruct (round_half_even_cases x) as [Hc Hlow].
  unfold Qle in H. cbn [Qnum Qden inject_Z] in H.
  pose proof (Z.div_mod (Qnum x) (Z.pos (Qden x)) ltac:(lia)) as Hdm.
  pose proof (Z.mod_pos_bound (Qnum x) (Z.pos (Qden x)) ltac:(lia)) as Hm.
  assert (Qnum x / Z.pos (Qden x) <= b) as Hq.
  { apply Z.div_le_upper_bound; lia. }
  destruct (Z.eq_dec (Qnum x / Z.pos (Qden x)) b) as [Heq|]; [|lia].
  rewrite Hlow; [lia|]. rewrite Heq in Hdm. lia.
Qed.

(** [round(x, k)] stays between two bounds that have [k] decimals. *)
Lemma round_bounds (x : Q) (k : nat) (a b : Z) :
  (inject_Z a <= x * inject_Z (10 ^ Z.of_nat k))%Q →
  (x * inject_Z (10 ^ Z.of_nat k) <= inject_Z b)%Q →
  (a # Z.to_pos (10 ^ Z.of_nat k) <= PyOps.round x k)%Q
  ∧ (PyOps.round x k <= b # Z.to_pos (10 ^ Z.of_nat k))%Q.
Proof.
  intros Ha Hb.
  apply round_half_even_lower in Ha. apply round_half_even_upper in Hb.
  unfold PyOps.round, Qle. cbn [Qnum Qden]. nia.
Qed.

(** ** More on the position snapshot *)

Section SnapshotFields.

Import PositionCalculator.




(** X2.  An ETA of [_calculate_eta_to_next] is read off the arrival time
    of the next stop: "Arrived" when that time is not after the current
    time; otherwise whole hours and minutes of the time left, with at least
    one hour in the form "Hh Mm", less than an hour in the form "Mm", and
    minutes always below 60.  At the last stop there is no ETA. *)
Theorem eta_to_next_parts (today : datetime) (routes : list stop) (idx : Z)
  (now : datetime) :
  (Z.of_nat (length routes) <= idx + 1 →
   _calculate_eta_to_next today routes idx now = None)
  ∧ ∀ e,
      _calculate_eta_to_next today routes idx now = Some e →
      ∃ next_route v arrival,
        routes !! Z.to_nat (idx + 1) = Some next_route
        ∧ next_route !! "arrival_time" = Some v
        ∧ _parse_time_string today v = Some arrival
        ∧ match e with
          | Arrived => arrival <= now
          | HoursMinutes h m =>
              1 <= h ∧ 0 <= m < 60
              ∧ (h * 60 + m) * DT.us_per_minute <= arrival - now
                < (h * 60 + m + 1) * DT.us_per_minute
          | Minutes m =>
              0 <= m < 60
              ∧ 0 < arrival - now
              ∧ m * DT.us_per_minute <= arrival - now
                < (m + 1) * DT.us_per_minute
          end.
Proof.
  unfold _calculate_eta_to_next. split.
  - intros Hlast.
    destruct (Z.leb_spec (Z.of_nat (length routes)) (idx + 1)); [done|lia].
  - intros e.
    destruct (Z.leb_spec (Z.of_nat (length routes)) (idx + 1));
      [discriminate|].
    destruct (routes !! Z.to_nat (idx + 1)) as [next_route|] eqn:Hnext;
      [|discriminate].
    simpl.
    destruct (next_route !! "arrival_time") as [v|] eqn:Hv; [|discriminate].
    simpl. destruct (truthy v); [|discriminate]. simpl.
    destruct (_parse_time_string today v) as [arrival|] eqn:Hparse;
      [|discriminate].
    simpl. intros He. exists next_route, v, arrival.
    split; [done|]. split; [done|]. split; [done|].
    remember (arrival - now) as diff eqn:Hdiff.
    pose proof (Z.div_mod diff DT.us_per_hour ltac:(done)) as Hh.
    pose proof (Z.mod_pos_bound diff DT.us_per_hour ltac:(done)) as Hhm.
    pose proof (Z.div_mod (diff mod DT.us_per_hour) DT.us_per_minute
                  ltac:(done)) as Hm.
    pose proof (Z.mod_pos_bound (diff mod DT.us_per_hour) DT.us_per_minute
                  ltac:(done)) as Hmm.
    assert (0 <= diff mod DT.us_per_hour / DT.us_per_minute < 60) as Hmin.
    { split; [apply Z.div_pos; [lia|done]|].
      apply Z.div_lt_upper_bound; [done|].
      unfold DT.us_per_hour, DT.us_per_minute in *. lia. }
    unfold DT.us_per_hour, DT.us_per_minute in *.
    destruct (Z.leb_spec diff 0) as [Hle|Hpos].
    + injection He as <-. lia.
    + destruct (Z.ltb_spec 0 (diff / 3600000000)) as [Hh1|Hh0];
        injection He as <-.
      * repeat split; lia.
      * assert (diff / 3600000000 = 0) as Hz.
        { apply Z.div_small_iff; [lia|]. left.
          assert (0 <= diff / 3600000000) by (apply Z.div_pos; lia). 
          assert (diff / 3600000000 = 0) as Hq by lia.
          rewrite Hq in Hh. lia. }
        rewrite Hz in Hh. repeat split; lia.
Qed.

Lemma eta_to_next_parts_witness :
  ∃ (next_route : stop) v arrival,
    route_abc !! 2%nat = Some next_route
    ∧ next_route !! "arrival_time" = Some v
    ∧ _parse_time_string at_10_30 v = Some arrival
    ∧ 0 <= 30 < 60
    ∧ 0 < arrival - at_10_30
    ∧ 30 * DT.us_per_minute <= arrival - at_10_30 < (30 + 1) * DT.us_per_minute.
Proof.
  apply (proj2 (eta_to_next_parts at_10_30 route_abc 1 at_10_30)
           (Minutes 30)).
  vm_compute. reflexivity.
Defined.

(** X3.  [estimate_train_speed] is 0.0 when no position is available (an
    unknown train, a route without stops or with a single stop); otherwise,
    for a jitter within its range of 0.9 to 1.1, it lies between 43.2 and
    79.2 km/h. *)
Theorem estimate_train_speed_range (loader : data_loader) (today : datetime)
  (jitter : Q) (train : string) (now : datetime) :
  (0.9 <= jitter <= 1.1)%Q →
  match calculate_train_position loader today train now with
  | inl _ => estimate_train_speed loader today jitter train now = 0.0%Q
  | inr _ =>
      (43.2 <= estimate_train_speed loader today jitter train now <= 79.2)%Q
  end.
Proof.
  intros Hj. unfold estimate_train_speed.
  destruct (calculate_train_position loader today train now); [done|].
  match goal with
  | |- context [PyOps.round ?x 1] =>
      destruct (round_bounds x 1 432 792) as [Hlo Hhi]
  end.
  - change (inject_Z (10 ^ Z.of_nat 1)) with 10%Q.
    change (inject_Z 432) with 432%Q.
    repeat match goal with
           | |- context [if ?b then _ else _] => destruct b
           end; lra.
  - change (inject_Z (10 ^ Z.of_nat 1)) with 10%Q.
    change (inject_Z 792) with 792%Q.
    repeat match goal with
           | |- context [if ?b then _ else _] => destruct b
           end; lra.
  - change (Z.to_pos (10 ^ Z.of_nat 1)) with 10%positive in *.
    split.
    + eapply Qle_trans; [|exact Hlo]. unfold Qle. simpl. lia.
    + eapply Qle_trans; [exact Hhi|]. unfold Qle. simpl. lia.
Qed.

Lemma estimate_train_speed_range_witness :
  (43.2 <= estimate_train_speed loader_test at_10_30 1.0 "701" at_10_30
   <= 79.2)%Q
  ∧ estimate_train_speed loader_test at_10_30 1.0 "702" at_10_30 = 0.0%Q.
Proof.
  assert (0.9 <= 1.0 <= 1.1)%Q as Hj by (split; discriminate).
  split.
  - exact (estimate_train_speed_range loader_test at_10_30 1.0 "701"
             at_10_30 Hj).
  - exact (estimate_train_speed_range loader_test at_10_30 1.0 "702"
             at_10_30 Hj).
Defined.

End SnapshotFields.

(** ** More on the timeline *)

Section TimelineFacts.

Import TimelineGenerator.

(** With one reading of the clock exactly one stop is tagged [current]:
    the one at the index of the scan rule. *)
Lemma station_tags_positions (today now : datetime) (routes : list stop) :
  routes ≠ [] →
  ∃ cp : nat,
    Z.of_nat cp = scan_rule today now routes
    ∧ (cp < length routes)%nat
    ∧ station_tags today now routes !! cp = Some current
    ∧ ∀ (i : nat) tag,
        station_tags today now routes !! i = Some tag →
        (tag = completed ↔ (i < cp)%nat)
        ∧ (tag = current ↔ i = cp)
        ∧ (tag = next ↔ i = S cp)
        ∧ (tag = upcoming ↔ (S cp < i)%nat).
Proof.
  intros Hne.
  pose proof (scan_rule_in_range today now routes Hne) as Hrange.
  exists (Z.to_nat (scan_rule today now routes)).
  split; [lia|]. split; [lia|].
  assert (∀ i : nat, (i < length routes)%nat →
            station_tags today now routes !! i
            = Some (_determine_station_status today (Z.of_nat i) routes now))
    as Hlookup.
  { intros i Hi. unfold station_tags.
    by rewrite list_lookup_fmap, lookup_seq_lt. }
  assert (length (station_tags today now routes) = length routes) as Hlen.
  { unfold station_tags. by rewrite length_fmap, length_seq. }
  unfold _determine_station_status in Hlookup.
  rewrite tg_find_scan_rule in Hlookup.
  set (cp := scan_rule today now routes) in *.
  split.
  - rewrite Hlookup by lia.
    destruct (Z.ltb_spec (Z.of_nat (Z.to_nat cp)) cp); [lia|].
    destruct (Z.eqb_spec (Z.of_nat (Z.to_nat cp)) cp); [done|lia].
  - intros i tag Hi.
    assert (i < length routes)%nat as Hi'.
    { rewrite <- Hlen. by eapply lookup_lt_Some. }
    rewrite Hlookup in Hi by done. injection Hi as <-.
    destruct (Z.ltb_spec (Z.of_nat i) cp);
      [|destruct (Z.eqb_spec (Z.of_nat i) cp);
        [|destruct (Z.eqb_spec (Z.of_nat i) (cp + 1))]];
      repeat split; intros; try done; lia.
Qed.


(** X5.  The delays [_simulate_station_delays] gives a stop: the reported
    delay lies between 0 and 120 minutes; an actual arrival or departure
    exists exactly when the scheduled one does, and is the scheduled time
    plus a delay that is at least 0 and at most the reported one; a stop
    with neither time has delay 0 and leaves the history as it is. *)
Theorem simulate_station_delays_times (h : DelaySimulator.history)
  (clock : datetime) (rnd : stop_draws) (station_name : pyval)
  (scheduled_arrival scheduled_departure : option datetime)
  (now : datetime) :
  let r := _simulate_station_delays h clock rnd station_name
             scheduled_arrival scheduled_departure now in
  0 <= sd_delay_minutes r.1 <= 120
  ∧ (∀ sa, scheduled_arrival = Some sa →
       ∃ d, 0 <= d <= sd_delay_minutes r.1
            ∧ sd_actual_arrival r.1 = Some (DT.add_minutes sa d))
  ∧ (∀ sd, scheduled_departure = Some sd →
       ∃ d, 0 <= d <= sd_delay_minutes r.1
            ∧ sd_actual_departure r.1 = Some (DT.add_minutes sd d))
  ∧ (scheduled_arrival = None → sd_actual_arrival r.1 = None)
  ∧ (scheduled_departure = None → sd_actual_departure r.1 = None)
  ∧ (scheduled_arrival = None → scheduled_departure = None →
     sd_delay_minutes r.1 = 0 ∧ r.2 = h).
Proof.
  assert (∀ h rnd sched w,
            0 <= DelaySimulator.delay_minutes
                   (DelaySimulator.simulate_delay h clock rnd
                      "STATION_SIMULATION" station_name sched now w).1
            <= 120) as Hbound.
  { intros h0 rnd0 sched w. unfold DelaySimulator.simulate_delay.
    destruct station_name; simpl; lia. }
  assert (∀ t, DT.add_minutes t 0 = t) as Hadd0.
  { intros t. unfold DT.add_minutes. lia. }
  cbn zeta. unfold _simulate_station_delays.
  set (w := DelaySimulator.get_weather_condition clock
              (delay_weather_roll rnd)).
  destruct scheduled_arrival as [sa|], scheduled_departure as [sd|].
  - pose proof (Hbound h (arrival_draws rnd) sa w) as Ha.
    destruct (DelaySimulator.simulate_delay h clock (arrival_draws rnd) _ _
                sa now w) as [ia h1].
    pose proof (Hbound h1 (departure_draws rnd) sd w) as Hd.
    destruct (DelaySimulator.simulate_delay h1 clock (departure_draws rnd)
                _ _ sd now w) as [id h2].
    simpl in *. repeat split; try done; try lia.
    + intros ? [= <-]. exists (DelaySimulator.delay_minutes ia).
      split; [lia|].
      destruct (Z.ltb_spec 0 (DelaySimulator.delay_minutes ia)); [done|].
      assert (DelaySimulator.delay_minutes ia = 0) as -> by lia.
      by rewrite Hadd0.
    + intros ? [= <-]. exists (DelaySimulator.delay_minutes id).
      split; [lia|].
      destruct (Z.ltb_spec 0 (DelaySimulator.delay_minutes id)); [done|].
      assert (DelaySimulator.delay_minutes id = 0) as -> by lia.
      by rewrite Hadd0.
  - pose proof (Hbound h (arrival_draws rnd) sa w) as Ha.
    destruct (DelaySimulator.simulate_delay h clock (arrival_draws rnd) _ _
                sa now w) as [ia h1].
    simpl in *. repeat split; try done; try lia.
    intros ? [= <-]. exists (DelaySimulator.delay_minutes ia).
    split; [lia|].
    destruct (Z.ltb_spec 0 (DelaySimulator.delay_minutes ia)); [done|].
    assert (DelaySimulator.delay_minutes ia = 0) as -> by lia.
    by rewrite Hadd0.
  - pose proof (Hbound h (departure_draws rnd) sd w) as Hd.
    destruct (DelaySimulator.simulate_delay h clock (departure_draws rnd)
                _ _ sd now w) as [id h2].
    simpl in *. repeat split; try done; try lia.
    intros ? [= <-]. exists (DelaySimulator.delay_minutes id).
    split; [lia|].
    destruct (Z.ltb_spec 0 (DelaySimulator.delay_minutes id)); [done|].
    assert (DelaySimulator.delay_minutes id = 0) as -> by lia.
    by rewrite Hadd0.
  - simpl. repeat split; try done.
Qed.

Lemma simulate_station_delays_times_witness :
  ∃ d,
    0 <= d
    <= sd_delay_minutes
         (_simulate_station_delays ∅ at_10_30
            (per_stop report_draws_test 1) (PyStr "StationB")
            (Some at_10_02) None at_10_30).1
    ∧ sd_actual_arrival
        (_simulate_station_delays ∅ at_10_30
           (per_stop report_draws_test 1) (PyStr "StationB")
           (Some at_10_02) None at_10_30).1
      = Some (DT.add_minutes at_10_02 d).
Proof.
  apply (proj1 (proj2 (simulate_station_delays_times ∅ at_10_30
                         (per_stop report_draws_test 1) (PyStr "StationB")
                         (Some at_10_02) None at_10_30))).
  reflexivity.
Defined.

(** *** The history of other trains *)

Lemma simulate_delay_other_train h clock rnd train station sched now w train' :
  train' ≠ train →
  (DelaySimulator.simulate_delay h clock rnd train station sched now w).2
    !! train'
  = h !! train'.
Proof.
  intros Hne. unfold DelaySimulator.simulate_delay.
  destruct station; try done. simpl.
  unfold DelaySimulator._update_historical_patterns.
  by rewrite lookup_insert_ne.
Qed.


End TimelineFacts.

(** ** More on the delay model *)

Section DelayFacts.

Import DelaySimulator.

(** *** Statistics *)

Lemma distribution_foldl (delays : list Z) : ∀ a b c d,
  foldl (fun '(d0, d1, d2, d3) delay =>
           if delay <=? 15 then (d0 + 1, d1, d2, d3)
           else if delay <=? 30 then (d0, d1 + 1, d2, d3)
           else if delay <=? 60 then (d0, d1, d2 + 1, d3)
           else (d0, d1, d2, d3 + 1))
        (a, b, c, d) delays
  = (a + Z.of_nat (length (List.filter (fun x => x <=? 15) delays)),
     b + Z.of_nat (length (List.filter
                             (fun x => (15 <? x) && (x <=? 30)) delays)),
     c + Z.of_nat (length (List.filter
                             (fun x => (30 <? x) && (x <=? 60)) delays)),
     d + Z.of_nat (length (List.filter (fun x => 60 <? x) delays))).
Proof.
  induction delays as [|x delays IH]; intros a b c d.
  - simpl. repeat (apply pair_equal_spec; split); lia.
  - cbn [foldl]. cbv beta iota.
    cbn [List.filter].
    destruct (Z.leb_spec x 15), (Z.leb_spec x 30), (Z.leb_spec x 60),
      (Z.ltb_spec 15 x), (Z.ltb_spec 30 x), (Z.ltb_spec 60 x);
      try lia; rewrite IH; cbn [andb length];
      repeat (apply pair_equal_spec; split); lia.
Qed.

Lemma delay_distribution_counts_aux (delays : list Z) :
  let '(d0, d1, d2, d3) := _get_delay_distribution delays in
  d0 + d1 + d2 + d3 = Z.of_nat (length delays).
Proof.
  unfold _get_delay_distribution. rewrite distribution_foldl.
  induction delays as [|x delays IH]; [done|].
  cbn [List.filter length].
  destruct (Z.leb_spec x 15), (Z.leb_spec x 30), (Z.leb_spec x 60),
    (Z.ltb_spec 15 x), (Z.ltb_spec 30 x), (Z.ltb_spec 60 x);
    try lia; cbn [andb length]; lia.
Qed.

(** X8.  [_get_delay_distribution] counts every delay in exactly one of
    its four ranges (up to 15, 16 to 30, 31 to 60, above 60 minutes), so the
    four counts add up to the number of delays. *)
Theorem delay_distribution_counts (delays : list Z) :
  let '(d0, d1, d2, d3) := _get_delay_distribution delays in
  d0 = Z.of_nat (length (List.filter (fun x => x <=? 15) delays))
  ∧ d1 = Z.of_nat (length (List.filter
                             (fun x => (15 <? x) && (x <=? 30)) delays))
  ∧ d2 = Z.of_nat (length (List.filter
                             (fun x => (30 <? x) && (x <=? 60)) delays))
  ∧ d3 = Z.of_nat (length (List.filter (fun x => 60 <? x) delays))
  ∧ d0 + d1 + d2 + d3 = Z.of_nat (length delays).
Proof.
  unfold _get_delay_distribution. rewrite distribution_foldl.
  repeat split; try lia.
  induction delays as [|x delays IH]; [done|].
  cbn [List.filter length].
  destruct (Z.leb_spec x 15), (Z.leb_spec x 30), (Z.leb_spec x 60),
    (Z.ltb_spec 15 x), (Z.ltb_spec 30 x), (Z.ltb_spec 60 x);
    try lia; cbn [andb length]; lia.
Qed.

Lemma foldl_min_le (ds : list Z) : ∀ d,
  foldl Z.min d ds <= d ∧ ∀ x, x ∈ ds → foldl Z.min d ds <= x.
Proof.
  induction ds as [|y ds IH]; intros d; simpl.
  - split; [lia|]. intros x Hx. by apply elem_of_nil in Hx.
  - destruct (IH (Z.min d y)) as [H1 H2]. split; [lia|].
    intros x [->|Hx]%elem_of_cons; [lia|by apply H2].
Qed.

Lemma foldl_add_bounds (ds : list Z) (lo hi : Z) : ∀ acc,
  (∀ x, x ∈ ds → lo <= x <= hi) →
  acc + lo * Z.of_nat (length ds) <= foldl Z.add acc ds
  <= acc + hi * Z.of_nat (length ds).
Proof.
  induction ds as [|y ds IH]; intros acc Hb; simpl.
  - lia.
  - assert (lo <= y <= hi) by (apply Hb; left).
    specialize (IH (acc + y) (fun x Hx => Hb x (list_elem_of_further _ _ _ Hx))).
    lia.
Qed.

(** The statistics of a non-empty list of delays. *)
Lemma stats_of_delays (delays : list Z) :
  delays ≠ [] →
  let n := Z.of_nat (length delays) in
  max_list delays ∈ delays ∧ min_list delays ∈ delays
  ∧ (∀ x, x ∈ delays → min_list delays <= x <= max_list delays)
  ∧ (inject_Z (min_list delays)
     <= PyOps.round (inject_Z (sum_list delays) / inject_Z n) 1
     <= inject_Z (max_list delays))%Q.
Proof.
  intros Hne. cbn zeta.
  destruct delays as [|d ds]; [done|].
  assert (∀ x, x ∈ d :: ds →
            min_list (d :: ds) <= x <= max_list (d :: ds)) as Hb.
  { intros x Hx. unfold min_list, max_list.
    destruct (foldl_min_le ds d) as [Hm1 Hm2].
    destruct (foldl_max_ge ds d) as [HM1 HM2].
    apply elem_of_cons in Hx as [->|Hx]; [lia|].
    split; [by apply Hm2|by apply HM2]. }
  assert (max_list (d :: ds) ∈ d :: ds) as HM by apply foldl_max_in.
  assert (min_list (d :: ds) ∈ d :: ds) as Hm.
  { unfold min_list. clear. revert d.
    induction ds as [|y ds IH]; intros d; simpl; [left|].
    specialize (IH (Z.min d y)).
    apply elem_of_cons in IH as [->|Hin].
    - destruct (Z.min_spec d y) as [[_ ->]|[_ ->]];
        [left|right; left].
    - by do 2 right. }
  split; [done|]. split; [done|]. split; [done|].
  set (lo := min_list (d :: ds)) in *. set (hi := max_list (d :: ds)) in *.
  set (n := Z.of_nat (length (d :: ds))).
  assert (0 < n) as Hn by (subst n; simpl; lia).
  pose proof (foldl_add_bounds (d :: ds) lo hi 0 Hb) as Hsum.
  fold (sum_list (d :: ds)) in Hsum. fold n in Hsum.
  set (s := sum_list (d :: ds)) in *.
  assert (0 < inject_Z n)%Q as Hn' by (unfold Qlt; simpl; lia).
  assert (inject_Z lo <= inject_Z s / inject_Z n)%Q as Hlo.
  { apply Qle_shift_div_l; [done|].
    rewrite <- inject_Z_mult. rewrite <- Zle_Qle. lia. }
  assert (inject_Z s / inject_Z n <= inject_Z hi)%Q as Hhi.
  { apply Qle_shift_div_r; [done|].
    rewrite <- inject_Z_mult. rewrite <- Zle_Qle. lia. }
  destruct (round_bounds (inject_Z s / inject_Z n) 1 (lo * 10) (hi * 10))
    as [Hrlo Hrhi].
  - change (inject_Z (10 ^ Z.of_nat 1)) with 10%Q.
    rewrite inject_Z_mult. change (inject_Z 10) with 10%Q. lra.
  - change (inject_Z (10 ^ Z.of_nat 1)) with 10%Q.
    rewrite inject_Z_mult. change (inject_Z 10) with 10%Q. lra.
  - change (Z.to_pos (10 ^ Z.of_nat 1)) with 10%positive in *.
    split.
    + eapply Qle_trans; [|exact Hrlo]. unfold Qle. simpl. lia.
    + eapply Qle_trans; [exact Hrhi|]. unfold Qle. simpl. lia.
Qed.

(** Every delay a reachable history holds lies between 0 and 120 minutes. *)
Lemma reachable_delays_in_range h :
  reachable h →
  ∀ train station b,
    bucket_of h train station = Some b →
    Forall (fun o => 0 <= delay o <= 120) b.
Proof.
  induction 1 as [|h clock rnd train station scheduled now w _ IH].
  - intros train station b. unfold bucket_of. by rewrite lookup_empty.
  - destruct station; try exact IH.
    rewrite simulate_delay_history.
    intros train' station' b. rewrite bucket_of_update.
    case_decide as Hd; [|apply IH].
    intros [= <-]. cbn zeta.
    assert (Forall (fun o => 0 <= delay o <= 120)
              (bucket h train s
               ++ [{| delay :=
                        delay_minutes
                          (simulate_delay h clock rnd train (PyStr s)
                             scheduled now w).1;
                      timestamp := clock |}])) as Hall.
    { apply Forall_app. split.
      - unfold bucket.
        destruct (bucket_of h train s) as [b0|] eqn:Hb; simpl; [|done].
        by eapply IH.
      - constructor; [|done]. unfold simulate_delay. simpl. lia. }
    destruct (100 <? _)%nat; [by apply Forall_drop|done].
Qed.


(** *** Prediction *)

Lemma clamp_probability (x : Q) :
  (0.1 <= PyOps.max 0.1 (PyOps.min x 0.9) <= 0.9)%Q.
Proof.
  unfold PyOps.max, PyOps.min, PyOps.Qlt_bool.
  destruct (Qle_bool x 0.9) eqn:H1; simpl.
  - apply Qle_bool_iff in H1.
    destruct (Qle_bool x 0.1) eqn:H2; simpl.
    + split; unfold Qle; simpl; lia.
    + split; [|done].
      destruct (Qlt_le_dec 0.1 x) as [Hlt|Hle]; [by apply Qlt_le_weak|].
      apply Qle_bool_iff in Hle. congruence.
  - split; unfold Qle; simpl; lia.
Qed.

(** X10.  A full prediction of [predict_delay_probability] for a named
    station has a probability between 0.1 and 0.9, counts the observations
    of the (train, station) bucket as its data points, and its confidence is
    'high' from 50 points, 'medium' from 20 and 'low' below; in a history
    the simulator can reach such a prediction is returned whenever the
    bucket holds an observation. *)
Theorem predict_delay_probability_full (h : history) (train station : string)
  (t : datetime) :
  station ≠ "" →
  (∀ p confidence points tf df,
     predict_delay_probability h train station t
     = PredFull p confidence points tf df →
     (0.1 <= p <= 0.9)%Q
     ∧ points = Z.of_nat (length (bucket h train station))
     ∧ 1 <= points
     ∧ confidence = (if 50 <=? points then "high"
                     else if 20 <=? points then "medium" else "low")
     ∧ tf = _get_time_factor t ∧ df = _get_day_factor t)
  ∧ (reachable h → bucket h train station ≠ [] →
     ∃ p confidence points tf df,
       predict_delay_probability h train station t
       = PredFull p confidence points tf df
       ∧ points <= 100).
Proof.
  intros Hs.
  assert (∀ stats,
            get_historical_delay_stats h train (Some station) = inr stats →
            ∃ b, bucket_of h train station = Some b ∧ b ≠ []
                 ∧ total_delays stats = Z.of_nat (length b)) as Hstats.
  { intros stats. unfold get_historical_delay_stats, bucket_of.
    destruct (h !! train) as [per_train|]; [|discriminate]. simpl.
    destruct (String.eqb_spec station ""); [done|]. simpl.
    destruct (per_train !! station) as [b|]; [|discriminate].
    destruct b as [|o b]; [discriminate|]. simpl.
    intros [= <-]. eexists. split; [done|]. split; [done|].
    simpl. by rewrite length_fmap. }
  split.
  - intros p confidence points tf df. unfold predict_delay_probability.
    destruct (get_historical_delay_stats h train (Some station))
      as [msg|stats] eqn:Hst; [discriminate|].
    destruct (Hstats stats eq_refl) as (b & Hb & Hne & Htotal).
    destruct (Z.eqb_spec (total_delays stats) 0); [discriminate|].
    rewrite Hb. intros [= <- <- <- <- <-].
    unfold bucket. rewrite Hb. simpl.
    split.
    { match goal with
      | |- context [PyOps.round ?x 3] =>
          destruct (round_bounds x 3 100 900) as [Hlo Hhi];
          [| |change (Z.to_pos (10 ^ Z.of_nat 3)) with 1000%positive in *;
              split;
              [eapply Qle_trans; [|exact Hlo]; unfold Qle; simpl; lia
              |eapply Qle_trans; [exact Hhi|]; unfold Qle; simpl; lia]]
      end.
      - change (inject_Z (10 ^ Z.of_nat 3)) with 1000%Q.
        change (inject_Z 100) with 100%Q.
        match goal with
        | |- context [PyOps.max 0.1 (PyOps.min ?y 0.9)] =>
            pose proof (clamp_probability y) as Hc;
            set (c := PyOps.max 0.1 (PyOps.min y 0.9)) in *
        end. lra.
      - change (inject_Z (10 ^ Z.of_nat 3)) with 1000%Q.
        change (inject_Z 900) with 900%Q.
        match goal with
        | |- context [PyOps.max 0.1 (PyOps.min ?y 0.9)] =>
            pose proof (clamp_probability y) as Hc;
            set (c := PyOps.max 0.1 (PyOps.min y 0.9)) in *
        end. lra. }
    split; [done|]. split; [destruct b; [done|simpl in *; lia]|]. done.
  - intros Hreach Hne. unfold predict_delay_probability.
    unfold bucket in Hne.
    destruct (bucket_of h train station) as [b|] eqn:Hb; [|done].
    simpl in Hne.
    destruct (reachable_buckets_ok h Hreach _ _ _ Hb) as [_ Hlen].
    assert (∃ stats,
              get_historical_delay_stats h train (Some station) = inr stats
              ∧ total_delays stats = Z.of_nat (length b)) as (stats & -> & Ht).
    { revert Hb. unfold get_historical_delay_stats, bucket_of.
      destruct (h !! train) as [per_train|]; [|discriminate]. simpl.
      destruct (String.eqb_spec station ""); [done|]. simpl.
      intros ->. destruct b as [|o b]; [done|]. simpl.
      eexists. split; [reflexivity|]. simpl. by rewrite length_fmap. }
    destruct (Z.eqb_spec (total_delays stats) 0);
      [destruct b; [done|simpl in *; lia]|].
    do 5 eexists. split; [reflexivity|]. lia.
Qed.

Lemma predict_delay_probability_full_witness :
  ∃ p confidence points tf df,
    predict_delay_probability history_100 "701" "Dhaka" at_10_30
    = PredFull p confidence points tf df
    ∧ points <= 100.
Proof.
  apply (proj2 (predict_delay_probability_full history_100 "701" "Dhaka"
                  at_10_30 ltac:(discriminate))).
  - apply reachable_foldl.
  - vm_compute. discriminate.
Defined.


(** *** Weather and factors *)

Lemma choices_three (a b c : string) (weights : list Q) (u : Q) :
  choices [a; b; c] weights u ∈ [a; b; c].
Proof.
  unfold choices. cbn [length Nat.sub].
  set (cum := accumulate 0 weights).
  set (x := (u * List.last cum 0)%Q).
  assert (length (List.filter (fun c0 => Qle_bool c0 x) (take 2 cum)) <= 2)%nat
    as Hlen.
  { etransitivity; [apply List.filter_length_le|].
    rewrite length_take. lia. }
  destruct (length _) as [|[|[|n]]]; [| | |lia]; simpl.
  - left.
  - right; left.
  - right; right; left.
Qed.

(** X11.  [get_weather_condition] returns 'clear', 'cloudy' or 'rainy'
    from 6 to 18 o'clock and 'clear', 'cloudy' or 'foggy' otherwise,
    whatever the random draw; it never returns 'stormy', and every label it
    returns has an entry in the table of weather factors. *)
Theorem weather_condition_labels (clock : datetime) (u : Q) :
  let w := get_weather_condition clock u in
  (6 <= DT.hour clock <= 18 → w ∈ ["clear"; "cloudy"; "rainy"])
  ∧ (¬ 6 <= DT.hour clock <= 18 → w ∈ ["clear"; "cloudy"; "foggy"])
  ∧ w ≠ "stormy"
  ∧ is_Some (weather_factors !! w).
Proof.
  cbn zeta. unfold get_weather_condition.
  pose proof (choices_three "clear" "cloudy" "rainy" [0.6; 0.3; 0.1]%Q u)
    as Hday.
  pose proof (choices_three "clear" "cloudy" "foggy" [0.7; 0.2; 0.1]%Q u)
    as Hnight.
  destruct (Z.leb_spec 6 (DT.hour clock)), (Z.leb_spec (DT.hour clock) 18);
    cbn [andb].
  - split; [done|]. split; [lia|].
    repeat (apply elem_of_cons in Hday as [->|Hday]);
      [..|by apply elem_of_nil in Hday];
      (split; [discriminate|by eexists]).
  - split; [lia|]. split; [done|].
    repeat (apply elem_of_cons in Hnight as [->|Hnight]);
      [..|by apply elem_of_nil in Hnight];
      (split; [discriminate|by eexists]).
  - split; [lia|]. split; [done|].
    repeat (apply elem_of_cons in Hnight as [->|Hnight]);
      [..|by apply elem_of_nil in Hnight];
      (split; [discriminate|by eexists]).
  - split; [lia|]. split; [done|].
    repeat (apply elem_of_cons in Hnight as [->|Hnight]);
      [..|by apply elem_of_nil in Hnight];
      (split; [discriminate|by eexists]).
Qed.

Lemma weather_condition_labels_witness :
  get_weather_condition at_10_30 0.95 ∈ ["clear"; "cloudy"; "rainy"].
Proof.
  apply (proj1 (weather_condition_labels at_10_30 0.95)).
  vm_compute. split; discriminate.
Defined.

Lemma weekday_range (t : datetime) : 0 <= DT.weekday t < 7.
Proof. unfold DT.weekday. apply Z.mod_pos_bound. lia. Qed.

Lemma station_factor_values (name : string) :
  _get_station_factor name
  ∈ [1.5; 1.4; 1.2; 1.1; 1.0]%Q.
Proof.
  unfold _get_station_factor, station_delay_factors.
  cbn [first_station_factor].
  repeat match goal with
         | |- context [if ?b then _ else _] => destruct b
         end;
    repeat first [apply list_elem_of_here | apply list_elem_of_further].
Qed.

(** X12.  The factors [simulate_delay] multiplies the base delay by stay
    within their tables: the time-of-day factor lies between 0.8 and 1.6,
    the day-of-week factor is the table entry of the day's name (never the
    default) and lies between 0.8 and 1.4, the station factor is one of
    1.0, 1.1, 1.2, 1.4 and 1.5, and the weather factor lies between 1.0 and
    2.0, being 1.0 for a label the table does not know. *)
Theorem delay_factors_ranges (t : datetime) (name weather_label : string) :
  (0.8 <= _get_time_factor t <= 1.6)%Q
  ∧ day_factors !! day_name t = Some (_get_day_factor t)
  ∧ (0.8 <= _get_day_factor t <= 1.4)%Q
  ∧ _get_station_factor name ∈ [1.5; 1.4; 1.2; 1.1; 1.0]%Q
  ∧ (1.0 <= default 1.0 (weather_factors !! weather_label) <= 2.0)%Q
  ∧ (weather_factors !! weather_label = None →
     default 1.0%Q (weather_factors !! weather_label) = 1.0%Q).
Proof.
  split; [|split; [|split; [|split; [|split]]]].
  - unfold _get_time_factor.
    repeat match goal with
           | |- context [if ?b then _ else _] => destruct b
           end; split; discriminate.
  - unfold _get_day_factor, day_name.
    pose proof (weekday_range t) as Hw.
    destruct (Z.to_nat (DT.weekday t)) as [|[|[|[|[|[|[|n]]]]]]] eqn:Hn;
      [reflexivity..|lia].
  - unfold _get_day_factor, day_name.
    pose proof (weekday_range t) as Hw.
    destruct (Z.to_nat (DT.weekday t)) as [|[|[|[|[|[|[|n]]]]]]] eqn:Hn;
      [split; discriminate..|lia].
  - apply station_factor_values.
  - destruct (weather_factors !! weather_label) as [q|] eqn:Hq;
      [|split; discriminate].
    apply elem_of_list_to_map_2 in Hq. simpl.
    repeat (apply elem_of_cons in Hq as [[= -> ->]|Hq]);
      [split; discriminate..|by apply elem_of_nil in Hq].
  - by intros ->.
Qed.

Lemma delay_factors_ranges_witness :
  default 1.0%Q (weather_factors !! "snowy") = 1.0%Q.
Proof.
  apply (proj2 (proj2 (proj2 (proj2 (proj2
           (delay_factors_ranges at_10_30 "Dhaka" "snowy")))))).
  reflexivity.
Defined.

(** X13.  When the first draw of [simulate_delay] is not below the delay
    probability of 0.3 there is no delay: the call reports 0 minutes and an
    actual time equal to the scheduled one, whatever the factors and the
    jitter, and still records the observation of 0 minutes at the end of the
    station's bucket. *)
Theorem simulate_delay_on_time (h : history) (clock : datetime) (rnd : draws)
  (train station_name : string) (scheduled now : datetime)
  (weather_label : string) :
  (0.3 <= base_roll rnd)%Q →
  let r := simulate_delay h clock rnd train (PyStr station_name) scheduled
             now weather_label in
  delay_minutes r.1 = 0
  ∧ actual_time r.1 = scheduled
  ∧ ∃ rest,
      bucket r.2 train station_name
      = rest ++ [ {| delay := 0; timestamp := clock |} ].
Proof.
  intros Hroll. cbn zeta.
  assert (_calculate_base_delay rnd = 0) as Hbase.
  { unfold _calculate_base_delay, PyOps.Qlt_bool, base_delay_probability.
    apply Qle_bool_iff in Hroll. by rewrite Hroll. }
  assert (delay_minutes
            (simulate_delay h clock rnd train (PyStr station_name) scheduled
               now weather_label).1 = 0) as Hd.
  { unfold simulate_delay. cbn [fst delay_minutes]. rewrite Hbase.
    unfold PyOps.trunc.
    match goal with
    | |- context [Qnum ?q] =>
        assert (Qnum q = 0) as -> by (unfold Qmult; simpl; lia)
    end.
    rewrite Z.quot_0_l by lia. reflexivity. }
  split; [exact Hd|]. split.
  - transitivity (DT.add_minutes scheduled
                    (delay_minutes
                       (simulate_delay h clock rnd train (PyStr station_name)
                          scheduled now weather_label).1));
      [reflexivity|].
    rewrite Hd. unfold DT.add_minutes. lia.
  - rewrite simulate_delay_history, Hd, bucket_update, decide_True by done.
    cbn zeta.
    destruct (bucket h train station_name) as [|o b].
    + by exists [].
    + destruct (100 <? _)%nat; [by exists b|by eexists].
Qed.

Lemma simulate_delay_on_time_witness :
  delay_minutes
    (simulate_delay ∅ at_10_30 draws_on_time "701" (PyStr "Dhaka") at_10_30
       at_10_30 "stormy").1 = 0.
Proof.
  apply (simulate_delay_on_time ∅ at_10_30 draws_on_time "701" "Dhaka"
           at_10_30 at_10_30 "stormy").
  vm_compute. discriminate.
Defined.

End DelayFacts.

(** ** More on the crowd store *)

Section CrowdFacts.

Import CrowdValidation.

Lemma filter_all_kept {A} (P : A → Prop) `{∀ x, Decision (P x)} (l : list A) :
  Forall P l → filter P l = l.
Proof.
  induction 1 as [|x l Hx _ IH]; [done|].
  by rewrite filter_cons, decide_True, IH.
Qed.

(** Deleting the entry of a user from a list with one entry per user
    leaves exactly the entries of the other users, in their order. *)
Lemma delete_user_filter (confs : list confirmation) :
  ∀ i conf,
    NoDup (user_id <$> confs) →
    confs !! i = Some conf →
    delete i confs = filter (fun c => user_id c ≠ user_id conf) confs.
Proof.
  induction confs as [|y confs IH]; intros i conf Hnd Hi; [done|].
  apply NoDup_cons in Hnd as [Hy Hnd].
  destruct i as [|i]; simpl in Hi.
  - injection Hi as ->. simpl.
    rewrite filter_cons, decide_False by (intros Hne; by apply Hne).
    symmetry. apply filter_all_kept, Forall_forall.
    intros c Hc Heq. apply Hy. rewrite <- Heq.
    apply list_elem_of_fmap. eauto.
  - simpl. rewrite filter_cons, decide_True.
    + f_equal. by apply IH.
    + intros Heq. apply Hy. rewrite Heq.
      apply list_elem_of_fmap. exists conf. split; [done|].
      by eapply list_elem_of_lookup_2.
Qed.

(** X14.  [remove_user_confirmation] fails, leaving the store as it is,
    when the train has no entry or the user no confirmation on it.
    Otherwise, on a list with one confirmation per user, it removes the
    user's confirmation and nothing else: the other confirmations stay in
    their order, the user is no longer in the list, and
    [total_confirmations] drops by one.  Other trains are never touched. *)
Theorem remove_user_confirmation_effect (st : validations) (clock : datetime)
  (train user : string) :
  let r := remove_user_confirmation st clock train user in
  (st !! train = None →
   r = (RemoveFailed "No validations found for this train", st))
  ∧ (∀ td, st !! train = Some td →
       user ∉ (user_id <$> confirmations td) →
       r = (RemoveFailed "User confirmation not found", st))
  ∧ (∀ td, st !! train = Some td →
       user ∈ (user_id <$> confirmations td) →
       NoDup (user_id <$> confirmations td) →
       let kept := filter (fun c => user_id c ≠ user) (confirmations td) in
       r.1 = Removed "Confirmation removed" train user
       ∧ r.2 !! train
         = Some {| confirmations := kept;
                   last_updated := clock;
                   total_confirmations := total_confirmations td - 1 |}
       ∧ (user ∉ (user_id <$> kept))
       ∧ S (length kept) = length (confirmations td))
  ∧ (∀ train', train' ≠ train → r.2 !! train' = st !! train').
Proof.
  cbn zeta. unfold remove_user_confirmation.
  split; [by intros ->|]. split; [|split].
  - intros td -> Hnot.
    assert (list_find (fun c => user_id c = user) (confirmations td) = None)
      as ->; [|done].
    apply list_find_None, Forall_forall. intros c Hc Hu.
    apply Hnot, list_elem_of_fmap. eauto.
  - intros td -> Hin Hnd. cbn zeta.
    apply list_elem_of_fmap in Hin as (c & Hu & Hc).
    apply list_elem_of_lookup_1 in Hc as [i Hi].
    rewrite (find_user_unique _ user i c Hnd Hi (eq_sym Hu)).
    cbn [fst snd]. rewrite lookup_insert_eq.
    pose proof (delete_user_filter _ i c Hnd Hi) as Hdel.
    rewrite <- Hu in Hdel. rewrite Hdel.
    split; [done|]. split; [done|]. split.
    + intros (c' & Hu' & Hc')%list_elem_of_fmap.
      apply list_elem_of_filter in Hc' as [Hne _]. by apply Hne.
    + rewrite <- Hdel, length_delete by eauto.
      apply lookup_lt_Some in Hi. lia.
  - intros train' Hne.
    destruct (st !! train) as [td|]; [|done].
    destruct (list_find _ _) as [[i c]|]; [|done].
    simpl. by rewrite lookup_insert_ne.
Qed.

Lemma remove_user_confirmation_effect_witness :
  (remove_user_confirmation store_701 at_10_30 "701" "u2").1
  = Removed "Confirmation removed" "701" "u2"
  ∧ remove_user_confirmation store_701 at_10_30 "999" "u2"
    = (RemoveFailed "No validations found for this train", store_701).
Proof.
  split.
  - apply (proj1 (proj2 (proj2
             (remove_user_confirmation_effect store_701 at_10_30 "701"
                "u2")))
             {| confirmations := confirm_at at_10_02 <$> ["u1"; "u2"; "u3"; "u4"];
                last_updated := at_10_02;
                total_confirmations := 4 |}).
    + reflexivity.
    + compute_done.
    + compute_done.
  - apply (proj1 (remove_user_confirmation_effect store_701 at_10_30 "999"
                    "u2")).
    reflexivity.
Defined.

(** X15.  Confirming a user who has no confirmation on the train and then
    removing that user gives back the train's list of confirmations and its
    [total_confirmations] (an empty list and 0 for a train that had no
    entry). *)
Theorem confirm_then_remove (st : validations) (c1 c2 : datetime)
  (train user : string) (sn co : pyval) :
  let old := default (fresh_train_data c1) (st !! train) in
  user ∉ (user_id <$> confirmations old) →
  let st1 := (confirm_user_on_train st c1 train user sn co).2 in
  let r := remove_user_confirmation st1 c2 train user in
  r.1 = Removed "Confirmation removed" train user
  ∧ r.2 !! train
    = Some {| confirmations := confirmations old;
              last_updated := c2;
              total_confirmations := total_confirmations old |}
  ∧ ∀ train', train' ≠ train → r.2 !! train' = st !! train'.
Proof.
  intros old Hnot st1 r.
  assert (list_find (fun c => user_id c = user) (confirmations old) = None)
    as Hfind.
  { apply list_find_None, Forall_forall. intros c Hc Hu.
    apply Hnot, list_elem_of_fmap. eauto. }
  pose proof (confirm_lookup st c1 train user sn co) as Hst1.
  cbn zeta in Hst1. fold old st1 in Hst1. rewrite Hfind in Hst1.
  subst r. unfold remove_user_confirmation. rewrite Hst1.
  cbn [confirmations total_confirmations].
  rewrite list_find_app_r by done. simpl.
  rewrite decide_True by done. simpl.
  rewrite lookup_insert_eq.
  replace (0 + length (confirmations old))%nat
    with (length (confirmations old)) by lia.
  rewrite delete_middle, app_nil_r.
  split; [done|]. split; [do 2 f_equal; lia|].
  intros train' Hne. rewrite lookup_insert_ne by done.
  subst st1. by apply confirm_lookup_ne.
Qed.

Lemma confirm_then_remove_witness :
  (remove_user_confirmation
     (confirm_user_on_train store_701 at_10_02 "701" "u9" PyNone PyNone).2
     at_10_30 "701" "u9").1
  = Removed "Confirmation removed" "701" "u9".
Proof.
  apply (confirm_then_remove store_701 at_10_02 at_10_30 "701" "u9" PyNone
           PyNone).
  compute_done.
Defined.


(** *** Cleaning up *)

Lemma cleanup_train_Some cutoff td td' :
  cleanup_train cutoff td = Some td' ↔
  List.filter (fun conf => cutoff <? timestamp conf) (confirmations td) ≠ []
  ∧ td' = {| confirmations :=
               List.filter (fun conf => cutoff <? timestamp conf)
                 (confirmations td);
             last_updated := last_updated td;
             total_confirmations :=
               Z.of_nat (length (List.filter
                                   (fun conf => cutoff <? timestamp conf)
                                   (confirmations td))) |}.
Proof.
  unfold cleanup_train.
  destruct (List.filter _ (confirmations td)) as [|c l] eqn:Hf.
  - split; [discriminate|]. by intros [? _].
  - split; [intros [= <-]; done|]. by intros [_ ->].
Qed.

Lemma cleanup_train_None cutoff td :
  cleanup_train cutoff td = None ↔
  Forall (fun conf => timestamp conf <= cutoff) (confirmations td).
Proof.
  unfold cleanup_train.
  assert (∀ l : list confirmation,
            List.filter (fun conf => cutoff <? timestamp conf) l = [] ↔
            Forall (fun conf => timestamp conf <= cutoff) l) as Hnil.
  { induction l as [|c l IH]; simpl; [done|].
    destruct (Z.ltb_spec cutoff (timestamp c)).
    - split; [discriminate|]. intros [? _]%Forall_cons. lia.
    - rewrite IH. split; [by constructor|by intros [_ ?]%Forall_cons]. }
  destruct (List.filter _ (confirmations td)) as [|c l] eqn:Hf.
  - split; [|done]. intros _. by apply Hnil.
  - split; [discriminate|]. intros Hall%Hnil. congruence.
Qed.

Lemma filter_twice {A} (g : A → bool) (l : list A) :
  List.filter g (List.filter g l) = List.filter g l.
Proof.
  induction l as [|x l IH]; [done|]. simpl.
  destruct (g x) eqn:Hg; [|done]. simpl. by rewrite Hg, IH.
Qed.

Lemma filter_newer cutoff (l : list confirmation) :
  Forall (fun conf => cutoff < timestamp conf)
    (List.filter (fun conf => cutoff <? timestamp conf) l).
Proof.
  induction l as [|c l IH]; simpl; [done|].
  destruct (Z.ltb_spec cutoff (timestamp c)); [by constructor|done].
Qed.

Lemma cleanup_train_fixed cutoff td td' :
  cleanup_train cutoff td = Some td' → cleanup_train cutoff td' = Some td'.
Proof.
  intros [Hne ->]%cleanup_train_Some. apply cleanup_train_Some.
  cbn [confirmations last_updated]. rewrite filter_twice. done.
Qed.

(** The trains [cleanup_old_validations] counts are those it deletes. *)
Lemma cleaned_count_size (f : train_data → option train_data)
  (st : validations) :
  size st
  = (length (filter (fun kv : string * train_data => f kv.2 = None)
               (map_to_list st))
     + size (omap f st))%nat.
Proof.
  induction st as [|train td st Hnone IH] using map_ind.
  - by rewrite omap_empty, map_to_list_empty, !map_size_empty.
  - rewrite map_size_insert_None by done.
    rewrite (map_to_list_insert st train td) by done.
    rewrite filter_cons, omap_insert. simpl.
    assert (omap f st !! train = None) as Hnone'.
    { by rewrite lookup_omap, Hnone. }
    destruct (f td) as [td'|] eqn:Hf.
    + rewrite decide_False by done.
      rewrite map_size_insert_None by done. lia.
    + rewrite decide_True by done.
      rewrite delete_id by done. simpl. lia.
Qed.

(** X16.  After [cleanup_old_validations] every train left in the store
    has a non-empty list of confirmations, all newer than the cutoff (the
    clock minus [max_age_hours]), namely those of its confirmations that
    were; its [total_confirmations] is the length of that list.  A train is
    deleted exactly when none of its confirmations is newer than the
    cutoff, and the number returned is the number of trains deleted.
    Cleaning up again at the same time changes nothing. *)
Theorem cleanup_old_validations_effect (st : validations) (clock : datetime)
  (max_age_hours : Z) :
  let cutoff := DT.sub_hours clock max_age_hours in
  let r := cleanup_old_validations st clock max_age_hours in
  (∀ train td',
     r.2 !! train = Some td' →
     ∃ td,
       st !! train = Some td
       ∧ confirmations td'
         = List.filter (fun conf => cutoff <? timestamp conf)
             (confirmations td)
       ∧ confirmations td' ≠ []
       ∧ Forall (fun conf => cutoff < timestamp conf) (confirmations td')
       ∧ total_confirmations td' = Z.of_nat (length (confirmations td'))
       ∧ last_updated td' = last_updated td)
  ∧ (∀ train td,
       st !! train = Some td →
       (r.2 !! train = None ↔
        Forall (fun conf => timestamp conf <= cutoff) (confirmations td)))
  ∧ (∀ train, st !! train = None → r.2 !! train = None)
  ∧ r.1 = Z.of_nat (size st) - Z.of_nat (size r.2)
  ∧ cleanup_old_validations r.2 clock max_age_hours = (0, r.2).
Proof.
  cbn zeta. unfold cleanup_old_validations. cbn [fst snd].
  set (cutoff := DT.sub_hours clock max_age_hours).
  split; [|split; [|split; [|split]]].
  - intros train td' (td & Hc & Htd)%lookup_omap_Some.
    exists td. split; [done|].
    apply cleanup_train_Some in Hc as [Hne ->]. simpl.
    split; [done|]. split; [done|]. split; [apply filter_newer|done].
  - intros train td Htd. rewrite lookup_omap, Htd. simpl.
    apply cleanup_train_None.
  - intros train Htd. by rewrite lookup_omap, Htd.
  - pose proof (cleaned_count_size (cleanup_train cutoff) st). lia.
  - assert (omap (cleanup_train cutoff) (omap (cleanup_train cutoff) st)
            = omap (cleanup_train cutoff) st) as Hfix.
    { apply map_eq. intros train. rewrite !lookup_omap.
      destruct (st !! train) as [td|]; simpl; [|done].
      destruct (cleanup_train cutoff td) as [td'|] eqn:Hc; simpl; [|done].
      by eapply cleanup_train_fixed. }
    rewrite Hfix. f_equal.
    pose proof (cleaned_count_size (cleanup_train cutoff)
                  (omap (cleanup_train cutoff) st)) as Hsize.
    rewrite Hfix in Hsize. lia.
Qed.

Lemma cleanup_old_validations_effect_witness :
  (cleanup_old_validations store_701 (DT.at_hm 739002 10 30) 24).2 !! "701"
  = None.
Proof.
  apply (proj1 (proj2 (cleanup_old_validations_effect store_701
                         (DT.at_hm 739002 10 30) 24))
           "701"
           {| confirmations := confirm_at at_10_02 <$> ["u1"; "u2"; "u3"; "u4"];
              last_updated := at_10_02;
              total_confirmations := 4 |}).
  - reflexivity.
  - repeat constructor; vm_compute; discriminate.
Defined.

(** *** The reachable stores *)

Lemma NoDup_fmap_filter {A B} (f : A → B) (g : A → bool) (l : list A) :
  NoDup (f <$> l) → NoDup (f <$> List.filter g l).
Proof.
  induction l as [|x l IH]; [done|]. simpl.
  intros [Hx Hnd]%NoDup_cons.
  destruct (g x); [|by apply IH]. simpl.
  apply NoDup_cons. split; [|by apply IH].
  intros (y & Hy & Hin)%list_elem_of_fmap. apply Hx.
  apply list_elem_of_fmap. exists y. split; [done|].
  apply list_elem_of_In. apply list_elem_of_In in Hin.
  by apply List.filter_In in Hin as [? _].
Qed.

(** The invariant of the store, train by train. *)
Lemma store_reachable_lists (st : validations) :
  store_reachable st →
  ∀ train td,
    st !! train = Some td →
    NoDup (user_id <$> confirmations td)
    ∧ total_confirmations td = Z.of_nat (length (confirmations td)).
Proof.
  induction 1 as [|st clock train user sn co _ IH
                   |st clock train user _ IH
                   |st clock age _ IH];
    intros train' td' Htd'.
  - by rewrite lookup_empty in Htd'.
  - destruct (decide (train' = train)) as [->|Hne];
      [|rewrite confirm_lookup_ne in Htd' by done; by eapply IH].
    rewrite confirm_lookup in Htd'. cbn zeta in Htd'.
    assert (NoDup (user_id <$> confirmations
                                 (default (fresh_train_data clock)
                                    (st !! train)))
            ∧ total_confirmations (default (fresh_train_data clock)
                                     (st !! train))
              = Z.of_nat (length (confirmations
                                    (default (fresh_train_data clock)
                                       (st !! train))))) as [Hnd Htot].
    { destruct (st !! train) as [td|] eqn:Htd; simpl.
      - by eapply IH.
      - split; [constructor|done]. }
    set (old := default (fresh_train_data clock) (st !! train)) in *.
    destruct (list_find _ (confirmations old)) as [[i conf]|] eqn:Hf;
      injection Htd' as <-; simpl.
    + apply list_find_Some in Hf as (Hi & _ & _).
      rewrite update_keeps_users by done. rewrite length_insert. done.
    + apply list_find_None in Hf. rewrite Forall_forall in Hf.
      rewrite fmap_app, length_app. simpl. split; [|lia].
      apply NoDup_app. split; [done|]. split; [|apply NoDup_singleton].
      intros u Hu Hu'. apply list_elem_of_singleton in Hu'. subst u.
      apply list_elem_of_fmap in Hu as (c & Hc & Hin).
      by eapply Hf.
  - unfold remove_user_confirmation in Htd'.
    destruct (st !! train) as [td|] eqn:Htd; [|by eapply IH].
    destruct (list_find _ (confirmations td)) as [[i conf]|] eqn:Hf;
      [|by eapply IH].
    simpl in Htd'.
    destruct (decide (train' = train)) as [->|Hne];
      [|rewrite lookup_insert_ne in Htd' by done; by eapply IH].
    rewrite lookup_insert_eq in Htd'. injection Htd' as <-. simpl.
    destruct (IH _ _ Htd) as [Hnd Htot].
    apply list_find_Some in Hf as (Hi & _ & _).
    split.
    + rewrite list_fmap_delete.
      eapply sublist_NoDup; [exact Hnd|apply sublist_delete].
    + rewrite length_delete by eauto.
      apply lookup_lt_Some in Hi. lia.
  - unfold cleanup_old_validations in Htd'. simpl in Htd'.
    apply lookup_omap_Some in Htd' as (td & Hc & Htd).
    apply cleanup_train_Some in Hc as [_ ->]. simpl.
    split; [|done]. apply NoDup_fmap_filter. by eapply IH.
Qed.

(** X17.  In every store reached from the empty one by confirmations,
    removals and clean-ups, each train's list holds at most one confirmation
    per user, and [total_confirmations] is the length of the list, so it
    is the number of users who have confirmed and never negative. *)
Theorem store_reachable_consistent (st : validations) :
  store_reachable st →
  one_confirmation_per_user st
  ∧ ∀ train td,
      st !! train = Some td →
      total_confirmations td = Z.of_nat (length (confirmations td))
      ∧ 0 <= total_confirmations td
      ∧ ∀ user,
          (length (List.filter
                     (fun conf => bool_decide (user_id conf = user))
                     (confirmations td)) <= 1)%nat.
Proof.
  intros Hreach. split.
  - intros train td Htd.
    by destruct (store_reachable_lists st Hreach train td Htd).
  - intros train td Htd.
    destruct (store_reachable_lists st Hreach train td Htd) as [Hnd Htot].
    split; [done|]. split; [lia|]. intros user.
    clear Htot. induction (confirmations td) as [|conf l IH]; [simpl; lia|].
    apply NoDup_cons in Hnd as [Hconf Hnd]. specialize (IH Hnd).
    cbn [List.filter]. case_bool_decide as Hu; [|done].
    assert (List.filter (fun conf => bool_decide (user_id conf = user)) l
            = []) as ->; [|simpl; lia].
    destruct (List.filter _ l) as [|c l'] eqn:Hf; [done|].
    assert (In c (List.filter
                    (fun conf => bool_decide (user_id conf = user)) l))
      as Hin by (rewrite Hf; by left).
    apply List.filter_In in Hin as [Hin Hc].
    apply bool_decide_eq_true in Hc.
    exfalso. apply Hconf. rewrite Hu, <- Hc.
    apply list_elem_of_fmap. exists c. split; [done|].
    by apply list_elem_of_In.
Qed.

Lemma store_reachable_consistent_witness :
  one_confirmation_per_user
    (confirm_user_on_train ∅ at_10_30 "701" "u1" PyNone PyNone).2.
Proof.
  apply (store_reachable_consistent
           (confirm_user_on_train ∅ at_10_30 "701" "u1" PyNone PyNone).2).
  apply store_confirm, store_empty.
Defined.


(** *** Crowd metrics *)

Lemma foldl_Qplus_le (hi : Q) (l : list Q) :
  Forall (fun x => x <= hi)%Q l →
  ∀ a : Q, (foldl Qplus a l <= a + inject_Z (Z.of_nat (length l)) * hi)%Q.
Proof.
  induction 1 as [|x l Hhi _ IH]; intros a.
  - cbn [foldl length]. change (inject_Z (Z.of_nat 0)) with 0%Q. lra.
  - cbn [foldl length]. specialize (IH (a + x)%Q).
    rewrite Nat2Z.inj_succ, <- Z.add_1_r, inject_Z_plus.
    change (inject_Z 1) with 1%Q.
    revert IH. generalize (inject_Z (Z.of_nat (length l))). intros N IH.
    nra.
Qed.

Lemma foldl_Qplus_nonneg (l : list Q) :
  Forall (fun x => 0 <= x)%Q l →
  ∀ a : Q, (a <= foldl Qplus a l)%Q.
Proof.
  induction 1 as [|x l Hlo _ IH]; intros a.
  - cbn [foldl]. lra.
  - cbn [foldl]. specialize (IH (a + x)%Q). lra.
Qed.

Lemma trunc_lt (x : Q) (k : Z) : 0 < k → (x < inject_Z k)%Q → PyOps.trunc x < k.
Proof.
  destruct x as [n d]. unfold PyOps.trunc, Qlt. simpl. intros Hk Hlt.
  destruct (Z.le_gt_cases 0 n).
  - apply Z.quot_lt_upper_bound; lia.
  - pose proof (Z.quot_opp_l n (Z.pos d)) as Hopp.
    assert (0 <= Z.quot (- n) (Z.pos d)) by (apply Z.quot_pos; lia).
    lia.
Qed.

Lemma trunc_nonneg (x : Q) : (0 <= x)%Q → 0 <= PyOps.trunc x.
Proof.
  destruct x as [n d]. unfold PyOps.trunc, Qle. simpl. intros Hle.
  apply Z.quot_pos; lia.
Qed.

Lemma active_confirmations_timestamps (l : list confirmation) :
  mapM conf_timestamp (confirmation_dict <$> l) = Some (timestamp <$> l).
Proof.
  induction l as [|c l IH]; [done|].
  cbn [fmap list_fmap mapM]. fold (fmap (M:=list) confirmation_dict l).
  rewrite IH. reflexivity.
Qed.

Lemma crowd_data_entries st clock train :
  let active :=
    _get_active_confirmations clock
      (from_option confirmations [] (st !! train)) in
  let crowd_data := get_train_crowd_data st clock train in
  get_int crowd_data "active_confirmations"
  = Some (Z.of_nat (length active))
  ∧ get_str crowd_data "crowd_level"
    = Some (_determine_crowd_level (Z.of_nat (length active)))
  ∧ get_list crowd_data "confirmations"
    = Some (confirmation_dict <$> active).
Proof.
  cbn zeta. unfold get_train_crowd_data, get_int, get_str, get_list.
  destruct (st !! train) as [td|]; cbn [from_option];
    repeat split;
    repeat (rewrite lookup_insert_ne by done); by rewrite lookup_insert_eq.
Qed.

(** The dict [_calculate_crowd_metrics] returns, from the confirmations of
    the train that are newer than the clock less two hours. *)
Lemma crowd_metrics_eq st clock train :
  let active :=
    _get_active_confirmations clock
      (from_option confirmations [] (st !! train)) in
  let n := Z.of_nat (length active) in
  ∃ avg : Z,
    _calculate_crowd_metrics st clock train
    = {| cm_crowd_level := _determine_crowd_level n;
         cm_confidence :=
           if n =? 0 then "none"
           else if n <=? 3 then "low"
           else if n <=? 10 then "medium"
           else "high";
         cm_active_users := n;
         cm_minutes_ago := Some avg;
         cm_data_freshness :=
           if avg <? 30 then "high"
           else if avg <? 60 then "medium"
           else "low" |}
    ∧ avg < 120
    ∧ (active = [] → avg = 0)
    ∧ (Forall (fun conf => timestamp conf <= clock) active → 0 <= avg).
Proof.
  cbn zeta. unfold _calculate_crowd_metrics.
  destruct (crowd_data_entries st clock train) as (-> & -> & ->).
  pose proof (filter_newer (DT.sub_hours clock 2)
                (from_option confirmations [] (st !! train))) as Hnew.
  fold (_get_active_confirmations clock
          (from_option confirmations [] (st !! train))) in Hnew.
  repeat (change (mbind ?f (Some ?x)) with (f x); cbv beta).
  rewrite active_confirmations_timestamps.
  destruct (_get_active_confirmations clock _) as [|c l].
  { exists 0. simpl. repeat split; done. }
  set (active := c :: l) in *.
  assert (0 < inject_Z (Z.of_nat (length (timestamp <$> active))))%Q
    as Hpos.
  { rewrite length_fmap. subst active. cbn [length].
    rewrite Nat2Z.inj_succ. unfold Qlt, inject_Z. simpl. lia. }
  eexists. split; [|split; [|split]].
  - reflexivity.
  - apply trunc_lt; [done|].
    apply Qlt_shift_div_r; [reflexivity|].
    eapply Qle_lt_trans with (7199999999 # 1000000)%Q; [|reflexivity].
    apply Qle_shift_div_r; [done|].
    eapply Qle_trans; [apply (foldl_Qplus_le (7199999999 # 1000000))|].
    + apply Forall_fmap, Forall_fmap.
      eapply Forall_impl; [exact Hnew|].
      intros conf Hconf. unfold DT.sub_hours, DT.us_per_hour in Hconf.
      cbn [compose]. apply Qle_shift_div_r; [reflexivity|].
      unfold Qle, Qmult, inject_Z. cbn [Qnum Qden].
      change (Z.pos (1000000 * 1)) with 1000000. lia.
    + rewrite !length_fmap. lra.
  - intros [=].
  - intros Hpast. apply trunc_nonneg.
    apply Qle_shift_div_l; [reflexivity|].
    apply Qle_shift_div_l; [done|].
    eapply Qle_trans; [|apply foldl_Qplus_nonneg].
    + lra.
    + apply Forall_fmap, Forall_fmap.
      eapply Forall_impl; [exact Hpast|].
      intros conf Hconf. cbn [compose].
      apply Qle_shift_div_l; [reflexivity|].
      unfold Qle, Qmult, inject_Z. cbn [Qnum Qden].
      cbv beta in Hconf. change (Z.pos (1 * 1)) with 1. lia.
Qed.

Lemma crowd_level_low (n : Z) :
  0 <= n → (_determine_crowd_level n = "low" ↔ n = 0).
Proof.
  intros Hn. unfold _determine_crowd_level.
  destruct (Z.eqb_spec n 0) as [->|Hne]; [done|].
  split; [|done].
  destruct (n <=? 5); [discriminate|].
  destruct (n <=? 15); discriminate.
Qed.

(** X18.  [_calculate_crowd_metrics] never returns the dict of its [except]
    branch.  ['active_users'] is the number of the train's confirmations
    newer than the clock less two hours, and ['crowd_level'] the level of
    that number; ['confidence'] is 'none' exactly when there is none, and
    so is ['crowd_level'] 'low'.  The average age reported is below 120
    minutes (the model divides exactly), 0 when no confirmation is active,
    and not negative when no active confirmation is later than the
    clock; ['data_freshness'] follows it. *)
Theorem crowd_metrics_of_active_confirmations (st : validations)
  (clock : datetime) (train : string) :
  let active :=
    _get_active_confirmations clock
      (from_option confirmations [] (st !! train)) in
  let m := _calculate_crowd_metrics st clock train in
  cm_active_users m = Z.of_nat (length active)
  ∧ Forall (fun conf => DT.sub_hours clock 2 < timestamp conf) active
  ∧ cm_crowd_level m = _determine_crowd_level (cm_active_users m)
  ∧ (cm_confidence m = "none" ↔ active = [])
  ∧ (cm_crowd_level m = "low" ↔ active = [])
  ∧ ∃ avg : Z,
      cm_minutes_ago m = Some avg
      ∧ avg < 120
      ∧ (active = [] → avg = 0)
      ∧ (Forall (fun conf => timestamp conf <= clock) active → 0 <= avg)
      ∧ cm_data_freshness m
        = (if avg <? 30 then "high"
           else if avg <? 60 then "medium" else "low").
Proof.
  cbn zeta.
  destruct (crowd_metrics_eq st clock train)
    as (avg & -> & Hlt & Hnil & Hpast).
  cbn [cm_active_users cm_crowd_level cm_confidence cm_minutes_ago
       cm_data_freshness].
  set (active := _get_active_confirmations clock _) in *.
  assert (Z.of_nat (length active) = 0 ↔ active = []) as Hzero.
  { destruct active; simpl; split; (done || lia). }
  split; [done|]. split; [apply filter_newer|]. split; [done|].
  split; [|split].
  - rewrite <- Hzero.
    destruct (Z.eqb_spec (Z.of_nat (length active)) 0) as [|Hne]; [done|].
    split; [|done].
    destruct (_ <=? 3); [discriminate|].
    destruct (_ <=? 10); discriminate.
  - rewrite <- Hzero. apply crowd_level_low. lia.
  - exists avg. done.
Qed.

(** X19.  The reply of [confirm_user_on_train] (with one reading of the
    clock for the whole call): it reports success, says 'Confirmation
    updated' exactly when the user already had a confirmation for the
    train and 'Confirmation added' otherwise, and its crowd metrics count
    the confirmation just made: at least one active user, at most one more
    than the train had confirmations, a confidence that is not 'none' and
    a crowd level that is not 'low'. *)
Theorem confirm_user_on_train_reply (st : validations) (clock : datetime)
  (train user : string) (sn co : pyval) :
  let r := (confirm_user_on_train st clock train user sn co).1 in
  let old := from_option confirmations [] (st !! train) in
  let m := res_crowd_metrics r in
  success r = true
  ∧ res_train_number r = train ∧ res_user_id r = user
  ∧ res_timestamp r = clock
  ∧ message r = (if bool_decide (user ∈ user_id <$> old)
                 then "Confirmation updated" else "Confirmation added")
  ∧ 1 <= cm_active_users m <= Z.of_nat (length old) + 1
  ∧ cm_confidence m ≠ "none"
  ∧ cm_crowd_level m ≠ "low".
Proof.
  cbn zeta.
  assert (confirmations (default (fresh_train_data clock) (st !! train))
          = from_option confirmations [] (st !! train)) as Hold.
  { by destruct (st !! train). }
  assert (success (confirm_user_on_train st clock train user sn co).1 = true
          ∧ res_train_number
              (confirm_user_on_train st clock train user sn co).1 = train
          ∧ res_user_id
              (confirm_user_on_train st clock train user sn co).1 = user
          ∧ res_timestamp
              (confirm_user_on_train st clock train user sn co).1 = clock
          ∧ message (confirm_user_on_train st clock train user sn co).1
            = (if bool_decide
                    (user ∈ user_id <$>
                       from_option confirmations [] (st !! train))
               then "Confirmation updated" else "Confirmation added")
          ∧ res_crowd_metrics (confirm_user_on_train st clock train user
                                 sn co).1
            = _calculate_crowd_metrics
                (confirm_user_on_train st clock train user sn co).2
                clock train) as (Hs & Ht & Hu & Hc & Hmsg & Hm).
  { unfold confirm_user_on_train. cbn zeta. rewrite Hold.
    destruct (list_find _ _) as [[i conf]|] eqn:Hf;
      cbn [fst snd message res_crowd_metrics success res_train_number
           res_user_id res_timestamp];
      (do 4 (split; [done|])); (split; [|done]).
    - apply list_find_Some in Hf as (Hi & Hu & _).
      rewrite bool_decide_eq_true_2; [done|].
      apply list_elem_of_fmap. exists conf. split; [done|].
      by eapply list_elem_of_lookup_2.
    - apply list_find_None in Hf.
      rewrite Forall_forall in Hf.
      rewrite bool_decide_eq_false_2; [done|].
      intros (c & Hc & Hin)%list_elem_of_fmap. by eapply Hf. }
  do 4 (split; [done|]). split; [done|]. clear Hs Ht Hu Hc Hmsg.
  rewrite Hm.
  pose proof (confirm_lookup st clock train user sn co) as Hnew.
  cbn zeta in Hnew. rewrite Hold in Hnew.
  destruct (crowd_metrics_eq
              (confirm_user_on_train st clock train user sn co).2 clock train)
    as (avg & -> & _).
  rewrite Hnew. cbn [from_option].
  cbn [cm_active_users cm_crowd_level cm_confidence].
  set (old := from_option confirmations [] (st !! train)) in *.
  set (new := confirmations _).
  assert (length new <= length old + 1)%nat as Hlen.
  { subst new. destruct (list_find _ old) as [[i conf]|]; simpl.
    - rewrite length_insert. lia.
    - rewrite length_app. simpl. lia. }
  assert (∃ conf, conf ∈ new ∧ timestamp conf = clock)
    as (conf & Hin & Hclock).
  { subst new. destruct (list_find _ old) as [[i conf]|] eqn:Hf; simpl.
    - apply list_find_Some in Hf as (Hi & _ & _).
      eexists. split; [|shelve].
      eapply list_elem_of_lookup_2.
      apply list_lookup_insert_eq. by eapply lookup_lt_Some.
      Unshelve. done.
    - eexists. split; [apply elem_of_app; right; by left|done]. }
  assert (1 <= length (_get_active_confirmations clock new)
          <= length old + 1)%nat as Hactive.
  { unfold _get_active_confirmations. split.
    - assert (In conf (List.filter
                         (fun c => DT.sub_hours clock 2 <? timestamp c) new))
        as Hin'.
      { apply List.filter_In. split; [by apply list_elem_of_In|].
        apply Z.ltb_lt. rewrite Hclock.
        unfold DT.sub_hours, DT.us_per_hour. lia. }
      destruct (List.filter _ new); [done|simpl; lia].
    - etransitivity; [apply List.filter_length_le|done]. }
  revert Hactive.
  generalize (length (_get_active_confirmations clock new)).
  intros n Hactive.
  split; [lia|]. split.
  - destruct (Z.eqb_spec (Z.of_nat n) 0); [lia|].
    repeat case_match; done.
  - rewrite crowd_level_low by lia. lia.
Qed.

Lemma trunc_times_1_5 (a k : Z) :
  - k <= a <= k →
  - Z.quot (15 * k) 10 <= PyOps.trunc (inject_Z a * 1.5)%Q
  <= Z.quot (15 * k) 10.
Proof.
  intros Ha. unfold PyOps.trunc, Qmult, inject_Z. cbn [Qnum Qden].
  change (Z.pos (1 * 10)) with 10.
  rewrite <- Z.quot_opp_l by lia.
  split; apply Z.quot_le_mono; lia.
Qed.

(** X20.  [_calculate_crowd_delay_adjustment] on the crowd data of a
    train: with [n] the number of active confirmations, the adjustment is
    0 for [n = 0], the draw from -2..2 up to 5, the draw from -5..5 up to
    10, and above 10 the draw (from -5..5 up to 15, from -8..8 beyond)
    times 1.5 cut to an integer; the factor 2.0 of the second test is
    never applied, 20 < n being tested only when 10 < n failed.  With the
    draws in their ranges the adjustment lies between -12 and 12. *)
Theorem crowd_delay_adjustment_range (st : validations) (clock : datetime)
  (train : string) (rnd : adjustment_draws) :
  let n :=
    Z.of_nat (length (_get_active_confirmations clock
                        (from_option confirmations [] (st !! train)))) in
  let adjustment :=
    _calculate_crowd_delay_adjustment
      (get_train_crowd_data st clock train) rnd in
  - 2 <= draw_2 rnd <= 2 →
  - 5 <= draw_5 rnd <= 5 →
  - 8 <= draw_8 rnd <= 8 →
  adjustment
  = (if n =? 0 then 0
     else if n <=? 5 then draw_2 rnd
     else if n <=? 10 then draw_5 rnd
     else if n <=? 15 then PyOps.trunc (inject_Z (draw_5 rnd) * 1.5)%Q
     else PyOps.trunc (inject_Z (draw_8 rnd) * 1.5)%Q)
  ∧ - 12 <= adjustment <= 12.
Proof.
  cbn zeta. intros H2 H5 H8.
  unfold _calculate_crowd_delay_adjustment.
  destruct (crowd_data_entries st clock train) as (-> & -> & _).
  set (n := Z.of_nat (length _)).
  repeat (change (mbind ?f (Some ?x)) with (f x); cbv beta).
  cbn [default from_option id]. unfold _determine_crowd_level.
  pose proof (trunc_times_1_5 (draw_5 rnd) 5 H5) as H5'.
  pose proof (trunc_times_1_5 (draw_8 rnd) 8 H8) as H8'.
  change (Z.quot (15 * 5) 10) with 7 in H5'.
  change (Z.quot (15 * 8) 10) with 12 in H8'.
  destruct (Z.eqb_spec n 0) as [Hn|Hn].
  { rewrite Hn. simpl. split; [done|lia]. }
  destruct (Z.leb_spec n 5).
  { cbn [String.eqb Ascii.eqb Bool.eqb andb].
    destruct (Z.ltb_spec 10 n); [lia|].
    destruct (Z.ltb_spec 20 n); [lia|]. split; [done|lia]. }
  destruct (Z.leb_spec n 15).
  - cbn [String.eqb Ascii.eqb Bool.eqb andb].
    destruct (Z.leb_spec n 10).
    + destruct (Z.ltb_spec 10 n); [lia|].
      destruct (Z.ltb_spec 20 n); [lia|]. split; [done|lia].
    + destruct (Z.ltb_spec 10 n); [|lia]. split; [done|lia].
  - cbn [String.eqb Ascii.eqb Bool.eqb andb].
    destruct (Z.leb_spec n 10); [lia|].
    destruct (Z.ltb_spec 10 n); [|lia]. split; [done|lia].
Qed.

Lemma crowd_delay_adjustment_range_witness :
  _calculate_crowd_delay_adjustment
    (get_train_crowd_data store_701 at_10_30 "701")
    {| draw_2 := -2; draw_5 := 5; draw_8 := 8 |}
  = -2.
Proof.
  refine (eq_trans
            (proj1 (crowd_delay_adjustment_range store_701 at_10_30 "701"
                      {| draw_2 := -2; draw_5 := 5; draw_8 := 8 |}
                      _ _ _)) _);
    (reflexivity || (simpl; lia)).
Defined.

End CrowdFacts.

Section RouteFacts.

Import DelaySimulator.

Lemma simulate_delay_bounded h clock rnd train station sched now w :
  0 <= delay_minutes
         (simulate_delay h clock rnd train station sched now w).1 <= 120.
Proof. unfold simulate_delay. destruct station; simpl; lia. Qed.

(** The loop of [simulate_route_delays]: its effect on the history, and the
    stations it has appended when it ends without an exception. *)
Lemma simulate_route_from_spec (clock : datetime) (rnd : nat → route_draws)
  (rest : list stop) :
  ∀ (i : nat) (current_time : datetime) (acc : list stop) (h : history),
    let r := simulate_route_from clock rnd i rest current_time acc h in
    (reachable h → reachable r.2)
    ∧ (∀ train, train ≠ "ROUTE_SIMULATION" → r.2 !! train = h !! train)
    ∧ (Forall (fun station : stop =>
                 is_Some (station !! "departure_time") →
                 is_Some (station !! "city")) rest →
       is_Some r.1)
    ∧ ∀ out,
        r.1 = Some out →
        ∃ done,
          out = reverse acc ++ done
          ∧ Forall2
              (fun station simulated : stop =>
                 simulated = station
                 ∨ ∃ v city info weather,
                     station !! "departure_time" = Some v
                     ∧ truthy v = true
                     ∧ is_Some (_parse_time_string clock v)
                     ∧ station !! "city" = Some city
                     ∧ 0 <= delay_minutes info <= 120
                     ∧ simulated
                       = <[ "weather_condition" := PyStr weather ]>
                           (<[ "simulated_delay" := delay_info_dict info ]>
                              station))
              rest done.
Proof.
  induction rest as [|station rest IH]; intros i current_time acc h.
  - cbn zeta. simpl. repeat split; try done.
    intros out [= <-]. exists []. by rewrite app_nil_r.
  - cbn zeta. cbn [simulate_route_from].
    assert (∀ simulated current_time' h',
              (reachable h → reachable h') →
              (∀ train, train ≠ "ROUTE_SIMULATION" →
                        h' !! train = h !! train) →
              (simulated = station
               ∨ ∃ v city info weather,
                   station !! "departure_time" = Some v
                   ∧ truthy v = true
                   ∧ is_Some (_parse_time_string clock v)
                   ∧ station !! "city" = Some city
                   ∧ 0 <= delay_minutes info <= 120
                   ∧ simulated
                     = <[ "weather_condition" := PyStr weather ]>
                         (<[ "simulated_delay" := delay_info_dict info ]>
                            station)) →
              let r := simulate_route_from clock rnd (S i) rest current_time'
                         (simulated :: acc) h' in
              (reachable h → reachable r.2)
              ∧ (∀ train, train ≠ "ROUTE_SIMULATION" →
                          r.2 !! train = h !! train)
              ∧ (Forall (fun station : stop =>
                           is_Some (station !! "departure_time") →
                           is_Some (station !! "city")) (station :: rest) →
                 is_Some r.1)
              ∧ ∀ out,
                  r.1 = Some out →
                  ∃ done,
                    out = reverse acc ++ done
                    ∧ Forall2
                        (fun station simulated : stop =>
                           simulated = station
                           ∨ ∃ v city info weather,
                               station !! "departure_time" = Some v
                               ∧ truthy v = true
                               ∧ is_Some (_parse_time_string clock v)
                               ∧ station !! "city" = Some city
                               ∧ 0 <= delay_minutes info <= 120
                               ∧ simulated
                                 = <[ "weather_condition" := PyStr weather ]>
                                     (<[ "simulated_delay" :=
                                           delay_info_dict info ]> station))
                        (station :: rest) done) as Hnext.
    { intros simulated current_time' h' Hreach Hother Hsim. cbn zeta.
      destruct (IH (S i) current_time' (simulated :: acc) h')
        as (IHreach & IHother & IHsome & IHout).
      split; [tauto|]. split; [|split].
      - intros train Hne. rewrite IHother by done. by apply Hother.
      - intros [_ Hrest]%Forall_cons. by apply IHsome.
      - intros out Hout. destruct (IHout out Hout) as (done' & -> & Hall).
        exists (simulated :: done'). split.
        + by rewrite reverse_cons, <- app_assoc.
        + by constructor. }
    destruct (station !! "departure_time") as [v|] eqn:Hdep;
      [|by apply Hnext; [| |left]].
    destruct (truthy v) eqn:Htruthy; [|by apply Hnext; [| |left]].
    destruct (_parse_time_string clock v) as [sched|] eqn:Hparse;
      [|by apply Hnext; [| |left]].
    destruct (station !! "city") as [city|] eqn:Hcity.
    + set (w := get_weather_condition clock (route_weather_roll (rnd i))).
      pose proof (simulate_delay_bounded h clock (route_delay_draws (rnd i))
                    "ROUTE_SIMULATION" city sched current_time w) as Hbound.
      pose proof (simulate_delay_other_train h clock
                    (route_delay_draws (rnd i))
                    "ROUTE_SIMULATION" city sched current_time w) as Hother.
      pose proof (reachable_call h clock (route_delay_draws (rnd i))
                    "ROUTE_SIMULATION" city sched current_time w) as Hreach.
      destruct (simulate_delay h clock (route_delay_draws (rnd i))
                  "ROUTE_SIMULATION" city sched current_time w)
        as [info h'].
      cbn [fst snd] in *.
      apply Hnext; [done| |].
      * intros train Hne. by apply Hother.
      * right. exists v, city, info, w. by rewrite Hparse.
    + simpl. split; [done|]. split; [done|]. split; [|done].
      intros [Hst _]%Forall_cons.
      rewrite Hdep, Hcity in Hst.
      assert (is_Some (Some v)) as Hv by (by eexists).
      by destruct (Hst Hv) as [? [=]].
Qed.

(** X21.  [simulate_route_delays] returns as many stations as it was
    given, in their order.  Each is the given station itself, or, for a
    station with a departure time that is read and a ['city'], that station
    with ['simulated_delay'] (a delay of 0 to 120 minutes) and
    ['weather_condition'] set and every other key as it was.  The history
    changes under the train 'ROUTE_SIMULATION' only and stays one that
    calls of [simulate_delay] lead to.  When every station with a
    ['departure_time'] has a ['city'] no exception occurs. *)
Theorem simulate_route_delays_stations (h : history) (clock : datetime)
  (rnd : nat → route_draws) (route_stations : list stop)
  (start_time : datetime) :
  let r := simulate_route_delays h clock rnd route_stations start_time in
  length r.1 = length route_stations
  ∧ Forall2
      (fun station simulated : stop =>
         (∀ key, key ≠ "simulated_delay" → key ≠ "weather_condition" →
                 simulated !! key = station !! key)
         ∧ (simulated = station
            ∨ ∃ v city info weather,
                station !! "departure_time" = Some v
                ∧ truthy v = true
                ∧ is_Some (_parse_time_string clock v)
                ∧ station !! "city" = Some city
                ∧ 0 <= delay_minutes info <= 120
                ∧ simulated
                  = <[ "weather_condition" := PyStr weather ]>
                      (<[ "simulated_delay" := delay_info_dict info ]>
                         station)))
      route_stations r.1
  ∧ (reachable h → reachable r.2)
  ∧ (∀ train, train ≠ "ROUTE_SIMULATION" → r.2 !! train = h !! train)
  ∧ (Forall (fun station : stop =>
               is_Some (station !! "departure_time") →
               is_Some (station !! "city")) route_stations →
     (simulate_route_from clock rnd 0 route_stations start_time [] h).1
     = Some r.1).
Proof.
  cbn zeta. unfold simulate_route_delays.
  destruct (simulate_route_from_spec clock rnd route_stations 0 start_time
              [] h) as (Hreach & Hother & Hsome & Hout).
  destruct (simulate_route_from clock rnd 0 route_stations start_time [] h)
    as [out h'].
  cbn [fst snd] in *.
  assert (Forall2
            (fun station simulated : stop =>
               (∀ key, key ≠ "simulated_delay" →
                       key ≠ "weather_condition" →
                       simulated !! key = station !! key)
               ∧ (simulated = station
                  ∨ ∃ v city info weather,
                      station !! "departure_time" = Some v
                      ∧ truthy v = true
                      ∧ is_Some (_parse_time_string clock v)
                      ∧ station !! "city" = Some city
                      ∧ 0 <= delay_minutes info <= 120
                      ∧ simulated
                        = <[ "weather_condition" := PyStr weather ]>
                            (<[ "simulated_delay" := delay_info_dict info ]>
                               station)))
            route_stations (default route_stations out)) as Hall.
  { destruct out as [out|]; cbn [default from_option id].
    - destruct (Hout out eq_refl) as (done' & -> & Hall).
      rewrite reverse_nil, app_nil_l.
      eapply Forall2_impl; [exact Hall|].
      intros station simulated [->|Hsim]; [split; [done|by left]|].
      split; [|by right].
      destruct Hsim as (v & city & info & weather & _ & _ & _ & _ & _ & ->).
      intros key Hk1 Hk2. by rewrite !lookup_insert_ne.
    - apply Forall_Forall2_diag, Forall_forall.
      intros station _. split; [done|by left]. }
  split; [symmetry; by eapply Forall2_length|].
  split; [done|]. split; [done|]. split; [done|].
  intros Hcity. destruct (Hsome Hcity) as [out' ->]. done.
Qed.

End RouteFacts.

Section DistanceFacts.

Import PositionCalculator.

Variable loader : data_loader.

Lemma filter_seq_inside (n m : nat) :
  List.filter (fun i => (i + 1 <? m)%nat) (seq 0 n)
  = seq 0 (Nat.min n (m - 1)).
Proof.
  induction n as [|n IH]; [done|].
  rewrite seq_S, List.filter_app, IH. cbn [List.filter Nat.add].
  destruct (Nat.ltb_spec (n + 1) m).
  - replace (Nat.min (S n) (m - 1)) with (S (Nat.min n (m - 1))) by lia.
    rewrite seq_S. repeat f_equal. lia.
  - rewrite app_nil_r. f_equal. lia.
Qed.

Lemma city_at_cities (routes : list stop) (cities : list pyval) (i : nat) :
  DataLoader.route_stations routes = Some cities →
  city_at routes i = cities !! i.
Proof.
  unfold DataLoader.route_stations, city_at.
  intros Hall%mapM_Some. rewrite Forall2_lookup in Hall.
  specialize (Hall i).
  destruct Hall as [stop city Hcity|]; [|done]. done.
Qed.

(** X22.  For a route whose stops all name a city, the distance
    [_calculate_distance_covered] adds up at the last stop, or at any index
    beyond it, is the total [calculate_total_route_distance] gives for the
    list of the cities, before that one rounds it to two places: no leg
    outside the route is counted.  A list of fewer than two names has the
    total 0. *)
Theorem distance_covered_at_last_stop (routes : list stop)
  (cities : list pyval) (idx : Z) :
  DataLoader.route_stations routes = Some cities →
  Z.of_nat (length routes) - 1 <= idx →
  (calculate_total_route_distance loader cities
   == PyOps.round (_calculate_distance_covered loader routes idx) 2)%Q
  ∧ ((length cities < 2)%nat →
     (calculate_total_route_distance loader cities == 0)%Q).
Proof.
  intros Hcities Hidx.
  pose proof (length_mapM _ _ _ Hcities) as Hlen.
  assert (calculate_total_route_distance loader cities
          == PyOps.round (_calculate_distance_covered loader routes idx) 2)%Q
    as Heq.
  { unfold calculate_total_route_distance, _calculate_distance_covered,
      prefix_distance.
    rewrite filter_seq_inside.
    replace (Nat.min (Z.to_nat idx) (length routes - 1))
      with (length cities - 1)%nat by lia.
    assert (∀ l : list nat,
              mapM (fun i =>
                      a ← city_at routes i;
                      b ← city_at routes (i + 1);
                      Some (station_distance loader a b)) l
              = mapM (fun i =>
                        a ← cities !! i;
                        b ← cities !! (i + 1)%nat;
                        Some (station_distance loader a b)) l) as ->.
    { intros l. apply mapM_ext. intros i.
      by rewrite !(city_at_cities routes cities). }
    by destruct (mapM _ _). }
  split; [done|].
  intros Hshort. unfold calculate_total_route_distance.
  by replace (length cities - 1)%nat with 0%nat by lia.
Qed.

End DistanceFacts.

Lemma distance_covered_at_last_stop_witness :
  (PositionCalculator.calculate_total_route_distance loader_test
     [PyStr "StationA"; PyStr "StationB"; PyStr "StationC"]
   == PyOps.round
        (PositionCalculator._calculate_distance_covered loader_test
           route_abc 2) 2)%Q.
Proof.
  apply (distance_covered_at_last_stop loader_test route_abc
           [PyStr "StationA"; PyStr "StationB"; PyStr "StationC"] 2).
  - reflexivity.
  - simpl. lia.
Defined.

Section SearchFacts.

Import DataLoader.

(** [route_stations.index(name)] is the first position of the name, and
    there is one exactly when [name in route_stations]. *)
Lemma station_index_first (name : string) (cities : list pyval) (i : nat) :
  station_index name cities = Some i ↔
  cities !! i = Some (PyStr name)
  ∧ ∀ k, (k < i)%nat → cities !! k ≠ Some (PyStr name).
Proof.
  revert i. induction cities as [|c cities IH]; intros i.
  { simpl. split; [done|]. by intros [? _]. }
  cbn [station_index].
  assert (py_eq_str c name = true ↔ c = PyStr name) as Heq.
  { unfold py_eq_str. destruct c; try (split; discriminate).
    rewrite String.eqb_eq. split; [by intros ->|by intros [= ->]]. }
  destruct (py_eq_str c name) eqn:Hc.
  - assert (c = PyStr name) as -> by (by apply Heq). split.
    + intros [= <-]. split; [done|]. lia.
    + intros [Hi Hfirst]. destruct i as [|i]; [done|].
      exfalso. by apply (Hfirst 0%nat); [lia|].
  - assert (c ≠ PyStr name) as Hne.
    { intros Hc'. by apply Heq in Hc'. }
    destruct i as [|i].
    + split.
      * by destruct (station_index name cities).
      * intros [[= Hi] _]. done.
    + split.
      * destruct (station_index name cities) as [j|]; [|done].
        intros [= <-]. destruct (proj1 (IH j) eq_refl) as [Hj Hfirst].
        split; [done|]. intros [|k] Hk; simpl; [congruence|].
        apply Hfirst. lia.
      * intros [Hi Hfirst].
        assert (station_index name cities = Some i) as ->; [|done].
        apply IH. split; [done|].
        intros k Hk. apply (Hfirst (S k)). lia.
Qed.

Lemma station_in_index (name : string) (cities : list pyval) :
  station_in name cities = true ↔ is_Some (station_index name cities).
Proof.
  induction cities as [|c cities IH]; simpl.
  - split; [done|]. by intros [? [=]].
  - destruct (py_eq_str c name); simpl; [by split; eauto|].
    rewrite IH. destruct (station_index name cities); simpl.
    + split; eauto.
    + split; by intros [? [=]].
Qed.

Lemma stations_match_first (from_station to_station : string)
  (sch : schedule) :
  stations_match from_station to_station sch = true ↔
  ∃ cities from_idx to_idx,
    route_stations (routes sch) = Some cities
    ∧ station_index from_station cities = Some from_idx
    ∧ station_index to_station cities = Some to_idx
    ∧ (from_idx < to_idx)%nat.
Proof.
  unfold stations_match.
  destruct (route_stations (routes sch)) as [cities|];
    [|split; [done|by intros (? & ? & ? & [=] & _)]].
  pose proof (station_in_index from_station cities) as Hfrom.
  pose proof (station_in_index to_station cities) as Hto.
  destruct (station_index from_station cities) as [i|] eqn:Hi,
           (station_index to_station cities) as [j|] eqn:Hj.
  - assert (station_in from_station cities = true) as -> by (by apply Hfrom).
    assert (station_in to_station cities = true) as -> by (by apply Hto).
    simpl. rewrite Nat.ltb_lt. split.
    + intros Hlt. by exists cities, i, j.
    + intros (? & ? & ? & ? & ? & ? & ?). by simplify_eq.
  - split; [|intros (? & ? & ? & ? & ? & ? & ?); simplify_eq].
    by destruct (station_in from_station cities && station_in to_station
                   cities).
  - split; [|intros (? & ? & ? & ? & ? & ? & ?); simplify_eq].
    by destruct (station_in from_station cities && station_in to_station
                   cities).
  - split; [|intros (? & ? & ? & ? & ? & ? & ?); simplify_eq].
    by destruct (station_in from_station cities && station_in to_station
                   cities).
Qed.

(** X23.  [search_trains_by_stations] finds exactly the trains of the
    loader whose stops all name a city and on whose route the first stop
    named [from_station] comes before the first stop named [to_station].
    So no train is found for both directions of a pair of stations, and
    none at all when the two stations are the same. *)
Theorem search_trains_by_stations_direction (loader : data_loader)
  (from_station to_station : string) :
  (∀ train_key sch,
     (train_key, sch)
       ∈ search_trains_by_stations loader from_station to_station ↔
     schedules loader !! train_key = Some sch
     ∧ ∃ cities from_idx to_idx,
         route_stations (routes sch) = Some cities
         ∧ cities !! from_idx = Some (PyStr from_station)
         ∧ (∀ k, (k < from_idx)%nat →
                 cities !! k ≠ Some (PyStr from_station))
         ∧ cities !! to_idx = Some (PyStr to_station)
         ∧ (∀ k, (k < to_idx)%nat → cities !! k ≠ Some (PyStr to_station))
         ∧ (from_idx < to_idx)%nat)
  ∧ (∀ found,
       found ∈ search_trains_by_stations loader from_station to_station →
       found ∉ search_trains_by_stations loader to_station from_station)
  ∧ search_trains_by_stations loader from_station from_station = [].
Proof.
  assert (∀ a b train_key sch,
            (train_key, sch) ∈ search_trains_by_stations loader a b ↔
            schedules loader !! train_key = Some sch
            ∧ stations_match a b sch = true) as Hin.
  { intros a b train_key sch. unfold search_trains_by_stations.
    rewrite list_elem_of_In, List.filter_In, <- list_elem_of_In.
    by rewrite elem_of_map_to_list. }
  split; [|split].
  - intros train_key sch. rewrite Hin, stations_match_first.
    split.
    + intros (Hsch & cities & i & j & Hc & Hi & Hj & Hlt).
      apply station_index_first in Hi as [Hi Hfi].
      apply station_index_first in Hj as [Hj Hfj].
      split; [done|]. by exists cities, i, j.
    + intros (Hsch & cities & i & j & Hc & Hi & Hfi & Hj & Hfj & Hlt).
      split; [done|]. exists cities, i, j.
      split; [done|]. split; [by apply station_index_first|].
      split; [by apply station_index_first|done].
  - intros [train_key sch]. rewrite !Hin, !stations_match_first.
    intros (_ & cities & i & j & Hc & Hi & Hj & Hlt)
           (_ & cities' & j' & i' & Hc' & Hj' & Hi' & Hlt').
    rewrite Hc in Hc'. injection Hc' as <-.
    rewrite Hi in Hi'. rewrite Hj in Hj'.
    injection Hi' as <-. injection Hj' as <-. lia.
  - unfold search_trains_by_stations.
    induction (map_to_list (schedules loader)) as [|[key sch] l IH];
      [done|].
    simpl. rewrite IH.
    destruct (stations_match from_station from_station sch) eqn:Hm; [|done].
    apply stations_match_first in Hm
      as (cities & i & j & _ & Hi & Hj & Hlt).
    rewrite Hi in Hj. injection Hj as <-. lia.
Qed.

Lemma prefix_refl (s : string) : String.prefix s s = true.
Proof.
  induction s as [|c s IH]; [done|]. simpl.
  by destruct (Ascii.ascii_dec c c).
Qed.

Lemma contains_refl (s : string) : PyOps.contains s s = true.
Proof.
  destruct s as [|c s]; [done|]. cbn [PyOps.contains].
  by rewrite prefix_refl.
Qed.

Lemma contains_empty (s : string) : PyOps.contains "" s = true.
Proof. by destruct s. Qed.

(** X24.  [search_trains_by_number] returns schedules of the loader only;
    it compares in lower case, so two queries that differ in letter case
    find the same trains; a query that is a train's key, in any letter
    case, finds that train; the empty query finds every train. *)
Theorem search_trains_by_number_finds_key (loader : data_loader)
  (train_number : string) :
  (∀ train_key sch,
     (train_key, sch) ∈ search_trains_by_number loader train_number →
     schedules loader !! train_key = Some sch)
  ∧ (∀ other,
       PyOps.lower other = PyOps.lower train_number →
       search_trains_by_number loader other
       = search_trains_by_number loader train_number)
  ∧ (∀ train_key sch,
       schedules loader !! train_key = Some sch →
       PyOps.lower train_number = PyOps.lower train_key →
       (train_key, sch) ∈ search_trains_by_number loader train_number)
  ∧ search_trains_by_number loader "" = map_to_list (schedules loader).
Proof.
  assert (∀ q train_key sch,
            (train_key, sch) ∈ search_trains_by_number loader q ↔
            schedules loader !! train_key = Some sch
            ∧ number_match q train_key sch = true) as Hin.
  { intros q train_key sch. unfold search_trains_by_number.
    rewrite list_elem_of_In, List.filter_In, <- list_elem_of_In.
    by rewrite elem_of_map_to_list. }
  split; [|split; [|split]].
  - intros train_key sch. rewrite Hin. by intros [? _].
  - intros other Hother. unfold search_trains_by_number, number_match.
    by rewrite Hother.
  - intros train_key sch Hsch Hkey. apply Hin. split; [done|].
    unfold number_match. cbn zeta. by rewrite Hkey, contains_refl.
  - unfold search_trains_by_number.
    induction (map_to_list (schedules loader)) as [|[key sch] l IH];
      [done|].
    simpl. rewrite IH. unfold number_match. simpl.
    by rewrite contains_empty.
Qed.

End SearchFacts.

Section ParseFacts.

Lemma in_range_spec (lo hi c : ascii) :
  Strptime.in_range lo hi c = true →
  Strptime.code lo <= Strptime.code c <= Strptime.code hi.
Proof. unfold Strptime.in_range. lia. Qed.

Lemma match_I_range (s : string) :
  Forall (fun r : Z * string => 1 <= r.1 <= 12) (Strptime.match_I s).
Proof.
  destruct s as [|c1 [|c2 rest]]; cbn [Strptime.match_I];
    repeat (apply Forall_app; split);
    repeat match goal with
           | |- context [if ?b then _ else _] => destruct b eqn:?
           end;
    repeat constructor; cbn [fst];
    repeat match goal with
           | H : _ && _ = true |- _ => apply andb_true_iff in H as [? ?]
           | H : Strptime.in_range _ _ _ = true |- _ =>
               apply in_range_spec in H
           | H : (_ =? _) = true |- _ => apply Z.eqb_eq in H
           end;
    unfold Strptime.digit in *;
    change (Strptime.code "0") with 48 in *;
    change (Strptime.code "1") with 49 in *;
    change (Strptime.code "2") with 50 in *;
    change (Strptime.code "9") with 57 in *; lia.
Qed.

Lemma match_M_range (s : string) :
  Forall (fun r : Z * string => 0 <= r.1 <= 59) (Strptime.match_M s).
Proof.
  destruct s as [|c1 [|c2 rest]]; cbn [Strptime.match_M];
    repeat (apply Forall_app; split);
    repeat match goal with
           | |- context [if ?b then _ else _] => destruct b eqn:?
           end;
    repeat constructor; cbn [fst];
    repeat match goal with
           | H : _ && _ = true |- _ => apply andb_true_iff in H as [? ?]
           | H : Strptime.in_range _ _ _ = true |- _ =>
               apply in_range_spec in H
           end;
    unfold Strptime.digit in *;
    change (Strptime.code "0") with 48 in *;
    change (Strptime.code "5") with 53 in *;
    change (Strptime.code "9") with 57 in *; lia.
Qed.

(** The hour [strptime] reads is one of the 24-hour clock, the minute one
    of the hour. *)
Lemma strptime_range (s : string) (h m : Z) :
  Strptime.strptime s = Some (h, m) → 0 <= h <= 23 ∧ 0 <= m <= 59.
Proof.
  unfold Strptime.strptime.
  assert (Forall (fun r : Z * Z * bool * string =>
                    1 <= r.1.1.1 <= 12 ∧ 0 <= r.1.1.2 <= 59)
            (Strptime.regex_matches s)) as Hall.
  { unfold Strptime.regex_matches.
    apply Forall_bind.
    eapply Forall_impl; [apply match_I_range|].
    intros [h0 s1] Hh. cbn [fst] in Hh.
    apply Forall_bind, Forall_forall. intros s2 _.
    apply Forall_bind.
    eapply Forall_impl; [apply match_M_range|].
    intros [m0 s3] Hm. cbn [fst] in Hm.
    apply Forall_bind, Forall_forall. intros s4 _.
    apply Forall_bind, Forall_forall. intros [pm s5] _.
    apply Forall_singleton. cbn [fst snd]. done. }
  destruct (Strptime.regex_matches s) as [|[[[h0 m0] pm] rest] l]; [done|].
  apply Forall_cons in Hall as [[Hh Hm] _]. cbn [fst snd] in Hh, Hm.
  destruct rest; [|done]. intros [= <- <-].
  split; [|done].
  destruct pm, (Z.eqb_spec h0 12); lia.
Qed.

Lemma replace_hm_fields (today : datetime) (h m : Z) :
  0 <= h <= 23 → 0 <= m <= 59 →
  DT.toordinal (DT.replace_hm today h m) = DT.toordinal today
  ∧ DT.hour (DT.replace_hm today h m) = h
  ∧ DT.minute (DT.replace_hm today h m) = m
  ∧ DT.replace_hm today h m mod DT.us_per_minute = 0.
Proof.
  intros Hh Hm.
  unfold DT.hour, DT.minute, DT.replace_hm, DT.toordinal, DT.us_per_day,
    DT.us_per_hour, DT.us_per_minute.
  set (d := today / 86400000000).
  repeat split.
  - symmetry. apply (Z.div_unique _ _ _ (h * 3600000000 + m * 60000000)); lia.
  - assert ((d * 86400000000 + h * 3600000000 + m * 60000000)
            mod 86400000000 = h * 3600000000 + m * 60000000) as ->.
    { symmetry. apply (Z.mod_unique _ _ d); lia. }
    symmetry. apply (Z.div_unique _ _ _ (m * 60000000)); lia.
  - assert ((d * 86400000000 + h * 3600000000 + m * 60000000)
            mod 3600000000 = m * 60000000) as ->.
    { symmetry. apply (Z.mod_unique _ _ (d * 24 + h)); lia. }
    symmetry. apply (Z.div_unique _ _ _ 0); lia.
  - symmetry. apply (Z.mod_unique _ _ (d * 1440 + h * 60 + m)); lia.
Qed.

(** X25.  Given the same reading of the clock, the three
    [_parse_time_string] functions (of the position calculator, the
    timeline generator and the delay simulator) return the same on every
    value, [None] included, and the reading matters only through its date.
    They return [None] for a value that is not a string, for the empty
    string and for ['---'].  A time they return lies on the day of the
    reading, at a whole minute, with the hour (0 to 23) and minute (0 to
    59) read from the text. *)
Theorem parse_time_string_on_clock_day (today : datetime) (v : pyval) :
  TimelineGenerator._parse_time_string today v
  = PositionCalculator._parse_time_string today v
  ∧ DelaySimulator._parse_time_string today v
    = PositionCalculator._parse_time_string today v
  ∧ (∀ today', DT.toordinal today' = DT.toordinal today →
       PositionCalculator._parse_time_string today' v
       = PositionCalculator._parse_time_string today v)
  ∧ ((∀ s, v ≠ PyStr s) ∨ v = PyStr "" ∨ v = PyStr "---" →
     PositionCalculator._parse_time_string today v = None)
  ∧ ∀ t, PositionCalculator._parse_time_string today v = Some t →
         DT.toordinal t = DT.toordinal today
         ∧ 0 <= DT.hour t <= 23
         ∧ 0 <= DT.minute t <= 59
         ∧ t = DT.at_hm (DT.toordinal today) (DT.hour t) (DT.minute t)
         ∧ ∃ s, v = PyStr s ∧ s ≠ "" ∧ s ≠ "---".
Proof.
  split; [apply parse_time_string_agree|]. split; [done|].
  split; [intros today'; apply pc_parse_same_day|].
  split.
  { intros [Hv|[->| ->]]; [|done..].
    destruct v; try done. by destruct (Hv s). }
  intros t Hparse.
  destruct v as [| | | |s| | |]; try discriminate.
  cbn [PositionCalculator._parse_time_string] in Hparse.
  destruct (Strptime.strptime _) as [[h m]|] eqn:Hs; [|done].
  injection Hparse as <-.
  apply strptime_range in Hs as Hrange. destruct Hrange as [Hh Hm].
  destruct (replace_hm_fields today h m Hh Hm) as (Hd & Hh' & Hm' & _).
  rewrite Hd, Hh', Hm'.
  split; [done|]. split; [done|]. split; [done|]. split; [done|].
  exists s. split; [done|]. split; intros ->; discriminate.
Qed.


End ParseFacts.

Section SummaryFacts.

Import CrowdValidation.

(** X26.  [get_all_train_validations] never takes its [except] branch:
    the summary has an entry for exactly the trains of the store, with the
    train's [total_confirmations] and [last_updated], the number of its
    confirmations newer than the clock less two hours, and the crowd level
    of that number.  In a store reached by confirmations, removals and
    clean-ups the active confirmations of an entry are at most its total,
    and its level is 'low' exactly when there is none. *)
Theorem all_train_validations_summary (st : validations) (clock : datetime) :
  get_all_train_validations st clock
  = (fun data : train_data =>
       let active :=
         Z.of_nat (length (_get_active_confirmations clock
                             (confirmations data))) in
       {| vs_total_confirmations := total_confirmations data;
          vs_active_confirmations := active;
          vs_crowd_level := _determine_crowd_level active;
          vs_last_updated := last_updated data |}) <$> st
  ∧ (store_reachable st →
     ∀ train entry,
       get_all_train_validations st clock !! train = Some entry →
       0 <= vs_active_confirmations entry <= vs_total_confirmations entry
       ∧ (vs_crowd_level entry = "low" ↔ vs_active_confirmations entry = 0)).
Proof.
  set (g := fun data : train_data => _).
  assert (get_all_train_validations st clock = g <$> st) as Heq.
  { unfold get_all_train_validations.
    assert (mapM (fun kv : string * train_data =>
                    entry ← summary_entry st clock kv.1 kv.2;
                    Some (kv.1, entry)) (map_to_list st)
            = Some (prod_map id g <$> map_to_list st)) as ->.
    { apply mapM_Some, Forall2_fmap_r, Forall_Forall2_diag, Forall_forall.
      intros [train data] Hin%elem_of_map_to_list. cbn [fst snd compose].
      unfold summary_entry.
      destruct (crowd_data_entries st clock train) as (-> & -> & _).
      rewrite Hin. reflexivity. }
    by rewrite list_to_map_fmap, list_to_map_to_list. }
  split; [done|].
  intros Hreach train entry. rewrite Heq, lookup_fmap.
  destruct (st !! train) as [data|] eqn:Hdata; [|done].
  intros [= <-]. subst g. cbn.
  destruct (store_reachable_lists st Hreach train data Hdata) as [_ ->].
  pose proof (List.filter_length_le
                (fun conf => DT.sub_hours clock 2 <? timestamp conf)
                (confirmations data)) as Hle.
  fold (_get_active_confirmations clock (confirmations data)) in Hle.
  split; [lia|]. apply crowd_level_low. lia.
Qed.

Lemma all_train_validations_summary_witness :
  get_all_train_validations store_701 at_10_30 !! "701"
  = Some {| vs_total_confirmations := 4;
            vs_active_confirmations := 4;
            vs_crowd_level := "medium";
            vs_last_updated := at_10_02 |}.
Proof.
  rewrite (proj1 (all_train_validations_summary store_701 at_10_30)).
  reflexivity.
Defined.

End SummaryFacts.

(** * Properties of the runtime functions *)

Section RuntimeDelay.

Import DelaySimulator.

(** C3.  [simulate_delay] returns for every call (any train, station,
    scheduled time, current time and weather label) [delay_minutes]
    between 0 and 120, [actual_time] equal to [scheduled_time] plus
    [delay_minutes] minutes, and the weather label it was given.  For a
    station name it reports the four factors of the product (weather, time
    of day, day of week, station), the delay being the product of doubles
    cut to an integer and clamped, whenever the scheduled time plus that
    delay is not past [datetime.max], so for every scheduled time at least
    120 minutes before it; past [datetime.max] the sum raises, and the call
    returns delay 0 with no factor and records nothing, as it does for a
    station that is not a string. *)
Theorem simulate_delay_report (h : history) (clock : datetime) (rnd : draws)
  (train : string) (station : pyval) (scheduled now : datetime)
  (weather_label : string) :
  let r := Runtime.simulate_delay h clock rnd train station scheduled now
             weather_label in
  (0 <= delay_minutes r.1 <= 120
   ∧ scheduled_time r.1 = scheduled
   ∧ actual_time r.1 = DT.add_minutes scheduled (delay_minutes r.1)
   ∧ weather_condition r.1 = weather_label)
  ∧ (∀ station_name, station = PyStr station_name →
     let w := default 1.0%Q (weather_factors !! weather_label) in
     let t := _get_time_factor now in
     let d := _get_day_factor now in
     let s := _get_station_factor station_name in
     let product :=
       Runtime.fmul
         (Runtime.fmul
            (Runtime.fmul
               (Runtime.fmul
                  (Runtime.float
                     (inject_Z (Runtime._calculate_base_delay rnd)))
                  (Runtime.float w))
               (Runtime.float t))
            (Runtime.float d))
         (Runtime.float s) in
     let computed :=
       Z.max 0
         (Z.min (PyOps.trunc (Runtime.fmul product (jitter rnd))) 120) in
     (DT.add_minutes scheduled computed <= Runtime.datetime_max →
      delay_minutes r.1 = computed
      ∧ factors_applied r.1
        = Some {| weather := w; time_of_day := t; day_of_week := d;
                  station := s |}
      ∧ r.2
        = _update_historical_patterns h clock train station_name computed)
     ∧ (Runtime.datetime_max < DT.add_minutes scheduled computed →
        delay_minutes r.1 = 0 ∧ factors_applied r.1 = None ∧ r.2 = h)
     ∧ (DT.add_minutes scheduled 120 <= Runtime.datetime_max →
        factors_applied r.1
        = Some {| weather := w; time_of_day := t; day_of_week := d;
                  station := s |}))
  ∧ ((∀ station_name, station ≠ PyStr station_name) →
     delay_minutes r.1 = 0 ∧ factors_applied r.1 = None ∧ r.2 = h).
Proof.
  cbn zeta.
  assert (DT.add_minutes scheduled 0 = scheduled) as Hzero
    by (unfold DT.add_minutes; lia).
  destruct station as [| | | |station_name| | |];
    try (cbn [Runtime.simulate_delay fst snd delay_minutes scheduled_time
                actual_time weather_condition factors_applied];
         rewrite Hzero;
         split; [repeat split; lia|split; [discriminate|done]]).
  unfold Runtime.simulate_delay, Runtime.add_minutes.
  set (computed := Z.max 0 (Z.min _ 120)).
  assert (0 <= computed <= 120) as Hc by (subst computed; lia).
  split; [|split; [|intros Hs; by destruct (Hs station_name)]].
  - destruct (Z.ltb_spec Runtime.datetime_max
                (DT.add_minutes scheduled computed)) as [Hover|Hin];
      cbn [fst snd delay_minutes scheduled_time actual_time
             weather_condition factors_applied];
      [by rewrite Hzero|done].
  - intros ? [= <-]. fold computed.
    destruct (Z.ltb_spec Runtime.datetime_max
                (DT.add_minutes scheduled computed)) as [Hover|Hin];
      cbn [fst snd delay_minutes scheduled_time actual_time
             weather_condition factors_applied].
    + split; [lia|]. split; [done|].
      unfold DT.add_minutes, DT.us_per_minute in *. lia.
    + split; [done|]. split; [lia|done].
Qed.

Lemma simulate_delay_report_witness :
  delay_minutes
    (Runtime.simulate_delay ∅ at_10_30 draws_delayed_25 "701"
       (PyStr "Chattogram") at_10_30 at_10_30 "foggy").1 = 62
  ∧ factors_applied
      (Runtime.simulate_delay ∅ at_10_30 draws_delayed_25 "701"
         (PyStr "Chattogram") at_10_30 at_10_30 "foggy").1
    = Some {| weather := 1.8; time_of_day := 1.0; day_of_week := 1.0;
              station := 1.4 |}.
Proof.
  destruct (proj1 (proj1 (proj2 (simulate_delay_report ∅ at_10_30
                                   draws_delayed_25 "701"
                                   (PyStr "Chattogram") at_10_30 at_10_30
                                   "foggy")) "Chattogram" eq_refl))
    as (Hd & Hf & _).
  - vm_compute. discriminate.
  - split; [exact Hd|exact Hf].
Defined.

(** C3, a scheduled time ten minutes before [datetime.max]: the delay of
    22 minutes computed for the call cannot be added, and the call
    returns delay 0 and no factor. *)
Lemma simulate_delay_near_datetime_max :
  (Runtime.simulate_delay ∅ at_10_30 draws_delayed "701" (PyStr "Dhaka")
     near_datetime_max at_10_30 "rainy")
  = ({| delay_minutes := 0;
        scheduled_time := near_datetime_max;
        actual_time := near_datetime_max;
        weather_condition := "rainy";
        factors_applied := None |},
     ∅)
  ∧ delay_minutes
      (Runtime.simulate_delay ∅ at_10_30 draws_delayed "701" (PyStr "Dhaka")
         at_10_30 at_10_30 "rainy").1 = 22.
Proof. split; vm_compute; reflexivity. Qed.

End RuntimeDelay.

(** ** The histories of the simulator *)

Section RuntimeHistory.

Import DelaySimulator.

(** [int] of a float that is a whole number. *)
Lemma trunc_whole (q : Q) (d : Z) : (q == inject_Z d)%Q → PyOps.trunc q = d.
Proof.
  unfold Qeq, PyOps.trunc. simpl. intros H.
  rewrite Z.mul_1_r in H. rewrite H. by apply Z.quot_mul.
Qed.

Lemma whole_product (x s : Q) :
  s ∈ [1.5; 1.4; 1.2; 1.1; 1.0]%Q →
  (x * 1.0 * 1.0 * 1.0 * s * / s == x)%Q.
Proof.
  intros Hs.
  repeat (apply elem_of_cons in Hs as [->|Hs]);
    [..|by apply elem_of_nil in Hs]; field; done.
Qed.

(** Every observation of a delay between 0 and 120 can be recorded by a
    call of the exact model. *)
Lemma update_reachable h clock train station d :
  reachable h → 0 <= d <= 120 →
  reachable (_update_historical_patterns h clock train station d).
Proof.
  intros Hr Hd.
  pose (rnd := {| base_roll := 0; base_minutes := d;
                  jitter := / _get_station_factor station |}).
  pose proof (reachable_call h clock rnd train (PyStr station) 0 at_10_30
                "clear" Hr) as Hcall.
  rewrite simulate_delay_history in Hcall.
  replace (delay_minutes
             (simulate_delay h clock rnd train (PyStr station) 0 at_10_30
                "clear").1) with d in Hcall; [exact Hcall|].
  unfold simulate_delay. cbn [fst delay_minutes].
  change (_calculate_base_delay rnd) with d.
  change (default 1.0%Q (weather_factors !! "clear")) with 1.0%Q.
  change (_get_time_factor at_10_30) with 1.0%Q.
  change (_get_day_factor at_10_30) with 1.0%Q.
  cbn [jitter rnd].
  rewrite (trunc_whole _ d); [lia|].
  apply whole_product, station_factor_values.
Qed.

(** The histories the simulator reaches are among those of the exact
    model. *)
Lemma runtime_reachable h : Runtime.reachable h → reachable h.
Proof.
  induction 1 as [|h clock rnd train station scheduled now w _ IH];
    [constructor|].
  unfold Runtime.simulate_delay.
  destruct station; try exact IH.
  destruct (Runtime.add_minutes _ _); [|exact IH].
  apply update_reachable; [exact IH|]. simpl. lia.
Qed.

Lemma runtime_reachable_iter (f : history → history) (n : nat) :
  (∀ h, Runtime.reachable h → Runtime.reachable (f h)) →
  Runtime.reachable (Nat.iter n f ∅).
Proof.
  intros Hf. induction n as [|n IH]; [constructor|].
  simpl. by apply Hf.
Qed.

Lemma history_100_reachable : Runtime.reachable history_100.
Proof.
  replace history_100
    with (Nat.iter 100
            (fun h => (Runtime.simulate_delay h at_10_30 draws_delayed "701"
                         (PyStr "Dhaka") at_10_30 at_10_30 "rainy").2) ∅)
    by (vm_compute; reflexivity).
  apply runtime_reachable_iter. intros h Hh. by constructor.
Qed.

(** X9.  When [get_historical_delay_stats] returns statistics they are
    those of a non-empty list of delays recorded for the train: the bucket
    of the station asked for, or the buckets of all its stations when none
    is.  [total_delays] is the length of the list, [min_delay] and
    [max_delay] are members of it with every delay between them, the
    average lies between them, and the four distribution counts add up to
    [total_delays].  In a history that calls of [simulate_delay] lead to
    from a fresh simulator every delay of the list, and so the minimum, the
    maximum and the average, is between 0 and 120, and the list of one
    station has at most 100 delays. *)
Theorem historical_delay_stats_bounds (h : history) (train : string)
  (station : option string) (stats : delay_stats) :
  get_historical_delay_stats h train station = inr stats →
  ∃ delays : list Z,
    delays ≠ []
    ∧ (∀ x, x ∈ delays →
         ∃ s b o, bucket_of h train s = Some b ∧ o ∈ b ∧ delay o = x)
    ∧ (∀ s, station = Some s → s ≠ "" → delays = delay <$> bucket h train s)
    ∧ (station = None ∨ station = Some "" →
       ∀ s o, o ∈ bucket h train s → delay o ∈ delays)
    ∧ total_delays stats = Z.of_nat (length delays)
    ∧ min_delay stats ∈ delays
    ∧ max_delay stats ∈ delays
    ∧ (∀ x, x ∈ delays → min_delay stats <= x <= max_delay stats)
    ∧ (inject_Z (min_delay stats) <= average_delay stats
       <= inject_Z (max_delay stats))%Q
    ∧ (let '(d0, d1, d2, d3) := delay_distribution stats in
       d0 + d1 + d2 + d3 = total_delays stats)
    ∧ (Runtime.reachable h →
       (∀ x, x ∈ delays → 0 <= x <= 120)
       ∧ 0 <= min_delay stats
       ∧ max_delay stats <= 120
       ∧ (0 <= average_delay stats <= 120)%Q
       ∧ ∀ s, station = Some s → s ≠ "" → total_delays stats <= 100).
Proof.
  unfold get_historical_delay_stats.
  destruct (h !! train) as [per_train|] eqn:Htrain; [|discriminate].
  set (delays_or_error := match station with Some _ => _ | None => _ end).
  destruct delays_or_error as [msg|delays] eqn:Hdelays; [discriminate|].
  destruct delays as [|d ds] eqn:Hds; [discriminate|].
  rewrite <- Hds in *.
  assert (delays ≠ []) as Hne by (rewrite Hds; done).
  intros [= <-]. cbn [total_delays min_delay max_delay average_delay
                       delay_distribution].
  destruct (stats_of_delays delays Hne) as (HM & Hm & Hb & Havg).
  assert (∀ s b, bucket_of h train s = Some b ↔ per_train !! s = Some b)
    as Hbucket.
  { intros s b. unfold bucket_of. by rewrite Htrain. }
  assert (∀ x, x ∈ delay <$> concat (map_to_list per_train).*2 →
            ∃ s b o, bucket_of h train s = Some b ∧ o ∈ b ∧ delay o = x)
    as Hall_in.
  { intros x (o & -> & Ho)%list_elem_of_fmap.
    apply list_elem_of_In, in_concat in Ho as (b & Hb' & Ho).
    apply list_elem_of_In, list_elem_of_fmap in Hb' as ([s b'] & -> & Hsb).
    apply elem_of_map_to_list in Hsb.
    exists s, b', o. rewrite Hbucket. by rewrite list_elem_of_In. }
  assert (∀ s o, o ∈ bucket h train s →
            delay o ∈ delay <$> concat (map_to_list per_train).*2)
    as Hin_all.
  { intros s o. unfold bucket.
    destruct (bucket_of h train s) as [b|] eqn:Hb'; simpl;
      [|by intros ?%elem_of_nil].
    intros Ho. apply list_elem_of_fmap. exists o. split; [done|].
    apply list_elem_of_In, in_concat. exists b.
    split; [|by apply list_elem_of_In].
    apply list_elem_of_In, list_elem_of_fmap. exists (s, b).
    split; [done|]. apply elem_of_map_to_list. by apply Hbucket. }
  assert (∀ x, x ∈ delays →
            ∃ s b o, bucket_of h train s = Some b ∧ o ∈ b ∧ delay o = x)
    as Hfrom.
  { subst delays_or_error. destruct station as [s|].
    - destruct (String.eqb_spec s ""); simpl in Hdelays.
      + injection Hdelays as <-. exact Hall_in.
      + destruct (per_train !! s) as [b|] eqn:Hb'; [|discriminate].
        injection Hdelays as <-.
        intros x (o & -> & Ho)%list_elem_of_fmap.
        exists s, b, o. by rewrite Hbucket.
    - injection Hdelays as <-. exact Hall_in. }
  exists delays.
  split; [exact Hne|]. split; [exact Hfrom|].
  split.
  { intros s -> Hs. subst delays_or_error.
    destruct (String.eqb_spec s ""); [done|]. simpl in Hdelays.
    destruct (per_train !! s) as [b|] eqn:Hb'; [|discriminate].
    injection Hdelays as <-.
    unfold bucket. rewrite (proj2 (Hbucket s b) Hb'). done. }
  split.
  { intros Hst. subst delays_or_error.
    assert (delays = delay <$> concat (map_to_list per_train).*2) as ->.
    { destruct Hst as [->| ->]; simpl in Hdelays; congruence. }
    exact Hin_all. }
  split; [done|]. split; [exact Hm|]. split; [exact HM|].
  split; [exact Hb|]. split; [exact Havg|].
  split.
  { pose proof (delay_distribution_counts_aux delays) as Hd.
    destruct (_get_delay_distribution delays) as [[[d0 d1] d2] d3]. lia. }
  intros Hreach%runtime_reachable.
  assert (∀ x, x ∈ delays → 0 <= x <= 120) as Hrange.
  { intros x (s & b & o & Hbo & Ho & <-)%Hfrom.
    pose proof (reachable_delays_in_range h Hreach _ _ _ Hbo) as Hall.
    rewrite Forall_forall in Hall. by apply Hall. }
  pose proof (Hrange _ Hm) as Hm'. pose proof (Hrange _ HM) as HM'.
  split; [exact Hrange|]. split; [lia|]. split; [lia|].
  split.
  { destruct Havg as [Hlo Hhi]. split.
    - eapply Qle_trans; [|exact Hlo].
      change 0%Q with (inject_Z 0). rewrite <- Zle_Qle. lia.
    - eapply Qle_trans; [exact Hhi|].
      change 120%Q with (inject_Z 120). rewrite <- Zle_Qle. lia. }
  intros s -> Hs. subst delays_or_error.
  destruct (String.eqb_spec s ""); [done|]. simpl in Hdelays.
  destruct (per_train !! s) as [b|] eqn:Hb'; [|discriminate].
  injection Hdelays as <-. rewrite length_fmap.
  destruct (reachable_buckets_ok h Hreach train s b) as [_ Hlen];
    [by apply Hbucket|].
  lia.
Qed.

Lemma historical_delay_stats_bounds_witness :
  Runtime.reachable history_100
  ∧ ∃ delays : list Z,
      delays = delay <$> bucket history_100 "701" "Dhaka"
      ∧ 100 = Z.of_nat (length delays)
      ∧ 22 ∈ delays
      ∧ (∀ x, x ∈ delays → 22 <= x <= 22).
Proof.
  split; [exact history_100_reachable|].
  destruct (historical_delay_stats_bounds history_100 "701" (Some "Dhaka")
              {| total_delays := 100;
                 average_delay := 22.0;
                 max_delay := 22;
                 min_delay := 22;
                 delay_distribution := (0, 100, 0, 0) |})
    as (delays & _ & _ & Hbucket & _ & Hlen & Hmin & _ & Hall & _).
  - vm_compute. reflexivity.
  - exists delays. split; [by apply (Hbucket "Dhaka")|].
    split; [exact Hlen|]. split; [exact Hmin|exact Hall].
Defined.

End RuntimeHistory.

Section RuntimeScans.

Import Runtime.

(** With a naive current time, stops that are objects and every reading
    of the clock on the day of [today], the runtime loops are the loops of
    one reading. *)
Lemma position_scan_one_day (clock : nat → datetime) (today now : datetime)
  (routes : list stop) :
  (∀ j, DT.toordinal (clock j) = DT.toordinal today) →
  ∀ i : nat,
    position_scan clock (Naive now) i (Stop <$> routes)
    = match PositionCalculator.scan_from today now (Z.of_nat i) routes with
      | Some idx => Found idx
      | None => Exhausted
      end.
Proof.
  intros Hday. induction routes as [|route rest IH]; intros i; [done|].
  rewrite fmap_cons.
  cbn [position_scan PositionCalculator.scan_from later].
  rewrite IH. replace (Z.of_nat (S i)) with (Z.of_nat i + 1) by lia.
  destruct (route !! "departure_time") as [v|]; [|done].
  destruct (truthy v); [|done].
  rewrite (pc_parse_same_day today (clock i)) by done.
  destruct (PositionCalculator._parse_time_string today v) as [d|]; [|done].
  by destruct (now <? d).
Qed.

Lemma timeline_scan_one_day (clock : nat → datetime) (today now : datetime)
  (routes : list stop) :
  (∀ j, DT.toordinal (clock j) = DT.toordinal today) →
  ∀ i : nat,
    timeline_scan clock (Naive now) i (Stop <$> routes)
    = match PositionCalculator.scan_from today now (Z.of_nat i) routes with
      | Some idx => Found idx
      | None => Exhausted
      end.
Proof.
  intros Hday. induction routes as [|route rest IH]; intros i; [done|].
  rewrite fmap_cons.
  cbn [timeline_scan PositionCalculator.scan_from later].
  rewrite IH. replace (Z.of_nat (S i)) with (Z.of_nat i + 1) by lia.
  destruct (route !! "departure_time") as [v|]; [|done].
  destruct (truthy v); [|done].
  rewrite parse_time_string_agree.
  rewrite (pc_parse_same_day today (clock i)) by done.
  destruct (PositionCalculator._parse_time_string today v) as [d|]; [|done].
  by destruct (now <? d).
Qed.

Lemma find_current_station_index_one_day (clock : nat → datetime)
  (today now : datetime) (routes : list stop) :
  (∀ j, DT.toordinal (clock j) = DT.toordinal today) →
  _find_current_station_index clock (Naive now) (Stop <$> routes)
  = Some (scan_rule today now routes).
Proof.
  intros Hday. unfold _find_current_station_index.
  rewrite (position_scan_one_day clock today) by done.
  rewrite <- pc_find_scan_rule.
  unfold PositionCalculator._find_current_station_index.
  rewrite length_fmap. change (Z.of_nat 0) with 0.
  by destruct (PositionCalculator.scan_from today now 0 routes).
Qed.

Lemma find_current_position_one_day (clock : nat → datetime)
  (today now : datetime) (routes : list stop) :
  (∀ j, DT.toordinal (clock j) = DT.toordinal today) →
  _find_current_position clock (Naive now) (Stop <$> routes)
  = scan_rule today now routes.
Proof.
  intros Hday. unfold _find_current_position.
  rewrite (timeline_scan_one_day clock today) by done.
  rewrite <- pc_find_scan_rule.
  unfold PositionCalculator._find_current_station_index.
  rewrite length_fmap. change (Z.of_nat 0) with 0.
  by destruct (PositionCalculator.scan_from today now 0 routes).
Qed.

(** C7.  The scan of PositionCalculator and the scan of
    TrainTimelineGenerator return the same index for every route whose
    entries are objects and every naive current time, whenever all the
    readings of the clock the two make in their parses fall on one day:
    the index of the scan rule, one before the first stop whose parsed
    departure is strictly after the current time (never below 0), else
    [len(routes) - 1]. *)
Theorem position_scans_agree (position_clock timeline_clock : nat → datetime)
  (today now : datetime) (routes : list stop) :
  (∀ j, DT.toordinal (position_clock j) = DT.toordinal today) →
  (∀ j, DT.toordinal (timeline_clock j) = DT.toordinal today) →
  _find_current_station_index position_clock (Naive now) (Stop <$> routes)
  = Some (_find_current_position timeline_clock (Naive now)
            (Stop <$> routes))
  ∧ _find_current_position timeline_clock (Naive now) (Stop <$> routes)
    = scan_rule today now routes.
Proof.
  intros Hp Ht.
  rewrite (find_current_station_index_one_day position_clock today),
    (find_current_position_one_day timeline_clock today) by done.
  done.
Qed.

Lemma position_scans_agree_witness :
  _find_current_station_index ticking (Naive at_10_02) (Stop <$> route_abc)
  = Some (_find_current_position (fun j => ticking (S j)) (Naive at_10_02)
            (Stop <$> route_abc)).
Proof.
  apply (position_scans_agree ticking (fun j => ticking (S j)) at_10_30
           at_10_02 route_abc).
  - intros [|[|j]]; reflexivity.
  - intros [|j]; reflexivity.
Defined.

(** C7, where the two scans differ on the three-stop route: when the
    clock passes midnight between them (the position scan reads it at
    23:59, the timeline scan on the next day), on an offset-aware current
    time (the position scan skips every comparison that raises, the
    timeline scan stops at the first), and on an entry that is no object
    (the position scan returns [None], the timeline scan 0). *)
Lemma position_scans_differ :
  (_find_current_station_index (fun _ => at_23_59) (Naive at_23_59)
     (Stop <$> route_abc) = Some 2
   ∧ _find_current_position next_day (Naive at_23_59) (Stop <$> route_abc)
     = 0)
  ∧ (_find_current_station_index ticking (Aware at_10_02)
       (Stop <$> route_abc) = Some 2
     ∧ _find_current_position ticking (Aware at_10_02) (Stop <$> route_abc)
       = 0)
  ∧ (_find_current_station_index ticking (Naive at_10_02)
       (NotAStop :: (Stop <$> route_abc)) = None
     ∧ _find_current_position ticking (Naive at_10_02)
         (NotAStop :: (Stop <$> route_abc)) = 0).
Proof. repeat split; vm_compute; reflexivity. Qed.

(** *** The tags *)

Lemma determine_station_status_one_day (clock : nat → datetime)
  (today now : datetime) (routes : list stop) (station_idx : Z) :
  (∀ j, DT.toordinal (clock j) = DT.toordinal today) →
  _determine_station_status clock station_idx (Stop <$> routes) (Naive now)
  = TimelineGenerator._determine_station_status today station_idx routes now.
Proof.
  intros Hday.
  unfold _determine_station_status,
    TimelineGenerator._determine_station_status.
  by rewrite (find_current_position_one_day clock today), tg_find_scan_rule.
Qed.

Lemma station_tags_one_day (clock : nat → nat → datetime)
  (today now : datetime) (routes : list stop) :
  (∀ i j, DT.toordinal (clock i j) = DT.toordinal today) →
  station_tags clock (Naive now) (Stop <$> routes)
  = TimelineGenerator.station_tags today now routes.
Proof.
  intros Hday. unfold station_tags, TimelineGenerator.station_tags.
  rewrite length_fmap. apply list_fmap_ext. intros k i _.
  by apply determine_station_status_one_day.
Qed.

End RuntimeScans.

(** ** The status report *)

Section RuntimeReport.

Import TimelineGenerator.

Lemma runtime_simulate_delay_effects h clock rnd train station sched now w :
  let r := Runtime.simulate_delay h clock rnd train station sched now w in
  0 <= DelaySimulator.delay_minutes r.1 <= 120
  ∧ ∀ train', train' ≠ train → r.2 !! train' = h !! train'.
Proof.
  cbn zeta. unfold Runtime.simulate_delay.
  destruct station; try (simpl; split; [lia|done]).
  destruct (Runtime.add_minutes _ _); simpl; (split; [lia|]); [|done].
  intros train' Hne. unfold DelaySimulator._update_historical_patterns.
  by rewrite lookup_insert_ne.
Qed.

Lemma runtime_station_delays_effects (h : DelaySimulator.history)
  (weather_clock arrival_clock departure_clock : datetime)
  (rnd : stop_draws) (name : pyval) (sa sd : option datetime)
  (now : datetime) :
  let r := Runtime._simulate_station_delays h weather_clock arrival_clock
             departure_clock rnd name sa sd now in
  0 <= sd_delay_minutes r.1 <= 120
  ∧ (Runtime.reachable h → Runtime.reachable r.2)
  ∧ ∀ train', train' ≠ "STATION_SIMULATION" → r.2 !! train' = h !! train'.
Proof.
  cbn zeta. unfold Runtime._simulate_station_delays.
  set (w := DelaySimulator.get_weather_condition weather_clock
              (delay_weather_roll rnd)).
  assert (∀ h clock rnd sched,
            let r := Runtime.simulate_delay h clock rnd
                       "STATION_SIMULATION" name sched now w in
            0 <= DelaySimulator.delay_minutes r.1 <= 120
            ∧ (Runtime.reachable h → Runtime.reachable r.2)
            ∧ ∀ train', train' ≠ "STATION_SIMULATION" →
                        r.2 !! train' = h !! train') as Hstep.
  { intros h0 clock0 rnd0 sched. cbn zeta.
    destruct (runtime_simulate_delay_effects h0 clock0 rnd0
                "STATION_SIMULATION" name sched now w) as [Hb Ho].
    split; [exact Hb|]. split; [|exact Ho].
    intros Hr. by constructor. }
  destruct sa as [sa|], sd as [sd|].
  - destruct (Hstep h arrival_clock (arrival_draws rnd) sa)
      as (Hb1 & Hr1 & Ho1).
    destruct (Runtime.simulate_delay h arrival_clock (arrival_draws rnd) _ _
                sa now w) as [ia h1].
    destruct (Hstep h1 departure_clock (departure_draws rnd) sd)
      as (Hb2 & Hr2 & Ho2).
    destruct (Runtime.simulate_delay h1 departure_clock
                (departure_draws rnd) _ _ sd now w) as [id h2].
    simpl in *. split; [lia|]. split; [tauto|].
    intros train' Hne. by rewrite Ho2, Ho1.
  - destruct (Hstep h arrival_clock (arrival_draws rnd) sa)
      as (Hb1 & Hr1 & Ho1).
    destruct (Runtime.simulate_delay h arrival_clock (arrival_draws rnd) _ _
                sa now w) as [ia h1].
    simpl in *. split; [lia|done].
  - destruct (Hstep h departure_clock (departure_draws rnd) sd)
      as (Hb2 & Hr2 & Ho2).
    destruct (Runtime.simulate_delay h departure_clock
                (departure_draws rnd) _ _ sd now w) as [id h2].
    simpl in *. split; [lia|done].
  - simpl. split; [lia|done].
Qed.

Lemma runtime_statuses_effects (l : Runtime.loader)
  (clock : Runtime.site → datetime) (rnd : nat → stop_draws)
  (routes : list stop) (now : datetime) (h0 : DelaySimulator.history) :
  ∀ rest i acc h,
    Forall (fun e => 0 <= delay_minutes e <= 120) acc →
    (Runtime.reachable h0 → Runtime.reachable h) →
    (∀ train', train' ≠ "STATION_SIMULATION" → h !! train' = h0 !! train') →
    let r := Runtime.station_statuses_from l clock rnd routes now i rest acc
               h in
    Forall (fun e => 0 <= delay_minutes e <= 120) r.1
    ∧ (Runtime.reachable h0 → Runtime.reachable r.2)
    ∧ ∀ train', train' ≠ "STATION_SIMULATION" → r.2 !! train' = h0 !! train'.
Proof.
  induction rest as [|route rest IH]; intros i acc h Hacc Hreach Hother;
    cbn zeta.
  - simpl. split; [|done]. by apply Forall_reverse.
  - cbn [Runtime.station_statuses_from].
    destruct (route !! "city") as [c|]; [|simpl; done].
    pose proof (runtime_station_delays_effects h
                  (clock (Runtime.delay_weather i))
                  (clock (Runtime.arrival_record i))
                  (clock (Runtime.departure_record i)) (rnd i) c
                  (_parse_time_string (clock (Runtime.arrival_parse i))
                     (default PyNone (route !! "arrival_time")))
                  (_parse_time_string (clock (Runtime.departure_parse i))
                     (default PyNone (route !! "departure_time")))
                  now) as (Hbound & Hr & Ho).
    destruct (Runtime._simulate_station_delays _ _ _ _ _ _ _ _ _)
      as [delay_info h'].
    simpl in Hbound, Hr, Ho.
    apply IH.
    + constructor; [exact Hbound|exact Hacc].
    + tauto.
    + intros train' Hne. by rewrite Ho, Hother.
Qed.

(** The entries of a route whose stops all name their city, field by
    field. *)
Lemma runtime_statuses_fields (l : Runtime.loader)
  (clock : Runtime.site → datetime) (rnd : nat → stop_draws)
  (routes : list stop) (now : datetime) :
  ∀ rest i acc h,
    drop i routes = rest →
    Forall (fun r : stop => is_Some (r !! "city")) rest →
    (fun e => (Some (station_name e), status e, distance_from_start e))
      <$> (Runtime.station_statuses_from l clock rnd routes now i rest acc
             h).1
    = ((fun e => (Some (station_name e), status e, distance_from_start e))
         <$> reverse acc)
      ++ ((fun k : nat =>
             (PositionCalculator.city_at routes k,
              Runtime._determine_station_status
                (fun j => clock (Runtime.status_parse k j)) (Z.of_nat k)
                (Runtime.Stop <$> routes) (Runtime.Naive now),
              PyOps.round
                (Runtime._calculate_distance_from_start l routes k) 2))
            <$> seq i (length rest)).
Proof.
  induction rest as [|route rest IH]; intros i acc h Hdrop Hc.
  - simpl. by rewrite app_nil_r.
  - apply Forall_cons in Hc as [[c Hcity] Hc].
    assert (routes !! i = Some route) as Hi.
    { rewrite <- (Nat.add_0_r i), <- lookup_drop, Hdrop. done. }
    assert (drop (S i) routes = rest) as Hdrop'.
    { replace (S i) with (i + 1)%nat by lia.
      rewrite <- drop_drop, Hdrop. done. }
    cbn [Runtime.station_statuses_from]. rewrite Hcity.
    destruct (Runtime._simulate_station_delays _ _ _ _ _ _ _ _ _)
      as [delay_info h'].
    rewrite IH by done.
    rewrite reverse_cons, fmap_app, <- app_assoc. simpl.
    unfold PositionCalculator.city_at at 2. rewrite Hi. simpl.
    by rewrite Hcity.
Qed.

(** The tags of the entries are those of [station_tags]. *)
Lemma runtime_statuses_tags (l : Runtime.loader)
  (h : DelaySimulator.history) (clock : Runtime.site → datetime)
  (rnd : nat → stop_draws) (routes : list stop) (now : datetime) :
  Forall (fun r : stop => is_Some (r !! "city")) routes →
  status <$> (Runtime._generate_station_statuses l h clock rnd routes now).1
  = Runtime.station_tags (fun i j => clock (Runtime.status_parse i j))
      (Runtime.Naive now) (Runtime.Stop <$> routes).
Proof.
  intros Hc.
  pose proof (runtime_statuses_fields l clock rnd routes now routes 0%nat []
                h eq_refl Hc) as Hfields.
  apply (f_equal (fmap (fun x : option pyval * station_status * Q =>
                          x.1.2))) in Hfields.
  simpl in Hfields. rewrite <- !list_fmap_compose in Hfields.
  unfold Runtime._generate_station_statuses, Runtime.station_tags.
  rewrite length_fmap.
  etrans; [|etrans; [exact Hfields|]]; by apply list_fmap_ext.
Qed.

(** X4.  The tags of the entries [_generate_station_statuses] returns
    for a route whose stops all name their city are those of one call of
    [_determine_station_status] per stop.  When all the readings of the
    clock made for the tags of a non-empty route fall on one day, exactly
    one stop is tagged [current]: the one at the index of the scan rule.
    The stops before it are the [completed] ones, the stop after it (if
    any) is the only one tagged [next], and the later stops are the
    [upcoming] ones.  When the day changes between the stops this fails:
    on the three-stop route, with the clock read at 23:59 for the first
    stop and after midnight for the others, the tags are [completed, next,
    upcoming]. *)
Theorem station_tags_one_current (l : Runtime.loader)
  (h : DelaySimulator.history) (clock : Runtime.site → datetime)
  (rnd : nat → stop_draws) (today now : datetime) (routes : list stop) :
  let tags :=
    Runtime.station_tags (fun i j => clock (Runtime.status_parse i j))
      (Runtime.Naive now) (Runtime.Stop <$> routes) in
  (Forall (fun r : stop => is_Some (r !! "city")) routes →
   status <$> (Runtime._generate_station_statuses l h clock rnd routes now).1
   = tags)
  ∧ ((∀ i j, DT.toordinal (clock (Runtime.status_parse i j))
             = DT.toordinal today) →
     routes ≠ [] →
     ∃ cp : nat,
       Z.of_nat cp = scan_rule today now routes
       ∧ (cp < length routes)%nat
       ∧ tags !! cp = Some current
       ∧ ∀ (i : nat) tag,
           tags !! i = Some tag →
           (tag = completed ↔ (i < cp)%nat)
           ∧ (tag = current ↔ i = cp)
           ∧ (tag = next ↔ i = S cp)
           ∧ (tag = upcoming ↔ (S cp < i)%nat))
  ∧ Runtime.station_tags
      (fun i j => midnight_clock (Runtime.status_parse i j))
      (Runtime.Naive at_23_59) (Runtime.Stop <$> route_abc)
    = [completed; next; upcoming].
Proof.
  cbn zeta. split; [apply runtime_statuses_tags|].
  split; [|vm_compute; reflexivity].
  intros Hday Hne.
  rewrite (station_tags_one_day
             (fun i j => clock (Runtime.status_parse i j)) today) by done.
  by apply station_tags_positions.
Qed.

Lemma station_tags_one_current_witness :
  ∃ cp : nat,
    Z.of_nat cp = scan_rule at_10_30 at_10_02 route_abc
    ∧ (cp < length route_abc)%nat
    ∧ Runtime.station_tags
        (fun i j => ticking_clock (Runtime.status_parse i j))
        (Runtime.Naive at_10_02) (Runtime.Stop <$> route_abc) !! cp
      = Some current.
Proof.
  destruct (proj1 (proj2
              (station_tags_one_current runtime_loader_test ∅ ticking_clock
                 (per_stop report_draws_test) at_10_30 at_10_02 route_abc)))
    as (cp & H1 & H2 & H3 & _).
  - intros [|[|i]] [|[|j]]; reflexivity.
  - discriminate.
  - exists cp. split; [exact H1|]. split; [exact H2|exact H3].
Defined.

(** X6.  [generate_train_status] returns the error 'Train schedule not
    found', and leaves the delay history alone, exactly for a train whose
    schedule is missing or is the empty object.  For any other train it
    returns a report, whatever the readings of the clock: the overall delay
    and every station delay lie between 0 and 120 minutes, the overall
    delay is a station delay when there is an entry, the only history
    touched is that of the train name 'STATION_SIMULATION', and the history
    stays one that calls of [simulate_delay] lead to from a fresh
    simulator. *)
Theorem generate_train_status_effects (l : Runtime.loader)
  (h : DelaySimulator.history) (now : datetime)
  (clock : Runtime.site → datetime) (rnd : report_draws) (train : string) :
  let r := Runtime.generate_train_status l h now clock rnd train in
  (Runtime.schedule_files l !! train = None
   ∨ Runtime.schedule_files l !! train = Some Runtime.EmptyObject →
   r = (inl "Train schedule not found", h))
  ∧ (∀ sch, Runtime.schedule_files l !! train = Some (Runtime.Object sch) →
     ∃ (report : train_status) h',
       r = (inr report, h')
       ∧ 0 <= ts_delay_minutes report <= 120
       ∧ Forall (fun e => 0 <= delay_minutes e <= 120)
           (ts_station_statuses report)
       ∧ (ts_station_statuses report ≠ [] →
          ts_delay_minutes report
          ∈ delay_minutes <$> ts_station_statuses report)
       ∧ (∀ e, e ∈ ts_station_statuses report →
               delay_minutes e <= ts_delay_minutes report)
       ∧ (∀ train', train' ≠ "STATION_SIMULATION" →
                    h' !! train' = h !! train')
       ∧ (Runtime.reachable h → Runtime.reachable h')
       ∧ (Forall (fun r : stop => is_Some (r !! "city")) (routes sch) →
          length (ts_station_statuses report) = length (routes sch))
       ∧ ts_train_number report = train
       ∧ ts_last_updated report = now).
Proof.
  cbn zeta. unfold Runtime.generate_train_status. split.
  - by intros [-> | ->].
  - intros sch ->.
    pose proof (runtime_statuses_effects l clock (per_stop rnd)
                  (routes sch) now h (routes sch) 0%nat [] h
                  (Forall_nil_2 _) (fun H => H) (fun _ _ => eq_refl))
      as (Hall & Hreach & Hother).
    pose proof (runtime_statuses_fields l clock (per_stop rnd)
                  (routes sch) now (routes sch) 0%nat [] h eq_refl)
      as Hfields.
    unfold Runtime._generate_station_statuses.
    destruct (Runtime.station_statuses_from _ _ _ _ _ _ _ _ _) as [sts h'].
    simpl in Hall, Hreach, Hother, Hfields.
    destruct (total_delay_is_max sts) as (Hmax & Hin & Hnil).
    assert (0 <= _calculate_total_delay sts <= 120) as Htotal.
    { destruct (decide (delay_minutes <$> sts = [])) as [Hd|Hd];
        [rewrite (Hnil Hd); lia|].
      apply Hin, list_elem_of_fmap in Hd as (e & -> & He).
      rewrite Forall_forall in Hall. apply (Hall e He). }
    eexists _, h'. split; [reflexivity|].
    cbn [ts_delay_minutes ts_station_statuses ts_train_number
           ts_last_updated].
    split; [exact Htotal|]. split; [exact Hall|].
    split.
    { intros Hne. apply Hin. by destruct sts. }
    split.
    { intros e He. apply Hmax, list_elem_of_fmap. by exists e. }
    split; [exact Hother|]. split; [exact Hreach|].
    split; [|done].
    intros Hc. apply Hfields, (f_equal length) in Hc.
    by rewrite !length_fmap, length_seq in Hc.
Qed.

Lemma generate_train_status_effects_witness :
  Runtime.generate_train_status runtime_loader_test ∅ at_10_30 ticking_clock
    report_draws_test "703"
  = (inl "Train schedule not found", ∅).
Proof.
  apply (proj1 (generate_train_status_effects runtime_loader_test ∅ at_10_30
                  ticking_clock report_draws_test "703")).
  right. reflexivity.
Defined.

(** X7.  For a train with at least two stops that all name their city,
    when the readings of the clock made for the tags and for the scan of
    the position all fall on one day, the report is consistent with its
    timeline: exactly one entry is tagged [current], the one at the index
    of the scan rule; the station the report names as current is the
    station of that entry, and the distance covered it reports is that
    entry's distance from the start of the route. *)
Theorem report_current_station_in_timeline (l : Runtime.loader)
  (h : DelaySimulator.history) (now : datetime)
  (clock : Runtime.site → datetime) (rnd : report_draws) (train : string)
  (sch : schedule) (today : datetime) :
  Runtime.schedule_files l !! train = Some (Runtime.Object sch) →
  (2 <= length (routes sch))%nat →
  Forall (fun r : stop => is_Some (r !! "city")) (routes sch) →
  (∀ i j, DT.toordinal (clock (Runtime.status_parse i j))
          = DT.toordinal today) →
  (∀ j, DT.toordinal (clock (Runtime.position_parse j))
        = DT.toordinal today) →
  ∃ (report : train_status) h' (i : nat) (e : station_entry),
    Runtime.generate_train_status l h now clock rnd train = (inr report, h')
    ∧ Z.of_nat i = scan_rule today now (routes sch)
    ∧ length (ts_station_statuses report) = length (routes sch)
    ∧ ts_station_statuses report !! i = Some e
    ∧ status e = current
    ∧ (∀ k e', ts_station_statuses report !! k = Some e' →
               status e' = current → k = i)
    ∧ ts_current_station report = Some (station_name e)
    ∧ ts_distance_covered report = distance_from_start e.
Proof.
  intros Hsch Hlen Hc Hstatus_day Hposition_day.
  assert (routes sch ≠ []) as Hne by (intros Hnil; rewrite Hnil in Hlen;
                                       simpl in Hlen; lia).
  pose proof (scan_rule_in_range today now (routes sch) Hne) as Hrange.
  set (cp := scan_rule today now (routes sch)) in *.
  (* the entries *)
  pose proof (runtime_statuses_fields l clock (per_stop rnd) (routes sch)
                now (routes sch) 0%nat [] h eq_refl Hc) as Hfields.
  simpl in Hfields.
  assert (∀ k : nat,
            Runtime._determine_station_status
              (fun j => clock (Runtime.status_parse k j)) (Z.of_nat k)
              (Runtime.Stop <$> routes sch) (Runtime.Naive now)
            = if Z.of_nat k <? cp then completed
              else if Z.of_nat k =? cp then current
              else if Z.of_nat k =? cp + 1 then next
              else upcoming) as Htag.
  { intros k.
    rewrite (determine_station_status_one_day _ today) by done.
    unfold _determine_station_status. by rewrite tg_find_scan_rule. }
  (* the position *)
  assert (Runtime._find_current_station_index
            (fun j => clock (Runtime.position_parse j)) (Runtime.Naive now)
            (Runtime.Stop <$> routes sch) = Some cp) as Hidx
    by (by apply find_current_station_index_one_day).
  assert (∀ k : nat, (k < length (routes sch))%nat →
            is_Some (PositionCalculator.city_at (routes sch) k)) as Hcity.
  { intros k Hk. unfold PositionCalculator.city_at.
    destruct (lookup_lt_is_Some_2 _ _ Hk) as [r Hk'].
    rewrite Hk'. simpl.
    rewrite Forall_forall in Hc. apply Hc.
    by eapply list_elem_of_lookup_2. }
  destruct (Hcity (Z.to_nat cp)) as [c Hcp]; [lia|].
  assert (∃ p,
            Runtime.calculate_train_position l
              (fun j => clock (Runtime.position_parse j))
              (clock Runtime.position_eta) train now = inr p
            ∧ PositionCalculator.current_station p = c
            ∧ PositionCalculator.distance_covered p
              = PyOps.round
                  (Runtime.prefix_distance l (routes sch) (Z.to_nat cp)) 2)
    as (p & Hp & Hpc & Hpd).
  { unfold Runtime.calculate_train_position.
    rewrite Hsch. destruct (routes sch) as [|r0 rest] eqn:Hr; [done|].
    cbv beta iota. rewrite <- Hr in *. rewrite Hidx.
    destruct (Z.eqb_spec (Z.of_nat (length (routes sch)) - 1) 0); [lia|].
    rewrite Hcp.
    destruct (Z.ltb_spec (cp + 1) (Z.of_nat (length (routes sch)))).
    - destruct (Hcity (Z.to_nat (cp + 1))) as [c' ->]; [lia|].
      eexists. split; [reflexivity|]. done.
    - eexists. split; [reflexivity|]. done. }
  unfold Runtime.generate_train_status. rewrite Hsch.
  unfold Runtime._generate_station_statuses.
  destruct (Runtime.station_statuses_from _ _ _ _ _ _ _ _ _) as [sts h'].
  simpl in Hfields. rewrite Hp.
  assert (length sts = length (routes sch)) as Hlen_sts.
  { apply (f_equal length) in Hfields.
    by rewrite !length_fmap, length_seq in Hfields. }
  assert (sts !! Z.to_nat cp ≠ None) as Hsome.
  { intros Hnone%lookup_ge_None. lia. }
  destruct (sts !! Z.to_nat cp) as [e|] eqn:He; [|done].
  assert (∀ k e', sts !! k = Some e' →
            PositionCalculator.city_at (routes sch) k
            = Some (station_name e')
            ∧ status e'
              = (if Z.of_nat k <? cp then completed
                 else if Z.of_nat k =? cp then current
                 else if Z.of_nat k =? cp + 1 then next
                 else upcoming)
            ∧ distance_from_start e'
              = PyOps.round
                  (Runtime._calculate_distance_from_start l (routes sch) k)
                  2) as Hentry.
  { intros k e' Hk.
    pose proof (lookup_lt_Some _ _ _ Hk) as Hlt.
    pose proof (f_equal (fun l => l !! k) Hfields) as Hk'.
    simpl in Hk'.
    rewrite !list_lookup_fmap, Hk, lookup_seq_lt in Hk' by lia.
    simpl in Hk'. rewrite Htag in Hk'.
    by injection Hk' as -> -> ->. }
  destruct (Hentry _ _ He) as (Hname & Hstatus & Hdist).
  rewrite Z2Nat.id in Hstatus by lia.
  rewrite Z.ltb_irrefl, Z.eqb_refl in Hstatus.
  eexists _, h', (Z.to_nat cp), e.
  split; [reflexivity|]. cbn.
  split; [lia|]. split; [exact Hlen_sts|]. split; [exact He|].
  split; [exact Hstatus|].
  split.
  { intros k e' Hk Hcur.
    destruct (Hentry _ _ Hk) as (_ & Hst & _). rewrite Hcur in Hst.
    destruct (Z.ltb_spec (Z.of_nat k) cp); [done|].
    destruct (Z.eqb_spec (Z.of_nat k) cp); [lia|].
    by destruct (Z.of_nat k =? cp + 1). }
  split.
  - rewrite Hpc. congruence.
  - rewrite Hpd, Hdist. unfold Runtime._calculate_distance_from_start.
    by destruct (Z.to_nat cp).
Qed.

Lemma report_current_station_in_timeline_witness :
  ∃ (report : train_status) h' (i : nat) (e : station_entry),
    Runtime.generate_train_status runtime_loader_test ∅ at_10_30
      ticking_clock report_draws_test "701"
    = (inr report, h')
    ∧ Z.of_nat i = scan_rule at_10_30 at_10_30 route_abc
    ∧ length (ts_station_statuses report) = length route_abc
    ∧ ts_station_statuses report !! i = Some e
    ∧ status e = current
    ∧ (∀ k e', ts_station_statuses report !! k = Some e' →
               status e' = current → k = i)
    ∧ ts_current_station report = Some (station_name e)
    ∧ ts_distance_covered report = distance_from_start e.
Proof.
  apply (report_current_station_in_timeline runtime_loader_test ∅ at_10_30
           ticking_clock report_draws_test "701"
           {| train_name := Some "Test Express"; routes := route_abc |}
           at_10_30).
  - reflexivity.
  - simpl. lia.
  - repeat constructor; by eexists.
  - intros [|[|i]] [|[|j]]; reflexivity.
  - intros [|j]; reflexivity.
Defined.

(** Without the condition on the clock the report can contradict its
    timeline: made at 23:59 with the day changing after the tag of the
    first stop, it names StationA as the current station while its entries
    are tagged [completed, next, upcoming]. *)
Lemma report_across_midnight :
  match (Runtime.generate_train_status runtime_loader_test ∅ at_23_59
           midnight_clock report_draws_test "701").1 with
  | inr report =>
      status <$> ts_station_statuses report = [completed; next; upcoming]
      ∧ ts_current_station report = Some (PyStr "StationA")
  | inl _ => False
  end.
Proof. vm_compute. split; reflexivity. Qed.

End RuntimeReport.
